(** * PricingSimulator: a shallow embedding of [backend/pricing_simulator.py]

    The class [PricingSimulator] holds four attributes (the product table,
    the historical observation table, the elasticity mapping and the cache
    of fitted models) and six methods.  Every method is embedded as a
    computation in a small state-and-exception monad over a record of those
    four attributes, so that what a method reads, what it writes and what
    it raises are all visible in its type.

    Numbers.  Python floats are embedded as exact rationals ([Q]): rounding
    is outside the model, comparisons are the exact ones.  The two places
    where the source leaves the finite rationals are kept: [-float('inf')]
    as the initial incumbent of the grid search, and numpy's division, which
    returns [inf], [-inf] or [nan] on a zero divisor instead of raising.

    External libraries.  [np.log], [LinearRegression.fit], [.score] and
    [pd.to_datetime] are parameters of the development; [np.linspace] and
    [Series.mean] are written out from their library definitions.  What
    scikit-learn documents of [fit] (it minimises the residual sum of
    squares) is the predicate [least_squares]; [ols_fit] is the fit it
    describes on one regressor, written out.

    The endpoints of [backend/main.py] that call the class ([/simulate],
    [/optimize], [/products]) are embedded in module [main], as functions
    of the module-level instance. *)

From Stdlib Require Import QArith Qabs Qminmax Lqa Lia List String Bool Sorted.
From Stdlib Require Import Floats.
From stdpp Require Import gmap strings list fin_maps.

Local Open Scope Q_scope.
Local Open Scope string_scope.

(** ** Numbers *)

(** [a < b] on floats, as a boolean. *)
Definition Qltb (a b : Q) : bool := negb (Qle_bool b a).

(** Truth value of a number in [x if c else y]: false exactly at zero. *)
Definition truthy (x : Q) : bool := negb (Qeq_bool x 0).

(** A numpy [float64]: a finite value, an infinity, or not-a-number.  The
    model has one zero; it stands for [+0.0], the zero the source produces
    from a positive [current_price]. *)
Inductive float64 : Type :=
  | Fin (q : Q)
  | PosInf
  | NegInf
  | NaN.

(** [a / b] on numpy scalars: no exception on a zero divisor. *)
Definition np_divide (a b : Q) : float64 :=
  if Qeq_bool b 0 then
    if Qltb 0 a then PosInf else if Qltb a 0 then NegInf else NaN
  else Fin (a / b).

(** [x < y], [x > y] and [x >= y]; every comparison with [nan] is false. *)
Definition np_less (x y : float64) : bool :=
  match x, y with
  | NaN, _ | _, NaN => false
  | _, NegInf => false
  | NegInf, _ => true
  | PosInf, _ => false
  | Fin _, PosInf => true
  | Fin a, Fin b => Qltb a b
  end.

Definition np_greater (x y : float64) : bool := np_less y x.

Definition np_greater_equal (x y : float64) : bool :=
  match x, y with
  | NaN, _ | _, NaN => false
  | _, NegInf => true
  | NegInf, _ => false
  | PosInf, _ => true
  | Fin _, PosInf => false
  | Fin a, Fin b => Qle_bool b a
  end.

(** ** Exceptions and the method monad *)

Inductive exn : Type :=
  | ValueError (msg : string)
  | AttributeError (msg : string)
  | TypeError (msg : string)
  | ZeroDivisionError (msg : string).

Inductive outcome (A : Type) : Type :=
  | Ok (a : A)
  | Raise (e : exn).
Arguments Ok {A} a.
Arguments Raise {A} e.

(** ** Data model *)

(** A row of the product table, indexed by [product_id]. *)
Record product : Type := {
  product_id : string;
  product_name : string;
  category : string;
  base_cost : Q;
  current_price : Q
}.

(** A row of the historical table. *)
Record observation : Type := {
  date : string;
  obs_product_id : string;
  price : Q;
  volume : Q
}.

(** The value stored per product in [self.elasticities]. *)
Record elasticity_result : Type := {
  elasticity : Q;
  r_squared : Q;
  is_modeled : bool
}.

(** A fitted [LinearRegression]: its [coef_] and [intercept_]. *)
Record LinearRegression : Type := {
  coef_ : list Q;
  intercept_ : Q
}.

(** A [pd.DataFrame] as handed to the load methods: the column names that
    are present, and the rows read at the expected columns. *)
Record DataFrame (row : Type) : Type := {
  columns : list string;
  rows : list row
}.
Arguments columns {row} d.
Arguments rows {row} d.

(** The attributes of a [PricingSimulator] instance. *)
Record simulator : Type := {
  product_data : option (list product);
  historical_data : option (list observation);
  elasticities : gmap string elasticity_result;
  models : gmap string LinearRegression
}.

(** One dictionary appended to [simulation_results]. *)
Record simulation_record : Type := {
  sim_product_id : string;
  sim_product_name : string;
  sim_category : string;
  old_price : Q;
  new_price : Q;
  price_change_pct : Q;
  sim_elasticity : Q;
  old_volume : Q;
  new_volume : Q;
  volume_change_pct : Q;
  old_revenue : Q;
  new_revenue : Q;
  revenue_change_pct : Q;
  old_profit : Q;
  new_profit : Q;
  profit_change_pct : Q
}.

(** A method body: it runs on the instance and leaves an outcome and the
    instance as it is afterwards (also when it raises). *)
Definition M (A : Type) : Type := simulator -> outcome A * simulator.

Definition ret {A} (a : A) : M A := fun s => (Ok a, s).
Definition raise {A} (e : exn) : M A := fun s => (Raise e, s).
Definition bind {A B} (m : M A) (k : A -> M B) : M B :=
  fun s => match m s with
           | (Ok a, s') => k a s'
           | (Raise e, s') => (Raise e, s')
           end.
Definition get_self : M simulator := fun s => (Ok s, s).
Definition put_self (s' : simulator) : M unit := fun _ => (Ok tt, s').

Notation "x <- m ;; k" := (bind m (fun x => k))
  (at level 100, m at next level, right associativity).
Notation "m ;;; k" := (bind m (fun _ => k))
  (at level 100, right associativity).

(** [for x in xs: acc = body(acc, x)] with a body that may touch [self]. *)
Fixpoint for_each {A B} (body : B -> A -> M B) (acc : B) (xs : list A) : M B :=
  match xs with
  | [] => ret acc
  | x :: xs' => acc' <- body acc x ;; for_each body acc' xs'
  end.

(** Attribute assignments [self.attr = v]. *)
Definition set_product_data (v : option (list product)) : M unit :=
  s <- get_self ;;
  put_self {| product_data := v;
              historical_data := historical_data s;
              elasticities := elasticities s;
              models := models s |}.

Definition set_historical_data (v : option (list observation)) : M unit :=
  s <- get_self ;;
  put_self {| product_data := product_data s;
              historical_data := v;
              elasticities := elasticities s;
              models := models s |}.

Definition set_elasticities (v : gmap string elasticity_result) : M unit :=
  s <- get_self ;;
  put_self {| product_data := product_data s;
              historical_data := historical_data s;
              elasticities := v;
              models := models s |}.

Definition set_models (v : gmap string LinearRegression) : M unit :=
  s <- get_self ;;
  put_self {| product_data := product_data s;
              historical_data := historical_data s;
              elasticities := elasticities s;
              models := v |}.

(** ** Library functions written out *)

(** Python's float [/]: raises on a zero divisor.  (On numpy scalars the
    same quotient would give [inf] or [nan] with a warning; raising is the
    stricter reading, so a call that returns has divided by no zero.) *)
Definition py_div (a b : Q) : M Q :=
  if Qeq_bool b 0 then raise (ZeroDivisionError "float division by zero")
  else ret (a / b).

Definition Qsum (l : list Q) : Q := fold_right Qplus 0 l.

(** [Series.mean()]: the sum over the number of entries. *)
Definition mean (l : list Q) : Q := Qsum l / inject_Z (Z.of_nat (length l)).

(** [Series.unique()]: the distinct values in order of first appearance. *)
Fixpoint unique (l : list string) : list string :=
  match l with
  | [] => []
  | x :: l' => x :: List.filter (fun y => negb (String.eqb x y)) (unique l')
  end.

(** [np.linspace(start, stop, num)] with [endpoint=True]: [arange(num)]
    scaled by the step (through [delta] when the step is zero), shifted by
    [start], and the last entry then overwritten with [stop].  Here in
    exact arithmetic; [linspace64] below is the same on binary64. *)
Definition linspace (start stop : Q) (num : nat) : list Q :=
  let div := (num - 1)%nat in
  let qdiv := inject_Z (Z.of_nat div) in
  let delta := stop - start in
  let y := List.map (fun i => inject_Z (Z.of_nat i)) (seq 0 num) in
  let y :=
    if (0 <? div)%nat then
      let step := delta / qdiv in
      if Qeq_bool step 0 then List.map (fun v => v / qdiv * delta) y
      else List.map (fun v => v * step) y
    else List.map (fun v => v * delta) y in
  let y := List.map (fun v => v + start) y in
  if (1 <? num)%nat then <[(num - 1)%nat := stop]> y else y.

(** *** [LinearRegression] on one regressor

    The estimator hands [fit] one column [X] and the targets [y].  What
    follows is in exact arithmetic, as everything in the model. *)

(** The number of samples. *)
Definition count (X : list Q) : Q := inject_Z (Z.of_nat (length X)).

(** The residual sum of squares of the line [a + b * x]: what the
    regression is documented to minimise. *)
Definition rss (X y : list Q) (a b : Q) : Q :=
  Qsum (List.map (fun p => (snd p - (a + b * fst p)) * (snd p - (a + b * fst p)))
          (combine X y)).

(** The centred sums of squares and of products. *)
Definition centred_xx (X : list Q) : Q :=
  Qsum (List.map (fun x => (x - mean X) * (x - mean X)) X).

Definition centred_xy (X y : list Q) : Q :=
  Qsum (List.map (fun p => (fst p - mean X) * (snd p - mean y)) (combine X y)).

(** [np.var] and the covariance on the same divisor (the quotient of the
    two is the same for the divisor [n - 1]). *)
Definition variance (X : list Q) : Q := centred_xx X / count X.
Definition covariance (X y : list Q) : Q := centred_xy X y / count X.

(** The documented contract of [fit]: the fitted intercept and slope
    minimise the residual sum of squares over all lines. *)
Definition least_squares (X y : list Q) (m : LinearRegression) : Prop :=
  forall a b, rss X y (intercept_ m) (nth 0 (coef_ m) 0) <= rss X y a b.

(** [LinearRegression().fit(X, y)] with [fit_intercept=True], as the
    library computes it: [X] and [y] are centred on their means, the
    centred system is solved by [scipy.linalg.lstsq], whose minimum-norm
    solution is 0 on a column of zeros, and the intercept is
    [mean(y) - mean(X) * coef_]. *)
Definition ols_fit (X y : list Q) : LinearRegression :=
  let slope :=
    if Qeq_bool (centred_xx X) 0 then 0 else centred_xy X y / centred_xx X in
  {| coef_ := [slope]; intercept_ := mean y - slope * mean X |}.

(** The plain sums the normal equations are written in. *)
Definition sum_sq (X : list Q) : Q := Qsum (List.map (fun x => x * x) X).
Definition sum_prod (X y : list Q) : Q :=
  Qsum (List.map (fun p => fst p * snd p) (combine X y)).

(** ** The methods *)

(** [__init__] *)
Definition init : simulator :=
  {| product_data := None;
     historical_data := None;
     elasticities := ∅;
     models := ∅ |}.

Definition has_columns (required present : list string) : bool :=
  forallb (fun col => existsb (String.eqb col) present) required.

(** [load_product_data] *)
Definition load_product_data (df : DataFrame product) : M unit :=
  let required_cols :=
    ["product_id"; "product_name"; "category"; "base_cost"; "current_price"] in
  if negb (has_columns required_cols (columns df)) then
    raise (ValueError
             "Product data missing required columns. Need: ['product_id', 'product_name', 'category', 'base_cost', 'current_price']")
  else set_product_data (Some (rows df)).

(** The rows [hist[hist['product_id'] == product_id]]. *)
Definition rows_of (hist : list observation) (pid : string) : list observation :=
  List.filter (fun o => String.eqb (obs_product_id o) pid) hist.

(** The rows kept by [(price > 0) & (volume > 0)]. *)
Definition valid_rows (product_df : list observation) : list observation :=
  List.filter (fun o => Qltb 0 (price o) && Qltb 0 (volume o)) product_df.

(** The base volume, computed by the same five lines in [simulate_scenario]
    and in [optimize_pricing]. *)
Definition base_volume_of (self : simulator) (pid : string) : Q :=
  match historical_data self with
  | Some hist =>
      let hist_prod := rows_of hist pid in
      match hist_prod with
      | [] => 1000
      | _ => mean (List.map volume hist_prod)
      end
  | None => 1000
  end.

(** [self.elasticities.get(product_id, {}).get('elasticity', -1.0)] *)
Definition elasticity_of (self : simulator) (pid : string) : Q :=
  match elasticities self !! pid with
  | Some r => elasticity r
  | None => -1
  end.

(** The body of the loop of [simulate_scenario]. *)
Definition simulate_row (price_changes : gmap string Q) (row : product)
  : M simulation_record :=
  self <- get_self ;;
  let current_price := current_price row in
  let base_cost := base_cost row in
  let elasticity := elasticity_of self (product_id row) in
  let pct_change := default 0 (price_changes !! product_id row) in
  let new_price := current_price * (1 + pct_change) in
  let base_volume := base_volume_of self (product_id row) in
  let volume_change_pct := elasticity * pct_change in
  let new_volume := base_volume * (1 + volume_change_pct) in
  let old_revenue := current_price * base_volume in
  let new_revenue := new_price * new_volume in
  let old_profit := (current_price - base_cost) * base_volume in
  let new_profit := (new_price - base_cost) * new_volume in
  revenue_change_pct <-
    (if truthy old_revenue then py_div (new_revenue - old_revenue) old_revenue
     else ret 0) ;;
  profit_change_pct <-
    (if truthy old_profit then py_div (new_profit - old_profit) old_profit
     else ret 0) ;;
  ret {| sim_product_id := product_id row;
         sim_product_name := product_name row;
         sim_category := category row;
         old_price := current_price;
         new_price := new_price;
         price_change_pct := pct_change;
         sim_elasticity := elasticity;
         old_volume := base_volume;
         new_volume := new_volume;
         volume_change_pct := volume_change_pct;
         old_revenue := old_revenue;
         new_revenue := new_revenue;
         revenue_change_pct := revenue_change_pct;
         old_profit := old_profit;
         new_profit := new_profit;
         profit_change_pct := profit_change_pct |}.

(** [simulate_scenario] *)
Definition simulate_scenario (price_changes : gmap string Q)
  : M (list simulation_record) :=
  self <- get_self ;;
  match product_data self with
  | None => raise (ValueError "Product data not loaded")
  | Some table =>
      for_each
        (fun simulation_results row =>
           r <- simulate_row price_changes row ;;
           ret (simulation_results ++ [r])%list)
        [] table
  end.

(** The projection computed for one candidate that passed the margin test. *)
Definition target_of (objective : string)
    (current_price base_cost base_volume elasticity change : Q) : Q :=
  let new_price := current_price * (1 + change) in
  let vol_change := elasticity * change in
  let new_vol := base_volume * (1 + vol_change) in
  let profit := (new_price - base_cost) * new_vol in
  let revenue := new_price * new_vol in
  let volume := new_vol in
  if String.eqb objective "profit" then profit
  else if String.eqb objective "revenue" then revenue
  else if String.eqb objective "volume" then volume
  else 0.

(** [margin] of one candidate. *)
Definition margin_of (current_price base_cost change : Q) : float64 :=
  let new_price := current_price * (1 + change) in
  np_divide (new_price - base_cost) new_price.

(** The body of the inner loop of [optimize_pricing]; the accumulator is
    [(best_val, best_change)]. *)
Definition try_candidate (objective : string) (min_margin : Q)
    (current_price base_cost base_volume elasticity : Q)
    (best : float64 * Q) (change : Q) : float64 * Q :=
  let margin := margin_of current_price base_cost change in
  if np_less margin (Fin min_margin) then best
  else
    let target :=
      target_of objective current_price base_cost base_volume elasticity change in
    if np_greater (Fin target) (fst best) then (Fin target, change) else best.

(** The inner loop, from [best_val = -inf], [best_change = 0.0]. *)
Definition best_change_of (objective : string) (min_margin : Q)
    (test_points : list Q)
    (current_price base_cost base_volume elasticity : Q) : Q :=
  snd (fold_left
         (try_candidate objective min_margin
            current_price base_cost base_volume elasticity)
         test_points (NegInf, 0)).

(** The body of the outer loop of [optimize_pricing]. *)
Definition optimize_row (objective : string) (min_margin : Q)
    (test_points : list Q)
    (recommendations : gmap string Q) (row : product) : M (gmap string Q) :=
  self <- get_self ;;
  let current_price := current_price row in
  let base_cost := base_cost row in
  let base_volume := base_volume_of self (product_id row) in
  let elasticity := elasticity_of self (product_id row) in
  let best_change :=
    best_change_of objective min_margin test_points
      current_price base_cost base_volume elasticity in
  ret (<[product_id row := best_change]> recommendations).

(** [test_points]: the candidate changes of one call. *)
Definition test_points (max_change : Q) : list Q :=
  linspace (- max_change) max_change 5.

(** The same computation on binary64 numbers, the number format of the
    source.  [float_of_nat] gives the entries of [arange(num)]; every
    operation rounds to nearest as numpy's does. *)
Definition float_of_nat (n : nat) : float :=
  PrimFloat.of_uint63 (Uint63.of_Z (Z.of_nat n)).

Definition linspace64 (start stop : float) (num : nat) : list float :=
  let div := (num - 1)%nat in
  let fdiv := float_of_nat div in
  let delta := PrimFloat.sub stop start in
  let y := List.map float_of_nat (seq 0 num) in
  let y :=
    if (0 <? div)%nat then
      let step := PrimFloat.div delta fdiv in
      if PrimFloat.eqb step PrimFloat.zero then
        List.map (fun v => PrimFloat.mul (PrimFloat.div v fdiv) delta) y
      else List.map (fun v => PrimFloat.mul v step) y
    else List.map (fun v => PrimFloat.mul v delta) y in
  let y := List.map (fun v => PrimFloat.add v start) y in
  if (1 <? num)%nat then <[(num - 1)%nat := stop]> y else y.

Definition test_points64 (max_change : float) : list float :=
  linspace64 (PrimFloat.opp max_change) max_change 5.

(** The rational a finite binary64 number denotes (0 for the others). *)
Definition float_value (f : float) : Q :=
  match Prim2SF f with
  | S754_finite sign m e =>
      let q := inject_Z (Z.pos m) * Qpower 2 e in
      if sign then - q else q
  | _ => 0
  end.

(** Consecutive entries differ by one and the same amount. *)
Definition evenly_spaced (l : list Q) : Prop :=
  exists d, forall i, (S i < length l)%nat -> nth (S i) l 0 - nth i l 0 == d.

(** [optimize_pricing] *)
Definition optimize_pricing (objective : string) (min_margin max_change : Q)
  : M (gmap string Q) :=
  let test_points := test_points max_change in
  self <- get_self ;;
  match product_data self with
  | None =>
      raise (AttributeError "'NoneType' object has no attribute 'iterrows'")
  | Some table =>
      for_each (optimize_row objective min_margin test_points) ∅ table
  end.

Section Estimator.

(** [np.log], [LinearRegression().fit(X, y)], [model.score(X, y)] and
    [pd.to_datetime] on the whole date column: pandas infers one format for
    the column, so the conversion is a function of the column and not of
    its cells; [None] when it raises. *)
Variable np_log : Q -> Q.
Variable fit : list Q -> list Q -> LinearRegression.
Variable score : LinearRegression -> list Q -> list Q -> Q.
Variable to_datetime : list string -> option (list string).

Definition with_date (o : observation) (d : string) : observation :=
  {| date := d;
     obs_product_id := obs_product_id o;
     price := price o;
     volume := volume o |}.

(** [df['date'] = converted]: the column is replaced row by row, the rows
    stay. *)
Fixpoint with_dates (l : list observation) (converted : list string)
  : list observation :=
  match l, converted with
  | [], _ => []
  | o :: l', [] => o :: with_dates l' []
  | o :: l', d :: converted' => with_date o d :: with_dates l' converted'
  end.

(** [load_historical_data]: the copy is stored first, the date column is
    converted afterwards. *)
Definition load_historical_data (df : DataFrame observation) : M unit :=
  let required_cols := ["date"; "product_id"; "price"; "volume"] in
  if negb (has_columns required_cols (columns df)) then
    raise (ValueError
           "Historical data missing required columns. Need: ['date', 'product_id', 'price', 'volume']")
  else
    set_historical_data (Some (rows df)) ;;;
    match to_datetime (List.map date (rows df)) with
    | None => raise (ValueError "Unknown datetime string format")
    | Some converted =>
        set_historical_data (Some (with_dates (rows df) converted))
    end.

Definition default_result : elasticity_result :=
  {| elasticity := -1; r_squared := 0; is_modeled := false |}.

(** The body of the loop of [calculate_elasticity]; the accumulator is
    the local dictionary [results].  [coef_[0]] reads the one coefficient
    of a fit on one regressor. *)
Definition estimate_product (results : gmap string elasticity_result)
    (pid : string) : M (gmap string elasticity_result) :=
  self <- get_self ;;
  match historical_data self with
  | None => raise (TypeError "'NoneType' object is not subscriptable")
  | Some hist =>
      let product_df := rows_of hist pid in
      let product_df := valid_rows product_df in
      if (length product_df <? 5)%nat then
        ret (<[pid := default_result]> results)
      else
        let X := List.map (fun o => np_log (price o)) product_df in
        let y := List.map (fun o => np_log (volume o)) product_df in
        let model := fit X y in
        let elasticity := nth 0 (coef_ model) 0 in
        let r_squared := score model X y in
        let results :=
          <[pid := {| elasticity := elasticity;
                      r_squared := r_squared;
                      is_modeled := true |}]> results in
        set_models (<[pid := model]> (models self)) ;;;
        ret results
  end.

(** [calculate_elasticity] *)
Definition calculate_elasticity (method : string)
  : M (gmap string elasticity_result) :=
  self <- get_self ;;
  match historical_data self with
  | None => raise (ValueError "Historical data not loaded")
  | Some hist =>
      results <-
        for_each estimate_product ∅ (unique (List.map obs_product_id hist)) ;;
      set_elasticities results ;;;
      ret results
  end.

(** The record the loop stores for a product it fits (lines 60 to 73), as a
    function of the table; used to state what the loop leaves. *)
Definition modeled_result (hist : list observation) (pid : string)
  : elasticity_result :=
  let product_df := valid_rows (rows_of hist pid) in
  let X := List.map (fun o => np_log (price o)) product_df in
  let y := List.map (fun o => np_log (volume o)) product_df in
  {| elasticity := nth 0 (coef_ (fit X y)) 0;
     r_squared := score (fit X y) X y;
     is_modeled := true |}.

End Estimator.

(** ** The HTTP layer ([backend/main.py]) *)

(** The endpoints run on the one module-level instance [simulator]; each is
    a function of that instance to what FastAPI sends back and the instance
    afterwards.  [HTTPException(status_code, detail)] is the only failure. *)
Module main.

Inductive http_exception : Type :=
  | HTTPException (status_code : nat) (detail : string).

Inductive response (A : Type) : Type :=
  | Returned (body : A)
  | Failed (e : http_exception).
Arguments Returned {A} body.
Arguments Failed {A} e.

Definition endpoint (A : Type) : Type := simulator -> response A * simulator.

(** [str(e)] of a caught exception: its message. *)
Definition str (e : exn) : string :=
  match e with
  | ValueError msg => msg
  | AttributeError msg => msg
  | TypeError msg => msg
  | ZeroDivisionError msg => msg
  end.

(** [class SimulationRequest] and [class OptimizationRequest]. *)
Record SimulationRequest : Type := {
  price_changes : gmap string Q
}.

Record OptimizationRequest : Type := {
  objective : string;
  min_margin : Q;
  max_change : Q
}.

(** The field defaults of [OptimizationRequest]. *)
Definition default_request : OptimizationRequest :=
  {| objective := "profit"; min_margin := 0.1; max_change := 0.2 |}.

(** [try: body except Exception as e: raise HTTPException(500, str(e))] *)
Definition try_500 {A} (body : M A) : endpoint A :=
  fun simulator =>
    match body simulator with
    | (Ok a, simulator') => (Returned a, simulator')
    | (Raise e, simulator') => (Failed (HTTPException 500 (str e)), simulator')
    end.

(** [POST /simulate] *)
Definition run_simulation (req : SimulationRequest)
  : endpoint (list simulation_record) :=
  fun simulator =>
    match product_data simulator with
    | None =>
        (Failed (HTTPException 400
                   "No data loaded. Call /data/dummy or upload data first."),
         simulator)
    | Some _ => try_500 (simulate_scenario (price_changes req)) simulator
    end.

(** [POST /optimize] *)
Definition optimize (req : OptimizationRequest) : endpoint (gmap string Q) :=
  fun simulator =>
    match product_data simulator with
    | None => (Failed (HTTPException 400 "No data loaded."), simulator)
    | Some _ =>
        try_500
          (optimize_pricing (objective req) (min_margin req) (max_change req))
          simulator
    end.

(** One dictionary of the list [GET /products] returns: the columns of the
    row and the two keys the loop adds, [None] when the product has no
    entry in [simulator.elasticities]. *)
Record listed_product : Type := {
  listed : product;
  listed_elasticity : option Q;
  listed_r_squared : option Q
}.

(** [GET /products] *)
Definition get_products : endpoint (list listed_product) :=
  fun simulator =>
    match product_data simulator with
    | None => (Returned [], simulator)
    | Some table =>
        (Returned
           (List.map
              (fun p =>
                 match elasticities simulator !! product_id p with
                 | Some r =>
                     {| listed := p;
                        listed_elasticity := Some (elasticity r);
                        listed_r_squared := Some (r_squared r) |}
                 | None =>
                     {| listed := p;
                        listed_elasticity := None;
                        listed_r_squared := None |}
                 end)
              table),
         simulator)
    end.

End main.

(** ** Vocabulary of the statements *)

(** The record one iteration appends, as a relation between row and record. *)
Definition projected (price_changes : gmap string Q) (s : simulator)
    (row : product) (r : simulation_record) : Prop :=
  simulate_row price_changes row s = (Ok r, s).

(** A candidate survives when the test [margin < min_margin] is false. *)
Definition survives (min_margin current_price base_cost change : Q) : bool :=
  negb (np_less (margin_of current_price base_cost change) (Fin min_margin)).

(** [margin >= min_margin] holds for the price the change leads to. *)
Definition keeps_margin (min_margin current_price base_cost change : Q) : Prop :=
  np_greater_equal (margin_of current_price base_cost change) (Fin min_margin)
  = true.

Section Search.

Variables (objective : string) (min_margin : Q) (points : list Q).
Variables (current_price base_cost base_volume elasticity : Q).

Local Abbreviation target :=
  (target_of objective current_price base_cost base_volume elasticity).
Local Abbreviation alive := (survives min_margin current_price base_cost).

(** [c] is a surviving candidate whose target no surviving candidate
    exceeds. *)
Definition attains_maximum (c : Q) : Prop :=
  In c points /\ alive c = true
  /\ forall c', In c' points -> alive c' = true -> target c' <= target c.

(** [c] is the first candidate, in evaluation order, that attains the
    maximum. *)
Definition first_maximiser (c : Q) : Prop :=
  exists before after,
    points = (before ++ c :: after)%list
    /\ alive c = true
    /\ (forall c', In c' before -> alive c' = true -> target c' < target c)
    /\ (forall c', In c' after -> alive c' = true -> target c' <= target c).

(** [c] is no greater than any candidate that attains the maximum. *)
Definition smallest_maximiser (c : Q) : Prop :=
  forall c', attains_maximum c' -> c <= c'.

(** The state of the inner loop after the candidates [seen]. *)
Definition incumbent (seen : list Q) (best : float64 * Q) : Prop :=
  ((forall c, In c seen -> alive c = false) /\ best = (NegInf, 0))
  \/ (exists before after,
        seen = (before ++ snd best :: after)%list
        /\ alive (snd best) = true
        /\ fst best = Fin (target (snd best))
        /\ (forall c', In c' before -> alive c' = true ->
              target c' < target (snd best))
        /\ (forall c', In c' after -> alive c' = true ->
              target c' <= target (snd best))).

End Search.

(** The volumes of all the observations of a product, valid or not. *)
Definition observed_volumes (hist : list observation) (pid : string) : list Q :=
  List.map volume
    (List.filter (fun o => bool_decide (obs_product_id o = pid)) hist).

(** The base volume in the words of the specification: the arithmetic mean
    of all the observed volumes of the product when there is one, and 1000
    when there is none or no table is loaded. *)
Definition reference_volume (table : option (list observation)) (pid : string)
  : Q :=
  match table with
  | None => 1000
  | Some hist =>
      match observed_volumes hist pid with
      | [] => 1000
      | vols => Qsum vols / inject_Z (Z.of_nat (length vols))
      end
  end.

(** The recommendation for one row in the words of the specification: the
    change keeps the margin or is the fallback, and it is the smallest of
    the candidates that attain the maximum whenever one does. *)
Definition recommended_as_specified (objective : string)
    (min_margin max_change : Q) (s : simulator) (row : product) (c : Q) : Prop :=
  let points := test_points max_change in
  let v := base_volume_of s (product_id row) in
  let e := elasticity_of s (product_id row) in
  (keeps_margin min_margin (current_price row) (base_cost row) c \/ c = 0)
  /\ ((exists c', attains_maximum objective min_margin points
                    (current_price row) (base_cost row) v e c') ->
      attains_maximum objective min_margin points
        (current_price row) (base_cost row) v e c
      /\ smallest_maximiser objective min_margin points
           (current_price row) (base_cost row) v e c).

(** The recommendation for one row under an unrecognised objective in the
    words of the specification: the smallest candidate that passes the
    margin test, or [0.0] when none does. *)
Definition smallest_survivor_or_zero (min_margin max_change : Q)
    (row : product) (c : Q) : Prop :=
  let points := test_points max_change in
  let alive := survives min_margin (current_price row) (base_cost row) in
  ((forall c', In c' points -> alive c' = false) /\ c = 0)
  \/ (In c points /\ alive c = true
      /\ forall c', In c' points -> alive c' = true -> c <= c').

(** An objective outside the three the source tests for. *)
Definition unrecognised (objective : string) : Prop :=
  objective <> "profit" /\ objective <> "revenue" /\ objective <> "volume".

(** The recommendation for one row as the source computes it: the fallback
    when no candidate passes the margin test, and otherwise the first
    candidate, in evaluation order, that attains the maximum; its margin is
    at least [min_margin] unless the new price and the cost are both zero;
    and it is the smallest maximiser when the bound is not negative. *)
Definition recommended_as_computed (objective : string)
    (min_margin max_change : Q) (s : simulator) (row : product) (c : Q) : Prop :=
  let points := test_points max_change in
  let v := base_volume_of s (product_id row) in
  let e := elasticity_of s (product_id row) in
  (((forall c', In c' points ->
       survives min_margin (current_price row) (base_cost row) c' = false)
    /\ c = 0)
   \/ (attains_maximum objective min_margin points
         (current_price row) (base_cost row) v e c
       /\ first_maximiser objective min_margin points
            (current_price row) (base_cost row) v e c
       /\ (keeps_margin min_margin (current_price row) (base_cost row) c
           \/ (current_price row * (1 + c) == 0 /\ base_cost row == 0))))
  /\ (0 <= max_change ->
      smallest_maximiser objective min_margin points
        (current_price row) (base_cost row) v e c).

(** Every entry of the mapping [optimize_pricing] returns is, for a catalog
    row with that identifier, as the specification says. *)
Definition optimize_as_specified (objective : string)
    (min_margin max_change : Q) (s : simulator) : Prop :=
  forall table recs,
    product_data s = Some table ->
    fst (optimize_pricing objective min_margin max_change s) = Ok recs ->
    forall pid c, recs !! pid = Some c ->
      exists row, In row table /\ product_id row = pid
        /\ recommended_as_specified objective min_margin max_change s row c.

(** The same for an unrecognised objective: every target is 0 and every
    entry is the smallest surviving candidate or [0.0]. *)
Definition unrecognised_as_specified (objective : string)
    (min_margin max_change : Q) (s : simulator) : Prop :=
  forall table recs,
    product_data s = Some table ->
    fst (optimize_pricing objective min_margin max_change s) = Ok recs ->
    forall pid c, recs !! pid = Some c ->
      exists row, In row table /\ product_id row = pid
        /\ (forall change,
              target_of objective (current_price row) (base_cost row)
                (base_volume_of s pid) (elasticity_of s pid) change = 0)
        /\ smallest_survivor_or_zero min_margin max_change row c.

(** The model [calculate_elasticity] fits for a product: the fit on the
    logarithms of its valid prices and volumes. *)
Definition fitted_model (np_log : Q -> Q)
    (fit : list Q -> list Q -> LinearRegression)
    (hist : list observation) (pid : string) : LinearRegression :=
  let product_df := valid_rows (rows_of hist pid) in
  fit (List.map (fun o => np_log (price o)) product_df)
      (List.map (fun o => np_log (volume o)) product_df).

(** The two columns the estimator hands to [fit] for a product (lines 60
    and 61): the logarithms of the valid prices and of the valid volumes. *)
Definition logged_prices (np_log : Q -> Q) (hist : list observation)
    (pid : string) : list Q :=
  List.map (fun o => np_log (price o)) (valid_rows (rows_of hist pid)).

Definition logged_volumes (np_log : Q -> Q) (hist : list observation)
    (pid : string) : list Q :=
  List.map (fun o => np_log (volume o)) (valid_rows (rows_of hist pid)).

(** The closed form of the specification, [cov(X, y) / var(X)], as numpy
    evaluates the quotient: [nan] or an infinity when the variance is 0. *)
Definition closed_form_slope (X y : list Q) : float64 :=
  np_divide (covariance X y) (variance X).

(** [e == cov(X, y) / var(X)]: the closed form is a number, and [e] is
    that number. *)
Definition equals_closed_form (e : Q) (X y : list Q) : Prop :=
  match closed_form_slope X y with
  | Fin q => e == q
  | _ => False
  end.

(** The estimate of a product as the specification words it: the run
    returns an entry flagged as modelled whose elasticity equals the closed
    form over the logged valid rows. *)
Definition estimate_as_specified (np_log : Q -> Q)
    (fit : list Q -> list Q -> LinearRegression)
    (score : LinearRegression -> list Q -> list Q -> Q)
    (method : string) (s : simulator) (hist : list observation)
    (pid : string) : Prop :=
  exists results s' r,
    calculate_elasticity np_log fit score method s = (Ok results, s')
    /\ results !! pid = Some r
    /\ is_modeled r = true
    /\ equals_closed_form (elasticity r)
         (logged_prices np_log hist pid) (logged_volumes np_log hist pid).

(** A row the estimator filters out. *)
Definition invalid (o : observation) : Prop :=
  price o <= 0 \/ volume o <= 0.

(** The last row of a table that carries an identifier. *)
Definition last_row (table : list product) (pid : string) : option product :=
  List.find (fun row => String.eqb (product_id row) pid) (rev table).

(** ** Sample instances *)

(** The catalog of [generate_dummy_data] in [main.py]. *)
Definition dummy_products : list product :=
  [ {| product_id := "P001"; product_name := "Premium Coffee Beans";
       category := "Coffee"; base_cost := 10; current_price := 18 |};
    {| product_id := "P002"; product_name := "Standard Coffee Ground";
       category := "Coffee"; base_cost := 5; current_price := 9.99 |};
    {| product_id := "P003"; product_name := "Espresso Machine";
       category := "Equipment"; base_cost := 150; current_price := 299 |};
    {| product_id := "P004"; product_name := "Coffee Filters (100pk)";
       category := "Accessories"; base_cost := 0.5; current_price := 2.99 |};
    {| product_id := "P005"; product_name := "Dark Roast Whole Bean";
       category := "Coffee"; base_cost := 11; current_price := 19.5 |};
    {| product_id := "P006"; product_name := "Light Roast Blend";
       category := "Coffee"; base_cost := 9; current_price := 16 |} ].

(** A few observations: three for P001, one of them with no sale, and one
    for P004. *)
Definition few_observations : list observation :=
  [ {| date := "2023-01-01"; obs_product_id := "P001";
       price := 18; volume := 500 |};
    {| date := "2023-01-08"; obs_product_id := "P001";
       price := 17.5; volume := 520 |};
    {| date := "2023-01-15"; obs_product_id := "P001";
       price := 19; volume := 0 |};
    {| date := "2023-01-01"; obs_product_id := "P004";
       price := 2.99; volume := 2000 |} ].

(** The instance after loading the dummy catalog only. *)
Definition catalog_only : simulator :=
  {| product_data := Some dummy_products;
     historical_data := None;
     elasticities := ∅;
     models := ∅ |}.

(** The instance after loading the dummy catalog and the few observations. *)
Definition with_history : simulator :=
  {| product_data := Some dummy_products;
     historical_data := Some few_observations;
     elasticities := ∅;
     models := ∅ |}.

(** A catalog of one product whose only observation records no sale. *)
Definition unsold : simulator :=
  {| product_data :=
       Some [ {| product_id := "P001"; product_name := "Premium Coffee Beans";
                 category := "Coffee"; base_cost := 10; current_price := 18 |} ];
     historical_data :=
       Some [ {| date := "2023-01-01"; obs_product_id := "P001";
                 price := 18; volume := 0 |} ];
     elasticities := ∅;
     models := ∅ |}.

(** A catalog of one product that costs nothing to supply. *)
Definition costless : simulator :=
  {| product_data :=
       Some [ {| product_id := "P007"; product_name := "Tap Water";
                 category := "Drinks"; base_cost := 0; current_price := 18 |} ];
     historical_data := None;
     elasticities := ∅;
     models := ∅ |}.

(** The scenario worked out in section 8 of the specification: cost 10,
    price 18, elasticity -1.2, base volume 500. *)
Definition worked_scenario : simulator :=
  {| product_data :=
       Some [ {| product_id := "P001"; product_name := "Premium Coffee Beans";
                 category := "Coffee"; base_cost := 10; current_price := 18 |} ];
     historical_data :=
       Some [ {| date := "2023-01-01"; obs_product_id := "P001";
                 price := 18; volume := 500 |} ];
     elasticities :=
       {[ "P001" := {| elasticity := -1.2; r_squared := 0.9;
                       is_modeled := true |} ]};
     models := ∅ |}.

(** A catalog in which two rows carry the identifier P001, at two prices. *)
Definition duplicated_catalog : simulator :=
  {| product_data :=
       Some [ {| product_id := "P001"; product_name := "Premium Coffee Beans";
                 category := "Coffee"; base_cost := 10; current_price := 18 |};
              {| product_id := "P001"; product_name := "Premium Coffee Beans";
                 category := "Coffee"; base_cost := 10; current_price := 11 |} ];
     historical_data := None;
     elasticities := ∅;
     models := ∅ |}.

(** Five valid observations of P001 and an invalid one of P002. *)
Definition five_observations : list observation :=
  [ {| date := "2023-01-01"; obs_product_id := "P001";
       price := 18; volume := 500 |};
    {| date := "2023-01-08"; obs_product_id := "P001";
       price := 17.5; volume := 520 |};
    {| date := "2023-01-15"; obs_product_id := "P001";
       price := 19; volume := 480 |};
    {| date := "2023-01-22"; obs_product_id := "P001";
       price := 18.5; volume := 490 |};
    {| date := "2023-01-29"; obs_product_id := "P001";
       price := 17; volume := 530 |};
    {| date := "2023-01-01"; obs_product_id := "P002";
       price := 9.99; volume := 0 |} ].

(** The dummy catalog with those observations, and a cache that still
    holds a model of P004 from an earlier run. *)
Definition stale_cache : simulator :=
  {| product_data := Some dummy_products;
     historical_data := Some five_observations;
     elasticities :=
       {[ "P004" := {| elasticity := -0.5; r_squared := 0.8;
                       is_modeled := true |} ]};
     models := {[ "P004" := {| coef_ := [-0.5]; intercept_ := 8 |} ]} |}.

(** A fit that reports the same line for every input; it stands in for the
    regression where a statement is run on sample data. *)
Definition constant_fit (X y : list Q) : LinearRegression :=
  {| coef_ := [-1.2]; intercept_ := 10 |}.

(** Five valid observations of P001, all at the same price. *)
Definition constant_price_observations : list observation :=
  [ {| date := "2023-01-01"; obs_product_id := "P001";
       price := 18; volume := 500 |};
    {| date := "2023-01-08"; obs_product_id := "P001";
       price := 18; volume := 520 |};
    {| date := "2023-01-15"; obs_product_id := "P001";
       price := 18; volume := 480 |};
    {| date := "2023-01-22"; obs_product_id := "P001";
       price := 18; volume := 490 |};
    {| date := "2023-01-29"; obs_product_id := "P001";
       price := 18; volume := 530 |} ].

(** The dummy catalog with those observations. *)
Definition constant_price : simulator :=
  {| product_data := Some dummy_products;
     historical_data := Some constant_price_observations;
     elasticities := ∅;
     models := ∅ |}.

(** A frame with the four required columns and the few observations. *)
Definition few_observations_frame : DataFrame observation :=
  {| columns := ["date"; "product_id"; "price"; "volume"];
     rows := few_observations |}.


(** * Properties *)

(** ** Comparisons *)

Lemma Qltb_lt (a b : Q) : Qltb a b = true <-> a < b.
Proof.
  unfold Qltb. rewrite negb_true_iff, <- not_true_iff_false, Qle_bool_iff.
  split; [apply Qnot_le_lt | apply Qlt_not_le].
Qed.

Lemma Qltb_ge (a b : Q) : Qltb a b = false <-> b <= a.
Proof.
  unfold Qltb. rewrite negb_false_iff. apply Qle_bool_iff.
Qed.

Lemma truthy_false (x : Q) : truthy x = false <-> x == 0.
Proof.
  unfold truthy. rewrite negb_false_iff. apply Qeq_bool_iff.
Qed.

Lemma truthy_true (x : Q) : truthy x = true <-> ~ x == 0.
Proof.
  rewrite <- truthy_false. destruct (truthy x); split; congruence.
Qed.

(** ** The loop combinator *)

(** A loop whose body leaves the instance alone leaves it alone. *)
Lemma for_each_frame {A B} (body : B -> A -> M B) (xs : list A) :
  (forall acc x s, snd (body acc x s) = s) ->
  forall acc s, snd (for_each body acc xs s) = s.
Proof.
  intros Hbody. induction xs as [|x xs IH]; intros acc s; simpl; [reflexivity|].
  unfold bind. specialize (Hbody acc x s).
  destruct (body acc x s) as [[acc'|e] s']; simpl in Hbody; subst s'.
  - apply IH.
  - reflexivity.
Qed.

(** A loop whose body always succeeds with a value that is a function of
    the accumulator and the element is a left fold. *)
Lemma for_each_pure {A B} (body : B -> A -> M B) (f : B -> A -> B) (s : simulator)
    (xs : list A) :
  (forall acc x, body acc x s = (Ok (f acc x), s)) ->
  forall acc, for_each body acc xs s = (Ok (fold_left f xs acc), s).
Proof.
  intros Hbody. induction xs as [|x xs IH]; intros acc; simpl; [reflexivity|].
  unfold bind. rewrite Hbody. apply IH.
Qed.

(** ** [simulate_scenario] *)

(** The guarded quotient of lines 135 and 138 never reaches the division
    with a zero divisor. *)
Lemma guarded_division (new old : Q) (s : simulator) :
  (if truthy old then py_div (new - old) old else ret 0) s
  = (Ok (if truthy old then (new - old) / old else 0), s).
Proof.
  unfold py_div, truthy. destruct (Qeq_bool old 0); reflexivity.
Qed.

(** One iteration succeeds, leaves the instance alone, and its record is
    the one written in the source. *)
Lemma simulate_row_ok (price_changes : gmap string Q) (row : product) (s : simulator) :
  let pct_change := default 0 (price_changes !! product_id row) in
  let base_volume := base_volume_of s (product_id row) in
  let e := elasticity_of s (product_id row) in
  let new_p := current_price row * (1 + pct_change) in
  let new_v := base_volume * (1 + e * pct_change) in
  let old_r := current_price row * base_volume in
  let old_pr := (current_price row - base_cost row) * base_volume in
  simulate_row price_changes row s =
    (Ok {| sim_product_id := product_id row;
           sim_product_name := product_name row;
           sim_category := category row;
           old_price := current_price row;
           new_price := new_p;
           price_change_pct := pct_change;
           sim_elasticity := e;
           old_volume := base_volume;
           new_volume := new_v;
           volume_change_pct := e * pct_change;
           old_revenue := old_r;
           new_revenue := new_p * new_v;
           revenue_change_pct :=
             if truthy old_r then (new_p * new_v - old_r) / old_r else 0;
           old_profit := old_pr;
           new_profit := (new_p - base_cost row) * new_v;
           profit_change_pct :=
             if truthy old_pr
             then ((new_p - base_cost row) * new_v - old_pr) / old_pr else 0 |},
     s).
Proof.
  intros. unfold simulate_row, bind, get_self.
  rewrite guarded_division. rewrite guarded_division. reflexivity.
Qed.

Lemma simulate_loop_ok (price_changes : gmap string Q) (s : simulator)
    (table : list product) :
  forall acc, exists recs,
    for_each
      (fun simulation_results row =>
         r <- simulate_row price_changes row ;;
         ret (simulation_results ++ [r])%list)
      acc table s = (Ok (acc ++ recs)%list, s)
    /\ Forall2 (projected price_changes s) table recs.
Proof.
  induction table as [|row table IH]; intros acc; simpl.
  - exists []. rewrite app_nil_r. split; [reflexivity | constructor].
  - assert (exists r, simulate_row price_changes row s = (Ok r, s)) as [r Hrow]
      by (eexists; apply simulate_row_ok).
    destruct (IH (acc ++ [r])%list) as [recs [Heq Hall]].
    exists (r :: recs). split.
    + unfold bind. rewrite Hrow. unfold ret at 1.
      fold (@bind simulation_record (list simulation_record)).
      rewrite <- app_assoc in Heq. exact Heq.
    + constructor; [exact Hrow | exact Hall].
Qed.

(** With a catalog loaded the call succeeds with one record per row, in
    catalog order, and leaves the instance as it was. *)
Lemma simulate_scenario_ok (price_changes : gmap string Q) (s : simulator)
    (table : list product) :
  product_data s = Some table ->
  exists recs,
    simulate_scenario price_changes s = (Ok recs, s)
    /\ Forall2 (projected price_changes s) table recs.
Proof.
  intros Htable. unfold simulate_scenario, bind, get_self. rewrite Htable.
  destruct (simulate_loop_ok price_changes s table []) as [recs [Heq Hall]].
  exists recs. split; [exact Heq | exact Hall].
Qed.

(** What holds of the record of every row holds of every record. *)
Lemma projected_all (price_changes : gmap string Q) (s : simulator)
    (P : simulation_record -> Prop)
    (table : list product) (recs : list simulation_record) :
  Forall2 (projected price_changes s) table recs ->
  (forall row r, In row table -> projected price_changes s row r -> P r) ->
  Forall P recs.
Proof.
  induction 1 as [|row r table recs Hrow _ IH]; intros HP; constructor.
  - apply (HP row r); [left; reflexivity | exact Hrow].
  - apply IH. intros row' r' Hin. apply HP. right. exact Hin.
Qed.

(** Without a catalog the call raises its [ValueError]. *)
Lemma simulate_scenario_unloaded (price_changes : gmap string Q) (s : simulator) :
  product_data s = None ->
  simulate_scenario price_changes s
  = (Raise (ValueError "Product data not loaded"), s).
Proof.
  intros Hnone. unfold simulate_scenario, bind, get_self. rewrite Hnone.
  reflexivity.
Qed.

(** The embedding reproduces the worked scenario of the specification: a
    10% increase gives price 19.8, volume 440, revenue 8712 against 9000,
    profit 4312 against 4000, that is +7.8%. *)
Example worked_scenario_projection :
  exists r,
    simulate_scenario {[ "P001" := 0.1 ]} worked_scenario
    = (Ok [r], worked_scenario)
    /\ new_price r == 19.8 /\ volume_change_pct r == -0.12
    /\ new_volume r == 440
    /\ old_revenue r == 9000 /\ new_revenue r == 8712
    /\ old_profit r == 4000 /\ new_profit r == 4312
    /\ profit_change_pct r == 0.078.
Proof.
  eexists. split; [vm_compute; reflexivity|].
  repeat (split; [reflexivity|]). reflexivity.
Qed.

(** ** [optimize_pricing]: the outer loop *)

(** One iteration of the outer loop succeeds, leaves the instance alone and
    stores the result of the grid search under the row's identifier. *)
Lemma optimize_row_ok (objective : string) (min_margin : Q) (points : list Q)
    (s : simulator) (recommendations : gmap string Q) (row : product) :
  optimize_row objective min_margin points recommendations row s
  = (Ok (<[product_id row :=
             best_change_of objective min_margin points
               (current_price row) (base_cost row)
               (base_volume_of s (product_id row))
               (elasticity_of s (product_id row))]> recommendations), s).
Proof. reflexivity. Qed.

(** A key once assigned stays assigned through later assignments. *)
Lemma fold_insert_is_Some {V} (f : product -> V) (pid : string)
    (table : list product) :
  forall acc : gmap string V,
    is_Some (acc !! pid) ->
    is_Some (fold_left (fun acc row => <[product_id row := f row]> acc)
               table acc !! pid).
Proof.
  induction table as [|row table IH]; intros acc Hacc; simpl; [exact Hacc|].
  apply IH. destruct (decide (product_id row = pid)) as [E | E].
  - rewrite E, lookup_insert_eq. eauto.
  - rewrite lookup_insert_ne by exact E. exact Hacc.
Qed.

(** What a loop of dictionary assignments leaves under a key. *)
Lemma lookup_fold_insert {V} (f : product -> V) (table : list product) :
  forall (acc : gmap string V) (pid : string),
    let d := fold_left (fun acc row => <[product_id row := f row]> acc) table acc in
    (forall v, d !! pid = Some v ->
       (exists row, In row table /\ product_id row = pid /\ v = f row)
       \/ acc !! pid = Some v)
    /\ (In pid (List.map product_id table) -> exists row,
          In row table /\ product_id row = pid /\ d !! pid = Some (f row)).
Proof.
  induction table as [|row table IH]; intros acc pid; simpl.
  - split; [intros v Hv; right; exact Hv | intros []].
  - destruct (IH (<[product_id row := f row]> acc) pid) as [IH1 IH2].
    split.
    + intros v Hv. destruct (IH1 v Hv) as [[row' [Hin [Hid Hval]]] | Hacc].
      * left. exists row'. auto.
      * destruct (decide (product_id row = pid)) as [Heq | Hne].
        -- rewrite Heq, lookup_insert_eq in Hacc. injection Hacc as <-.
           left. exists row. auto.
        -- rewrite lookup_insert_ne in Hacc by exact Hne. right. exact Hacc.
    + intros Hin.
      destruct (in_dec string_dec pid (List.map product_id table))
        as [Hlater | Hnot].
      * destruct (IH2 Hlater) as [row' [Hin' [Hid Hval]]].
        exists row'. auto.
      * destruct Hin as [Heq | Hin]; [| contradiction].
        exists row. split; [auto | split; [exact Heq |]].
        destruct (fold_insert_is_Some f pid table (<[product_id row := f row]> acc))
          as [v Hv].
        { rewrite Heq, lookup_insert_eq. eauto. }
        destruct (IH1 v Hv) as [[row' [Hin' [Hid Hval]]] | Hacc].
        -- exfalso. apply Hnot. rewrite <- Hid. apply in_map. exact Hin'.
        -- rewrite Heq, lookup_insert_eq in Hacc. rewrite Hv. congruence.
Qed.

(** With a catalog loaded, [optimize_pricing] succeeds, leaves the instance
    alone, and every entry of the mapping is the grid search run on some
    catalog row carrying that identifier. *)
Lemma optimize_pricing_ok (objective : string) (min_margin max_change : Q)
    (s : simulator) (table : list product) :
  product_data s = Some table ->
  exists recs,
    optimize_pricing objective min_margin max_change s = (Ok recs, s)
    /\ (forall pid c, recs !! pid = Some c ->
          exists row, In row table /\ product_id row = pid
            /\ c = best_change_of objective min_margin (test_points max_change)
                     (current_price row) (base_cost row)
                     (base_volume_of s pid) (elasticity_of s pid))
    /\ (forall row, In row table -> is_Some (recs !! product_id row)).
Proof.
  intros Htable. unfold optimize_pricing, bind, get_self. rewrite Htable.
  rewrite (for_each_pure _ _ s table
             (optimize_row_ok objective min_margin (test_points max_change) s)).
  eexists. split; [reflexivity|].
  pose (f := fun row : product =>
          best_change_of objective min_margin (test_points max_change)
            (current_price row) (base_cost row)
            (base_volume_of s (product_id row))
            (elasticity_of s (product_id row))).
  split.
  - intros pid c Hc.
    destruct (lookup_fold_insert f table ∅ pid) as [H1 _].
    destruct (H1 c Hc) as [[row [Hin [Hid Hval]]] | Hempty].
    + exists row. subst pid. auto.
    + rewrite lookup_empty in Hempty. discriminate.
  - intros row Hin.
    destruct (lookup_fold_insert f table ∅ (product_id row)) as [_ H2].
    destruct H2 as [row' [_ [_ Hval]]]; [apply in_map; exact Hin|].
    exists (f row'). exact Hval.
Qed.

(** Without a catalog there is no guard: the iteration over [None] raises. *)
Lemma optimize_pricing_unloaded (objective : string) (min_margin max_change : Q)
    (s : simulator) :
  product_data s = None ->
  optimize_pricing objective min_margin max_change s
  = (Raise (AttributeError "'NoneType' object has no attribute 'iterrows'"), s).
Proof.
  intros Hnone. unfold optimize_pricing, bind, get_self. rewrite Hnone.
  reflexivity.
Qed.

(** ** [optimize_pricing]: the grid search over the candidates *)

Section SearchFacts.

Variables (objective : string) (min_margin : Q).
Variables (current_price base_cost base_volume elasticity : Q).

Local Abbreviation target :=
  (target_of objective current_price base_cost base_volume elasticity).
Local Abbreviation alive := (survives min_margin current_price base_cost).
Local Abbreviation step :=
  (try_candidate objective min_margin
     current_price base_cost base_volume elasticity).
Local Abbreviation inv :=
  (incumbent objective min_margin
     current_price base_cost base_volume elasticity).

(** A discarded candidate leaves the incumbent as it is. *)
Lemma try_candidate_discarded (best : float64 * Q) (c : Q) :
  alive c = false -> step best c = best.
Proof.
  unfold survives, try_candidate. intros H.
  apply negb_false_iff in H. rewrite H. reflexivity.
Qed.

(** A surviving candidate replaces the incumbent exactly when its target
    is strictly greater. *)
Lemma try_candidate_survivor (best : float64 * Q) (c : Q) :
  alive c = true ->
  step best c
  = if np_greater (Fin (target c)) (fst best) then (Fin (target c), c) else best.
Proof.
  unfold survives, try_candidate. intros H.
  apply negb_true_iff in H. rewrite H. reflexivity.
Qed.

Lemma incumbent_step (seen : list Q) (best : float64 * Q) (c : Q) :
  inv seen best -> inv (seen ++ [c])%list (step best c).
Proof.
  unfold incumbent. destruct best as [bv bc]. simpl fst. simpl snd.
  intros Hinv. destruct (alive c) eqn:Hc.
  - rewrite (try_candidate_survivor _ _ Hc). simpl fst.
    destruct Hinv as [[Hnone Hbest] | [before [after [Hseen [Hb [Hval [Hlt Hle]]]]]]].
    + injection Hbest as -> ->. simpl. right. exists seen, [].
      split; [reflexivity|]. split; [exact Hc|]. split; [reflexivity|].
      split; [| intros c' []].
      intros c' Hin Hc'. rewrite (Hnone c' Hin) in Hc'.
      discriminate.
    + subst bv. unfold np_greater, np_less.
      destruct (Qltb _ _) eqn:Hcmp; simpl fst; simpl snd.
      * apply Qltb_lt in Hcmp. right. exists seen, [].
        split; [reflexivity|]. split; [exact Hc|]. split; [reflexivity|].
        split; [| intros c' []].
        intros c' Hin Hc'. rewrite Hseen in Hin.
        apply in_app_or in Hin. destruct Hin as [Hin | [<- | Hin]].
        -- eapply Qlt_trans; [apply (Hlt c' Hin Hc') | exact Hcmp].
        -- exact Hcmp.
        -- eapply Qle_lt_trans; [apply (Hle c' Hin Hc') | exact Hcmp].
      * apply Qltb_ge in Hcmp. right. exists before, (after ++ [c])%list.
        split; [rewrite Hseen, <- app_assoc; reflexivity|].
        split; [exact Hb|]. split; [reflexivity|]. split; [exact Hlt|].
        intros c' Hin Hc'. apply in_app_or in Hin.
        destruct Hin as [Hin | [<- | []]]; [apply (Hle c' Hin Hc') | exact Hcmp].
  - rewrite (try_candidate_discarded _ _ Hc). simpl fst. simpl snd.
    destruct Hinv as [[Hnone Hbest] | [before [after [Hseen [Hb [Hval [Hlt Hle]]]]]]].
    + left. split; [| exact Hbest]. intros c' Hin.
      apply in_app_or in Hin. destruct Hin as [Hin | [<- | []]]; auto.
    + right. exists before, (after ++ [c])%list.
      split; [rewrite Hseen, <- app_assoc; reflexivity|].
      split; [exact Hb|]. split; [exact Hval|]. split; [exact Hlt|].
      intros c' Hin Hc'. apply in_app_or in Hin.
      destruct Hin as [Hin | [<- | []]]; [apply (Hle c' Hin Hc') |].
      rewrite Hc in Hc'. discriminate.
Qed.

Lemma incumbent_fold (points : list Q) :
  forall seen best,
    inv seen best -> inv (seen ++ points)%list (fold_left step points best).
Proof.
  induction points as [|c points IH]; intros seen best Hinv; simpl.
  - rewrite app_nil_r. exact Hinv.
  - replace (seen ++ c :: points)%list with ((seen ++ [c]) ++ points)%list
      by (rewrite <- app_assoc; reflexivity).
    apply IH. apply incumbent_step. exact Hinv.
Qed.

(** The grid search returns the fallback [0.0] when no candidate survives,
    and otherwise the first candidate, in evaluation order, whose target
    no survivor exceeds. *)
Lemma best_change_of_spec (points : list Q) :
  let c := best_change_of objective min_margin points
             current_price base_cost base_volume elasticity in
  ((forall c', In c' points -> alive c' = false) /\ c = 0)
  \/ (attains_maximum objective min_margin points
        current_price base_cost base_volume elasticity c
      /\ first_maximiser objective min_margin points
           current_price base_cost base_volume elasticity c).
Proof.
  intros c. unfold c, best_change_of. clear c.
  assert (Hinit : inv [] (NegInf, 0)).
  { left. split; [intros ? [] | reflexivity]. }
  pose proof (incumbent_fold points [] _ Hinit) as Hfin. simpl in Hfin.
  destruct (fold_left step points (NegInf, 0)) as [bv bc].
  unfold incumbent in Hfin. simpl fst in Hfin. simpl snd in *.
  destruct Hfin as [[Hnone Hbest] | [before [after [Hseen [Hb [Hval [Hlt Hle]]]]]]].
  - left. injection Hbest as _ ->. split; [exact Hnone | reflexivity].
  - right. split.
    + unfold attains_maximum.
      split; [rewrite Hseen; apply in_elt|]. split; [exact Hb|].
      intros c' Hin Hc'. rewrite Hseen in Hin. apply in_app_or in Hin.
      destruct Hin as [Hin | [<- | Hin]].
      * apply Qlt_le_weak. apply (Hlt c' Hin Hc').
      * apply Qle_refl.
      * apply (Hle c' Hin Hc').
    + exists before, after. auto.
Qed.

End SearchFacts.

(** ** The margin test *)

(** A candidate that is not discarded has a margin of at least
    [min_margin], unless its margin is [nan]. *)
Lemma survives_margin (min_margin current_price base_cost change : Q) :
  survives min_margin current_price base_cost change = true ->
  keeps_margin min_margin current_price base_cost change
  \/ margin_of current_price base_cost change = NaN.
Proof.
  unfold survives, keeps_margin. rewrite negb_true_iff.
  destruct (margin_of current_price base_cost change) as [a| | |]; simpl.
  - intros H. left. apply Qltb_ge in H. apply Qle_bool_iff. exact H.
  - intros _. left. reflexivity.
  - discriminate.
  - intros _. right. reflexivity.
Qed.

(** The margin is [nan] exactly when the new price and the cost are both
    zero. *)
Lemma margin_nan (current_price base_cost change : Q) :
  margin_of current_price base_cost change = NaN
  <-> current_price * (1 + change) == 0 /\ base_cost == 0.
Proof.
  unfold margin_of, np_divide.
  destruct (Qeq_bool (current_price * (1 + change)) 0) eqn:Hz.
  - apply Qeq_bool_iff in Hz.
    destruct (Qltb 0 _) eqn:Hpos; [| destruct (Qltb _ 0) eqn:Hneg].
    + apply Qltb_lt in Hpos. split; [discriminate|]. intros [_ Hk].
      rewrite Hz, Hk in Hpos. exfalso. revert Hpos. apply Qlt_irrefl.
    + apply Qltb_lt in Hneg. split; [discriminate|]. intros [_ Hk].
      rewrite Hz, Hk in Hneg. exfalso. revert Hneg. apply Qlt_irrefl.
    + apply Qltb_ge in Hpos. apply Qltb_ge in Hneg.
      split; [intros _ | reflexivity]. split; [exact Hz|].
      rewrite Hz in Hpos, Hneg. lra.
  - apply Qeq_bool_neq in Hz. split; [discriminate|]. intros [H _].
    contradiction.
Qed.

(** ** The candidates *)

(** The five entries [np.linspace] computes for [(-max_change, max_change)]. *)
Lemma test_points_shape (max_change : Q) :
  exists a0 a1 a2 a3,
    test_points max_change = [a0; a1; a2; a3; max_change]
    /\ a0 == - max_change /\ a1 == - (max_change / 2)
    /\ a2 == 0 /\ a3 == max_change / 2.
Proof.
  unfold test_points, linspace.
  cbn [seq List.map Nat.sub Nat.ltb Nat.leb Z.of_nat Pos.of_succ_nat Pos.succ].
  destruct (Qeq_bool _ _); cbn [List.map list_insert insert];
    do 4 eexists; (split; [reflexivity|]);
    (split; [field | split; [field | split; field]]).
Qed.

(** For a bound that is not negative they come in ascending order. *)
Lemma test_points_ascending (max_change : Q) :
  0 <= max_change -> StronglySorted Qle (test_points max_change).
Proof.
  intros Hm.
  destruct (test_points_shape max_change)
    as [a0 [a1 [a2 [a3 [-> [H0 [H1 [H2 H3]]]]]]]].
  assert (Hhalf : max_change / 2 == max_change * (1 # 2)) by field.
  rewrite Hhalf in H1, H3.
  repeat constructor; rewrite ?H0, ?H1, ?H2, ?H3; lra.
Qed.

(** In an ascending list nothing after an entry is smaller than it. *)
Lemma ascending_after (before after : list Q) (c : Q) :
  StronglySorted Qle (before ++ c :: after) ->
  forall c', In c' after -> c <= c'.
Proof.
  induction before as [|b before IH]; simpl; intros Hs c' Hin.
  - apply StronglySorted_inv in Hs. destruct Hs as [_ Hall].
    rewrite List.Forall_forall in Hall. apply Hall. exact Hin.
  - apply StronglySorted_inv in Hs. destruct Hs as [Hs _].
    apply IH; assumption.
Qed.

(** On ascending candidates the first maximiser is the smallest one. *)
Lemma first_is_smallest (objective : string) (min_margin : Q) (points : list Q)
    (current_price base_cost base_volume elasticity c : Q) :
  StronglySorted Qle points ->
  first_maximiser objective min_margin points
    current_price base_cost base_volume elasticity c ->
  smallest_maximiser objective min_margin points
    current_price base_cost base_volume elasticity c.
Proof.
  intros Hsorted [before [after [Hpts [Hc [Hlt Hle]]]]] c' [Hin [Hc' Hmax]].
  rewrite Hpts in Hin. apply in_app_or in Hin.
  destruct Hin as [Hin | [<- | Hin]].
  - exfalso. specialize (Hlt c' Hin Hc').
    assert (Hcin : In c points) by (rewrite Hpts; apply in_elt).
    specialize (Hmax c Hcin Hc). revert Hlt. apply Qle_not_lt. exact Hmax.
  - apply Qle_refl.
  - rewrite Hpts in Hsorted. apply (ascending_after _ _ _ Hsorted c' Hin).
Qed.

(** ** An unrecognised objective *)

Lemma target_unrecognised (objective : string)
    (current_price base_cost base_volume elasticity change : Q) :
  unrecognised objective ->
  target_of objective current_price base_cost base_volume elasticity change = 0.
Proof.
  intros [Hp [Hr Hv]]. unfold target_of.
  apply String.eqb_neq in Hp, Hr, Hv. rewrite Hp, Hr, Hv. reflexivity.
Qed.

(** Once a survivor is the incumbent with target 0, no later candidate
    replaces it. *)
Lemma unrecognised_incumbent_stays (objective : string) (min_margin : Q)
    (current_price base_cost base_volume elasticity c : Q) (points : list Q) :
  unrecognised objective ->
  fold_left
    (try_candidate objective min_margin
       current_price base_cost base_volume elasticity)
    points (Fin 0, c) = (Fin 0, c).
Proof.
  intros Hu. induction points as [|c' points IH]; simpl; [reflexivity|].
  unfold try_candidate at 2.
  rewrite (target_unrecognised _ _ _ _ _ _ Hu).
  destruct (np_less _ _); simpl; exact IH.
Qed.

(** The grid search then returns the first candidate that passes the margin
    test, or the fallback. *)
Lemma best_change_unrecognised (objective : string) (min_margin : Q)
    (current_price base_cost base_volume elasticity : Q) (points : list Q) :
  unrecognised objective ->
  best_change_of objective min_margin points
    current_price base_cost base_volume elasticity
  = default 0 (List.find (survives min_margin current_price base_cost) points).
Proof.
  intros Hu. unfold best_change_of.
  induction points as [|c points IH]; simpl; [reflexivity|].
  unfold try_candidate at 2. unfold survives at 1.
  rewrite (target_unrecognised _ _ _ _ _ _ Hu).
  destruct (np_less _ _); simpl.
  - exact IH.
  - rewrite (unrecognised_incumbent_stays _ _ _ _ _ _ _ _ Hu). reflexivity.
Qed.

(** What [find] returns is the first entry that passes. *)
Lemma find_first {A} (f : A -> bool) (l : list A) :
  match List.find f l with
  | Some x => exists before after,
      l = (before ++ x :: after)%list /\ f x = true
      /\ forall y, In y before -> f y = false
  | None => forall y, In y l -> f y = false
  end.
Proof.
  induction l as [|a l IH]; simpl; [intros y [] |].
  destruct (f a) eqn:Ha.
  - exists [], l. split; [reflexivity|]. split; [exact Ha | intros y []].
  - destruct (List.find f l) as [x|].
    + destruct IH as [before [after [-> [Hx Hb]]]].
      exists (a :: before), after. split; [reflexivity|]. split; [exact Hx|].
      intros y [<- | Hin]; [exact Ha | apply Hb; exact Hin].
    + intros y [<- | Hin]; [exact Ha | apply IH; exact Hin].
Qed.

(** ** [calculate_elasticity] *)

Lemma unique_In (l : list string) (x : string) : In x (unique l) <-> In x l.
Proof.
  induction l as [|a l IH]; simpl; [reflexivity|].
  rewrite List.filter_In, IH, negb_true_iff, String.eqb_neq.
  destruct (string_dec a x) as [-> | Hne]; [tauto|].
  split; [tauto|]. intros [H | H]; [tauto | right; split; assumption].
Qed.

Section EstimatorFacts.

Variable np_log : Q -> Q.
Variable fit : list Q -> list Q -> LinearRegression.
Variable score : LinearRegression -> list Q -> list Q -> Q.

(** One iteration stores the default record or the fitted one under the
    identifier, and touches nothing of the instance but the model cache. *)
Lemma estimate_product_ok (hist : list observation)
    (results : gmap string elasticity_result) (pid : string) (s : simulator) :
  historical_data s = Some hist ->
  exists s',
    estimate_product np_log fit score results pid s
    = (Ok (<[pid :=
              if (length (valid_rows (rows_of hist pid)) <? 5)%nat
              then default_result
              else modeled_result np_log fit score hist pid]> results), s')
    /\ historical_data s' = Some hist
    /\ product_data s' = product_data s
    /\ elasticities s' = elasticities s.
Proof.
  intros Hhist. unfold estimate_product, bind, get_self. rewrite Hhist.
  destruct (length (valid_rows (rows_of hist pid)) <? 5)%nat.
  - exists s. auto.
  - eexists. split; [reflexivity|]. simpl. auto.
Qed.

Lemma estimate_loop_ok (hist : list observation) (ids : list string) :
  forall (acc : gmap string elasticity_result) (s : simulator),
    historical_data s = Some hist ->
    exists results s',
      for_each (estimate_product np_log fit score) acc ids s = (Ok results, s')
      /\ historical_data s' = Some hist
      /\ product_data s' = product_data s
      /\ elasticities s' = elasticities s
      /\ (forall pid, In pid ids ->
            results !! pid
            = Some (if (length (valid_rows (rows_of hist pid)) <? 5)%nat
                    then default_result
                    else modeled_result np_log fit score hist pid))
      /\ (forall pid, ~ In pid ids -> results !! pid = acc !! pid).
Proof.
  induction ids as [|a ids IH]; intros acc s Hhist; simpl.
  - exists acc, s. repeat (split; [auto; fail|]).
    split; [intros pid [] | reflexivity].
  - destruct (estimate_product_ok hist acc a s Hhist)
      as [s1 [Hstep [Hh1 [Hp1 He1]]]].
    destruct (IH (<[a := if (length (valid_rows (rows_of hist a)) <? 5)%nat
                         then default_result
                         else modeled_result np_log fit score hist a]> acc)
                 s1 Hh1)
      as [results [s' [Hloop [Hh [Hp [He [Hin Hout]]]]]]].
    exists results, s'. unfold bind. rewrite Hstep.
    split; [exact Hloop|]. split; [exact Hh|].
    split; [congruence|]. split; [congruence|]. split.
    + intros pid Hpid.
      destruct (in_dec string_dec pid ids) as [Hlater | Hnot].
      * apply Hin. exact Hlater.
      * destruct Hpid as [-> | Hpid]; [| contradiction].
        rewrite (Hout pid Hnot). apply lookup_insert_eq.
    + intros pid Hpid. rewrite Hout by tauto.
      apply lookup_insert_ne. tauto.
Qed.

(** With observations loaded the call succeeds, stores its result as the
    elasticity mapping, and gives every identifier of the table the default
    record or the fitted one according to the number of valid rows. *)
Lemma calculate_elasticity_ok (method : string) (hist : list observation)
    (s : simulator) :
  historical_data s = Some hist ->
  exists results s',
    calculate_elasticity np_log fit score method s = (Ok results, s')
    /\ elasticities s' = results
    /\ product_data s' = product_data s
    /\ historical_data s' = Some hist
    /\ (forall pid, In pid (List.map obs_product_id hist) ->
          results !! pid
          = Some (if (length (valid_rows (rows_of hist pid)) <? 5)%nat
                  then default_result
                  else modeled_result np_log fit score hist pid))
    /\ (forall pid, ~ In pid (List.map obs_product_id hist) ->
          results !! pid = None).
Proof.
  intros Hhist. unfold calculate_elasticity, bind at 1, get_self.
  rewrite Hhist.
  destruct (estimate_loop_ok hist (unique (List.map obs_product_id hist)) ∅ s Hhist)
    as [results [s1 [Hloop [Hh [Hp [He [Hin Hout]]]]]]].
  unfold bind at 1. rewrite Hloop.
  eexists results, _. split; [reflexivity|]. simpl.
  split; [reflexivity|]. split; [exact Hp|]. split; [exact Hh|]. split.
  - intros pid Hpid. apply Hin. apply unique_In. exact Hpid.
  - intros pid Hpid. rewrite Hout; [apply lookup_empty|].
    rewrite unique_In. exact Hpid.
Qed.

(** Without observations the call raises its [ValueError]. *)
Lemma calculate_elasticity_unloaded (method : string) (s : simulator) :
  historical_data s = None ->
  calculate_elasticity np_log fit score method s
  = (Raise (ValueError "Historical data not loaded"), s).
Proof.
  intros Hnone. unfold calculate_elasticity, bind, get_self. rewrite Hnone.
  reflexivity.
Qed.

End EstimatorFacts.

(** ** The base volume *)

Lemma rows_of_decide (hist : list observation) (pid : string) :
  rows_of hist pid
  = List.filter (fun o => bool_decide (obs_product_id o = pid)) hist.
Proof.
  unfold rows_of. apply List.filter_ext. intros o.
  destruct (String.eqb_spec (obs_product_id o) pid) as [E | E].
  - rewrite bool_decide_eq_true_2 by exact E. reflexivity.
  - rewrite bool_decide_eq_false_2 by exact E. reflexivity.
Qed.

(** The five lines that compute the base volume compute the reference
    volume of the specification. *)
Lemma base_volume_reference (s : simulator) (pid : string) :
  base_volume_of s pid = reference_volume (historical_data s) pid.
Proof.
  unfold base_volume_of, reference_volume, observed_volumes.
  destruct (historical_data s) as [hist|]; [| reflexivity].
  rewrite rows_of_decide.
  destruct (List.filter _ hist) as [|o rest]; reflexivity.
Qed.

(** The rows the estimator counts, in words. *)
Lemma valid_rows_spec (hist : list observation) (pid : string) (o : observation) :
  In o (valid_rows (rows_of hist pid))
  <-> In o hist /\ obs_product_id o = pid /\ 0 < price o /\ 0 < volume o.
Proof.
  unfold valid_rows, rows_of.
  rewrite !List.filter_In, andb_true_iff, !Qltb_lt, String.eqb_eq. tauto.
Qed.

(** ** Least squares on one regressor *)

Lemma count_cons (x : Q) (X : list Q) : count (x :: X) == 1 + count X.
Proof.
  unfold count. simpl length. rewrite Nat2Z.inj_succ, <- Z.add_1_l.
  rewrite inject_Z_plus. reflexivity.
Qed.

Lemma count_pos (X : list Q) : X <> [] -> 0 < count X.
Proof.
  destruct X as [|x X]; [congruence|]. intros _. unfold count.
  change 0 with (inject_Z 0). rewrite <- Zlt_Qlt. simpl length. lia.
Qed.

Lemma Qsum_cons (x : Q) (l : list Q) : Qsum (x :: l) = x + Qsum l.
Proof. reflexivity. Qed.

Lemma Qsquare_nonneg (x : Q) : 0 <= x * x.
Proof. nra. Qed.

Lemma Qsum_squares_nonneg {A} (f : A -> Q) (l : list A) :
  0 <= Qsum (List.map (fun x => f x * f x) l).
Proof.
  induction l as [|x l IH]; simpl; [lra|].
  change (fold_right Qplus 0 (List.map (fun x0 => f x0 * f x0) l))
    with (Qsum (List.map (fun x0 => f x0 * f x0) l)).
  pose proof (Qsquare_nonneg (f x)). lra.
Qed.

(** The three sums of products, expanded into the plain sums. *)
Lemma rss_expand (X : list Q) :
  forall y a b, length X = length y ->
    rss X y a b
    == sum_sq y - 2 * a * Qsum y - 2 * b * sum_prod X y
       + count X * a * a + 2 * a * b * Qsum X + b * b * sum_sq X.
Proof.
  induction X as [|x X IH]; intros [|v y] a b Hlen; try discriminate.
  - unfold rss, sum_sq, sum_prod, count. simpl. ring.
  - injection Hlen as Hlen. specialize (IH y a b Hlen).
    unfold rss, sum_sq, sum_prod in *. simpl combine. simpl List.map.
    rewrite !Qsum_cons, count_cons. simpl fst. simpl snd.
    rewrite IH. ring.
Qed.

Lemma centred_xx_expand (X : list Q) (m : Q) :
  Qsum (List.map (fun x => (x - m) * (x - m)) X)
  == sum_sq X - 2 * m * Qsum X + count X * m * m.
Proof.
  induction X as [|x X IH].
  - unfold sum_sq, count. simpl. ring.
  - unfold sum_sq in *. simpl List.map. rewrite !Qsum_cons, count_cons, IH. ring.
Qed.

Lemma centred_xy_expand (X : list Q) :
  forall y m w, length X = length y ->
    Qsum (List.map (fun p => (fst p - m) * (snd p - w)) (combine X y))
    == sum_prod X y - m * Qsum y - w * Qsum X + count X * m * w.
Proof.
  induction X as [|x X IH]; intros [|v y] m w Hlen; try discriminate.
  - unfold sum_prod, count. simpl. ring.
  - injection Hlen as Hlen. specialize (IH y m w Hlen).
    unfold sum_prod in *. simpl combine. simpl List.map.
    rewrite !Qsum_cons, count_cons. simpl fst. simpl snd. rewrite IH. ring.
Qed.

(** The identity behind the normal equations, on the plain sums. *)
Lemma quadratic_gap (n sx sy sxx sxy syy a b : Q) :
  ~ n == 0 -> ~ sxx - sx * sx / n == 0 ->
  let cxx := sxx - sx * sx / n in
  let bh := (sxy - sx * sy / n) / cxx in
  let ah := sy / n - bh * (sx / n) in
  (syy - 2 * a * sy - 2 * b * sxy + n * a * a + 2 * a * b * sx + b * b * sxx)
  - (syy - 2 * ah * sy - 2 * bh * sxy + n * ah * ah + 2 * ah * bh * sx
     + bh * bh * sxx)
  == n * ((a - ah + (b - bh) * (sx / n)) * (a - ah + (b - bh) * (sx / n)))
     + (b - bh) * (b - bh) * cxx.
Proof.
  intros Hn Hc cxx bh ah. unfold ah, bh, cxx. field.
  split; [exact Hn|]. intros H. apply Hc.
  assert (E : sxx - sx * sx / n == (sxx * n - sx * sx) / n) by (field; exact Hn).
  rewrite E, H. field. exact Hn.
Qed.

(** The centred sums in terms of the plain ones. *)
Lemma centred_xx_plain (X : list Q) :
  ~ count X == 0 ->
  centred_xx X == sum_sq X - Qsum X * Qsum X / count X.
Proof.
  intros Hn. unfold centred_xx. rewrite centred_xx_expand. unfold mean.
  fold (count X). field. exact Hn.
Qed.

Lemma centred_xy_plain (X y : list Q) :
  length X = length y -> ~ count X == 0 ->
  centred_xy X y == sum_prod X y - Qsum X * Qsum y / count X.
Proof.
  intros Hlen Hn. unfold centred_xy. rewrite (centred_xy_expand X y _ _ Hlen).
  unfold mean. fold (count X). fold (count y).
  assert (Hc : count y == count X) by (unfold count; rewrite Hlen; reflexivity).
  rewrite Hc. field. exact Hn.
Qed.

(** The residual sum of squares at any line exceeds the one at the line of
    the normal equations by a sum of two squares. *)
Lemma rss_gap (X y : list Q) (a b : Q) :
  length X = length y -> ~ count X == 0 -> ~ centred_xx X == 0 ->
  let bh := centred_xy X y / centred_xx X in
  let ah := mean y - bh * mean X in
  rss X y a b - rss X y ah bh
  == count X * ((a - ah + (b - bh) * mean X) * (a - ah + (b - bh) * mean X))
     + (b - bh) * (b - bh) * centred_xx X.
Proof.
  intros Hlen Hn Hc bh ah.
  assert (Hcy : count y == count X) by (unfold count; rewrite Hlen; reflexivity).
  assert (Hcp : ~ sum_sq X - Qsum X * Qsum X / count X == 0)
    by (rewrite <- centred_xx_plain; assumption).
  pose proof (quadratic_gap (count X) (Qsum X) (Qsum y) (sum_sq X)
                (sum_prod X y) (sum_sq y) a b Hn Hcp) as Hgap.
  simpl in Hgap.
  rewrite !(rss_expand X y _ _ Hlen).
  assert (Hbh : bh == (sum_prod X y - Qsum X * Qsum y / count X)
                      / (sum_sq X - Qsum X * Qsum X / count X)).
  { unfold bh. rewrite (centred_xy_plain X y Hlen Hn), (centred_xx_plain X Hn).
    reflexivity. }
  assert (Hmx : mean X == Qsum X / count X) by reflexivity.
  assert (Hmy : mean y == Qsum y / count X)
    by (unfold mean; fold (count y); rewrite Hcy; reflexivity).
  assert (Hah : ah == Qsum y / count X
                      - (sum_prod X y - Qsum X * Qsum y / count X)
                        / (sum_sq X - Qsum X * Qsum X / count X)
                        * (Qsum X / count X)).
  { unfold ah. rewrite Hbh, Hmx, Hmy. reflexivity. }
  rewrite (centred_xx_plain X Hn), Hmx, Hah, Hbh. exact Hgap.
Qed.

Lemma centred_xx_nonneg (X : list Q) : 0 <= centred_xx X.
Proof. unfold centred_xx. apply (Qsum_squares_nonneg (fun x => x - mean X)). Qed.

Lemma centred_xx_count (X : list Q) : ~ centred_xx X == 0 -> ~ count X == 0.
Proof.
  intros Hc Hn. apply Hc. destruct X as [|x X]; [reflexivity|].
  pose proof (count_pos (x :: X) ltac:(discriminate)) as Hpos.
  rewrite Hn in Hpos. apply Qlt_irrefl in Hpos. contradiction.
Qed.

(** The variance vanishes exactly when the centred sum of squares does. *)
Lemma variance_zero (X : list Q) : variance X == 0 <-> centred_xx X == 0.
Proof.
  unfold variance. split.
  - intros Hv. destruct X as [|x X]; [reflexivity|].
    pose proof (count_pos (x :: X) ltac:(discriminate)) as Hpos.
    assert (Hn : ~ count (x :: X) == 0) by (intros E; rewrite E in Hpos; apply Qlt_irrefl in Hpos; exact Hpos).
    assert (E : centred_xx (x :: X) == centred_xx (x :: X) / count (x :: X) * count (x :: X))
      by (field; exact Hn).
    rewrite E, Hv. ring.
  - intros Hc. rewrite Hc. unfold Qdiv. ring.
Qed.

(** [cov / var] is the quotient of the centred sums. *)
Lemma closed_form_ratio (X y : list Q) :
  ~ variance X == 0 ->
  covariance X y / variance X == centred_xy X y / centred_xx X.
Proof.
  intros Hv.
  assert (Hc : ~ centred_xx X == 0) by (rewrite <- variance_zero; exact Hv).
  pose proof (centred_xx_count X Hc) as Hn.
  unfold covariance, variance. field. split; assumption.
Qed.

(** With some spread in [X] the minimiser is unique: every least-squares
    fit reports the quotient of the centred sums as its slope. *)
Lemma least_squares_slope (X y : list Q) (m : LinearRegression) :
  length X = length y -> ~ centred_xx X == 0 ->
  least_squares X y m ->
  nth 0 (coef_ m) 0 == centred_xy X y / centred_xx X.
Proof.
  intros Hlen Hc Hls.
  pose proof (centred_xx_count X Hc) as Hn.
  pose proof (centred_xx_nonneg X) as Hnn.
  assert (Hpos : 0 < centred_xx X).
  { apply Qle_lteq in Hnn. destruct Hnn as [H | H]; [exact H|].
    exfalso. apply Hc. symmetry. exact H. }
  assert (Hcount : 0 < count X).
  { destruct X as [|x X]; [exfalso; apply Hn; reflexivity|].
    apply count_pos. discriminate. }
  set (b := nth 0 (coef_ m) 0) in *.
  set (a := intercept_ m) in *.
  pose proof (rss_gap X y a b Hlen Hn Hc) as Hgap. simpl in Hgap.
  set (bh := centred_xy X y / centred_xx X) in *.
  set (ah := mean y - bh * mean X) in *.
  specialize (Hls ah bh). fold a b in Hls.
  set (u := a - ah + (b - bh) * mean X) in *.
  clearbody u ah bh a b.
  assert (Hle : count X * (u * u) + (b - bh) * (b - bh) * centred_xx X <= 0).
  { rewrite <- Hgap. lra. }
  pose proof (Qsquare_nonneg u) as Huu.
  assert (Hu : 0 <= count X * (u * u)) by (apply Qmult_le_0_compat; lra).
  assert (Hd : (b - bh) * (b - bh) * centred_xx X <= 0) by lra.
  pose proof (Qsquare_nonneg (b - bh)) as Hbb.
  assert (Hsq : (b - bh) * (b - bh) == 0).
  { apply Qle_lteq in Hbb. destruct Hbb as [Hlt | Heq]; [| symmetry; exact Heq].
    pose proof (Qmult_lt_0_compat _ _ Hlt Hpos). lra. }
  assert (Hz : b - bh == 0).
  { apply Qmult_integral in Hsq. tauto. }
  lra.
Qed.

(** The fit written out minimises, first where [X] has some spread. *)
Lemma ols_fit_least_squares (X y : list Q) :
  length X = length y -> ~ centred_xx X == 0 ->
  least_squares X y (ols_fit X y).
Proof.
  intros Hlen Hc a b.
  pose proof (centred_xx_count X Hc) as Hn.
  pose proof (centred_xx_nonneg X) as Hnn.
  assert (Hcount : 0 < count X).
  { destruct X as [|x X]; [exfalso; apply Hn; reflexivity|].
    apply count_pos. discriminate. }
  unfold ols_fit.
  destruct (Qeq_bool (centred_xx X) 0) eqn:E.
  { apply Qeq_bool_iff in E. contradiction. }
  simpl.
  pose proof (rss_gap X y a b Hlen Hn Hc) as Hgap. simpl in Hgap.
  set (bh := centred_xy X y / centred_xx X) in *.
  set (ah := mean y - bh * mean X) in *.
  set (u := a - ah + (b - bh) * mean X) in *.
  clearbody u ah bh.
  pose proof (Qsquare_nonneg u) as Huu.
  assert (Hu : 0 <= count X * (u * u)) by (apply Qmult_le_0_compat; lra).
  pose proof (Qsquare_nonneg (b - bh)) as Hbb.
  assert (Hd : 0 <= (b - bh) * (b - bh) * centred_xx X)
    by (apply Qmult_le_0_compat; lra).
  lra.
Qed.

Lemma rss_nonneg (X y : list Q) (a b : Q) : 0 <= rss X y a b.
Proof.
  unfold rss.
  apply (Qsum_squares_nonneg (fun p : Q * Q => snd p - (a + b * fst p))).
Qed.

(** The residual sum of squares around the line through the two means. *)
Lemma rss_centred (X y : list Q) (a b : Q) :
  length X = length y -> ~ count X == 0 ->
  rss X y a b
  == centred_xx y - 2 * b * centred_xy X y + b * b * centred_xx X
     + count X * ((a + b * mean X - mean y) * (a + b * mean X - mean y)).
Proof.
  intros Hlen Hn.
  assert (Hcy : count y == count X) by (unfold count; rewrite Hlen; reflexivity).
  assert (Hny : ~ count y == 0) by (rewrite Hcy; exact Hn).
  rewrite (rss_expand X y a b Hlen).
  rewrite (centred_xx_plain y Hny), (centred_xy_plain X y Hlen Hn),
    (centred_xx_plain X Hn).
  assert (Hmx : mean X == Qsum X / count X) by reflexivity.
  assert (Hmy : mean y == Qsum y / count X)
    by (unfold mean; fold (count y); rewrite Hcy; reflexivity).
  rewrite Hmx, Hmy, Hcy. field. exact Hn.
Qed.

(** With no spread in [X] the cross term vanishes too. *)
Lemma centred_xy_degenerate (X y : list Q) :
  length X = length y -> centred_xx X == 0 -> centred_xy X y == 0.
Proof.
  intros Hlen Hc.
  destruct (Qeq_dec (count X) 0) as [Hn | Hn].
  { destruct X as [|x X]; [reflexivity|].
    pose proof (count_pos (x :: X) ltac:(discriminate)) as Hpos.
    rewrite Hn in Hpos. apply Qlt_irrefl in Hpos. contradiction. }
  destruct (Qeq_dec (centred_xy X y) 0) as [Hz | Hz]; [exact Hz|].
  exfalso.
  set (t := (centred_xx y + 1) / (2 * centred_xy X y)).
  pose proof (rss_nonneg X y (mean y - t * mean X) t) as Hpos.
  rewrite (rss_centred X y _ _ Hlen Hn) in Hpos.
  rewrite Hc in Hpos.
  assert (Ht : 2 * t * centred_xy X y == centred_xx y + 1)
    by (unfold t; field; exact Hz).
  assert (Hzero : mean y - t * mean X + t * mean X - mean y == 0) by ring.
  rewrite Hzero in Hpos. rewrite Ht in Hpos.
  clearbody t. lra.
Qed.

(** The model fit is a least-squares fit on every input. *)
Lemma ols_fit_minimises (X y : list Q) :
  length X = length y -> least_squares X y (ols_fit X y).
Proof.
  intros Hlen.
  destruct (Qeq_dec (centred_xx X) 0) as [Hc | Hc];
    [| exact (ols_fit_least_squares X y Hlen Hc)].
  intros a b. unfold ols_fit.
  assert (E : Qeq_bool (centred_xx X) 0 = true) by (apply Qeq_bool_iff; exact Hc).
  rewrite E. simpl.
  destruct X as [|x X].
  { destruct y; [| discriminate]. unfold rss. simpl. lra. }
  pose proof (count_pos (x :: X) ltac:(discriminate)) as Hpos.
  assert (Hn : ~ count (x :: X) == 0)
    by (intros H; rewrite H in Hpos; apply Qlt_irrefl in Hpos; exact Hpos).
  rewrite !(rss_centred (x :: X) y _ _ Hlen Hn).
  rewrite (centred_xy_degenerate (x :: X) y Hlen Hc), Hc.
  pose proof (Qsquare_nonneg (a + b * mean (x :: X) - mean y)) as Hsq.
  assert (Hu : 0 <= count (x :: X)
                    * ((a + b * mean (x :: X) - mean y)
                       * (a + b * mean (x :: X) - mean y)))
    by (apply Qmult_le_0_compat; lra).
  set (u := count (x :: X) * _) in *. clearbody u.
  set (cyy := centred_xx y). clearbody cyy.
  set (mx := mean (x :: X)). set (my := mean y). clearbody mx my.
  set (n := count (x :: X)) in *. clearbody n.
  lra.
Qed.

(** ** The closed form of the slope *)

Lemma logged_lengths (np_log : Q -> Q) (hist : list observation) (pid : string) :
  length (logged_prices np_log hist pid) = length (logged_volumes np_log hist pid).
Proof. unfold logged_prices, logged_volumes. rewrite !length_map. reflexivity. Qed.

(** The closed form is a number exactly when the variance is not 0. *)
Lemma closed_form_defined (X y : list Q) :
  ~ variance X == 0 ->
  closed_form_slope X y = Fin (covariance X y / variance X).
Proof.
  intros Hv. unfold closed_form_slope, np_divide.
  destruct (Qeq_bool (variance X) 0) eqn:E; [| reflexivity].
  apply Qeq_bool_iff in E. contradiction.
Qed.

Lemma closed_form_undefined (X y : list Q) (e : Q) :
  variance X == 0 -> ~ equals_closed_form e X y.
Proof.
  intros Hv. unfold equals_closed_form, closed_form_slope, np_divide.
  apply Qeq_bool_iff in Hv. rewrite Hv.
  destruct (Qltb 0 (covariance X y)); [tauto|].
  destruct (Qltb (covariance X y) 0); tauto.
Qed.

(** ** The claims *)

(** C1 (defect of the code).  The claim: [optimize] fails with a state error,
    the precondition error of its sibling, whenever no catalog is loaded.
    The code: [optimize_pricing] has no guard; for every objective,
    [min_margin] and [max_change] it raises the [AttributeError] of iterating
    over [None] and never a [ValueError], while [simulate_scenario] on the
    same instance raises the [ValueError] of its guard. *)
Theorem optimize_pricing_without_catalog
    (objective : string) (min_margin max_change : Q) (s : simulator) :
  product_data s = None ->
  optimize_pricing objective min_margin max_change s
  = (Raise (AttributeError "'NoneType' object has no attribute 'iterrows'"), s)
  /\ (forall msg,
        fst (optimize_pricing objective min_margin max_change s)
        <> Raise (ValueError msg))
  /\ forall price_changes,
       simulate_scenario price_changes s
       = (Raise (ValueError "Product data not loaded"), s).
Proof.
  intros Hnone. rewrite (optimize_pricing_unloaded _ _ _ _ Hnone).
  split; [reflexivity|]. split; [intros msg; discriminate|].
  intros price_changes. apply simulate_scenario_unloaded. exact Hnone.
Qed.

Lemma optimize_pricing_without_catalog_witness :
  product_data init = None
  /\ fst (optimize_pricing "profit" 0.1 0.2 init)
     = Raise (AttributeError "'NoneType' object has no attribute 'iterrows'").
Proof.
  split; [reflexivity|].
  rewrite (proj1 (optimize_pricing_without_catalog "profit" 0.1 0.2 init eq_refl)).
  reflexivity.
Defined.

(** What one record of the simulation satisfies for C7: each percentage is
    0 when its baseline is zero and the quotient otherwise. *)
Lemma projected_percentages (price_changes : gmap string Q) (s : simulator)
    (row : product) (r : simulation_record) :
  projected price_changes s row r ->
  (old_revenue r == 0 -> revenue_change_pct r = 0)
  /\ (~ old_revenue r == 0 ->
      revenue_change_pct r = (new_revenue r - old_revenue r) / old_revenue r)
  /\ (old_profit r == 0 -> profit_change_pct r = 0)
  /\ (~ old_profit r == 0 ->
      profit_change_pct r = (new_profit r - old_profit r) / old_profit r).
Proof.
  unfold projected. rewrite simulate_row_ok. intros H. injection H as <-. simpl.
  split; [| split; [| split]].
  - intros Hz. apply truthy_false in Hz. rewrite Hz. reflexivity.
  - intros Hz. apply truthy_true in Hz. rewrite Hz. reflexivity.
  - intros Hz. apply truthy_false in Hz. rewrite Hz. reflexivity.
  - intros Hz. apply truthy_true in Hz. rewrite Hz. reflexivity.
Qed.

(** C7.  In every simulation record [revenue_change_pct] is 0 whenever
    [old_revenue] is exactly 0 and [profit_change_pct] is 0 whenever
    [old_profit] is exactly 0; otherwise each is [(new - old) / old]; and the
    division is never reached with a zero divisor: the call never raises a
    [ZeroDivisionError], and with a catalog loaded it returns its records. *)
Theorem simulate_percentages_guarded (price_changes : gmap string Q)
    (s : simulator) :
  (forall msg,
     fst (simulate_scenario price_changes s) <> Raise (ZeroDivisionError msg))
  /\ forall table, product_data s = Some table ->
       exists recs,
         simulate_scenario price_changes s = (Ok recs, s)
         /\ length recs = length table
         /\ Forall
              (fun r =>
                 (old_revenue r == 0 -> revenue_change_pct r = 0)
                 /\ (~ old_revenue r == 0 ->
                     revenue_change_pct r
                     = (new_revenue r - old_revenue r) / old_revenue r)
                 /\ (old_profit r == 0 -> profit_change_pct r = 0)
                 /\ (~ old_profit r == 0 ->
                     profit_change_pct r
                     = (new_profit r - old_profit r) / old_profit r))
              recs.
Proof.
  split.
  - intros msg. destruct (product_data s) as [table|] eqn:Htable.
    + destruct (simulate_scenario_ok price_changes s table Htable)
        as [recs [Heq _]].
      rewrite Heq. discriminate.
    + rewrite (simulate_scenario_unloaded _ _ Htable). discriminate.
  - intros table Htable.
    destruct (simulate_scenario_ok price_changes s table Htable)
      as [recs [Heq Hall]].
    exists recs. split; [exact Heq|].
    split; [symmetry; apply (Forall2_length _ _ _ Hall)|].
    apply (projected_all _ _ _ _ _ Hall). intros row r _ Hrow.
    apply (projected_percentages _ _ _ _ Hrow).
Qed.

Lemma simulate_percentages_guarded_witness :
  product_data unsold <> None
  /\ exists recs,
       simulate_scenario ∅ unsold = (Ok recs, unsold)
       /\ Forall (fun r => old_revenue r == 0 -> revenue_change_pct r = 0) recs.
Proof.
  split; [discriminate|].
  destruct (proj2 (simulate_percentages_guarded ∅ unsold) _ eq_refl)
    as [recs [Heq [_ Hall]]].
  exists recs. split; [exact Heq|].
  eapply Forall_impl; [exact Hall|]. intros r Hr. exact (proj1 Hr).
Defined.

(** The identifiers of the records are those of the rows, in order. *)
Lemma projected_ids (price_changes : gmap string Q) (s : simulator)
    (table : list product) (recs : list simulation_record) :
  Forall2 (projected price_changes s) table recs ->
  List.map sim_product_id recs = List.map product_id table.
Proof.
  induction 1 as [|row r table recs Hrow _ IH]; simpl; [reflexivity|].
  rewrite IH. unfold projected in Hrow. rewrite simulate_row_ok in Hrow.
  injection Hrow as <-. reflexivity.
Qed.

(** The record of a row that the mapping does not mention. *)
Lemma projected_unchanged (price_changes : gmap string Q) (s : simulator)
    (row : product) (r : simulation_record) :
  projected price_changes s row r ->
  price_changes !! sim_product_id r = None ->
  new_price r == old_price r /\ volume_change_pct r == 0.
Proof.
  unfold projected. rewrite simulate_row_ok. intros H. injection H as <-. simpl.
  intros ->. simpl. split; ring.
Qed.

(** C9.  For every catalog product absent from the [price_changes] mapping,
    and so for every product when the mapping is empty, the simulation
    record has [new_price] equal to [old_price] and [volume_change_pct]
    equal to 0; there is one record per catalog product, in catalog order. *)
Theorem absent_products_unchanged (price_changes : gmap string Q)
    (s : simulator) (table : list product) :
  product_data s = Some table ->
  exists recs,
    simulate_scenario price_changes s = (Ok recs, s)
    /\ List.map sim_product_id recs = List.map product_id table
    /\ Forall
         (fun r =>
            price_changes !! sim_product_id r = None ->
            new_price r == old_price r /\ volume_change_pct r == 0)
         recs
    /\ (price_changes = ∅ ->
        Forall
          (fun r => new_price r == old_price r /\ volume_change_pct r == 0)
          recs).
Proof.
  intros Htable.
  destruct (simulate_scenario_ok price_changes s table Htable)
    as [recs [Heq Hall]].
  exists recs. split; [exact Heq|]. split; [apply (projected_ids _ _ _ _ Hall)|].
  split.
  - apply (projected_all _ _ _ _ _ Hall). intros row r _ Hrow.
    apply (projected_unchanged _ _ _ _ Hrow).
  - intros Hempty. apply (projected_all _ _ _ _ _ Hall). intros row r _ Hrow.
    apply (projected_unchanged _ _ _ _ Hrow). rewrite Hempty.
    apply lookup_empty.
Qed.

Lemma absent_products_unchanged_witness :
  product_data with_history = Some dummy_products
  /\ exists recs,
       simulate_scenario {[ "P001" := 0.1 ]} with_history
       = (Ok recs, with_history)
       /\ List.map sim_product_id recs
          = ["P001"; "P002"; "P003"; "P004"; "P005"; "P006"].
Proof.
  split; [reflexivity|].
  destruct (absent_products_unchanged {[ "P001" := 0.1 ]} with_history
              dummy_products eq_refl) as [recs [Heq [Hids _]]].
  exists recs. split; [exact Heq | exact Hids].
Defined.

(** The base volume stored in a record. *)
Lemma projected_old_volume (price_changes : gmap string Q) (s : simulator)
    (row : product) (r : simulation_record) :
  projected price_changes s row r ->
  old_volume r = reference_volume (historical_data s) (sim_product_id r).
Proof.
  unfold projected. rewrite simulate_row_ok. intros H. injection H as <-. simpl.
  apply base_volume_reference.
Qed.

(** C8.  For every catalog product the base volume used by the simulation
    and by the optimization is the arithmetic mean of all the historical
    volume observations of the product, the rows with a price or a volume
    that is not positive included, when there is at least one, and the
    constant 1000 when the product has no observation or no observation
    table is loaded. *)
Theorem base_volume_mean_or_fallback (s : simulator) (table : list product) :
  product_data s = Some table ->
  (forall price_changes, exists recs,
     simulate_scenario price_changes s = (Ok recs, s)
     /\ List.map sim_product_id recs = List.map product_id table
     /\ Forall
          (fun r =>
             old_volume r
             = reference_volume (historical_data s) (sim_product_id r))
          recs)
  /\ (forall objective min_margin max_change, exists recs,
        optimize_pricing objective min_margin max_change s = (Ok recs, s)
        /\ (forall row, In row table -> is_Some (recs !! product_id row))
        /\ forall pid c, recs !! pid = Some c ->
             exists row, In row table /\ product_id row = pid
               /\ c = best_change_of objective min_margin
                        (test_points max_change)
                        (current_price row) (base_cost row)
                        (reference_volume (historical_data s) pid)
                        (elasticity_of s pid))
  /\ (forall pid,
        reference_volume None pid = 1000
        /\ (forall hist, observed_volumes hist pid = [] ->
              reference_volume (Some hist) pid = 1000)
        /\ (forall hist, observed_volumes hist pid <> [] ->
              reference_volume (Some hist) pid
              = Qsum (observed_volumes hist pid)
                / inject_Z (Z.of_nat (length (observed_volumes hist pid))))
        /\ (forall hist o, In o hist -> obs_product_id o = pid ->
              In (volume o) (observed_volumes hist pid))).
Proof.
  intros Htable. split; [| split].
  - intros price_changes.
    destruct (simulate_scenario_ok price_changes s table Htable)
      as [recs [Heq Hall]].
    exists recs. split; [exact Heq|].
    split; [apply (projected_ids _ _ _ _ Hall)|].
    apply (projected_all _ _ _ _ _ Hall). intros row r _ Hrow.
    apply (projected_old_volume _ _ _ _ Hrow).
  - intros objective min_margin max_change.
    destruct (optimize_pricing_ok objective min_margin max_change s table Htable)
      as [recs [Heq [Hentries Hcover]]].
    exists recs. split; [exact Heq|]. split; [exact Hcover|]. intros pid c Hc.
    destruct (Hentries pid c Hc) as [row [Hin [Hid Hval]]].
    exists row. rewrite <- base_volume_reference. auto.
  - intros pid. split; [reflexivity|]. split; [| split].
    + intros hist Hnone. simpl. rewrite Hnone. reflexivity.
    + intros hist Hsome. simpl.
      destruct (observed_volumes hist pid); [contradiction | reflexivity].
    + intros hist o Hin Hid. unfold observed_volumes. apply in_map.
      apply List.filter_In. split; [exact Hin|].
      apply bool_decide_eq_true_2. exact Hid.
Qed.

Lemma base_volume_mean_or_fallback_witness :
  product_data with_history = Some dummy_products
  /\ (exists recs,
        simulate_scenario ∅ with_history = (Ok recs, with_history)
        /\ List.map sim_product_id recs = List.map product_id dummy_products
        /\ Forall
             (fun r =>
                old_volume r
                = reference_volume (Some few_observations) (sim_product_id r))
             recs)
  /\ reference_volume (Some few_observations) "P001" == 340
  /\ reference_volume (Some few_observations) "P002" == 1000
  /\ length (valid_rows (rows_of few_observations "P001")) = 2%nat.
Proof.
  split; [reflexivity|]. split.
  - exact (proj1 (base_volume_mean_or_fallback with_history dummy_products eq_refl) ∅).
  - split; [reflexivity|]. split; reflexivity.
Defined.

(** C10.  Neither [simulate_scenario] nor [optimize_pricing] changes the
    instance: for every instance and every input, the catalog table, the
    observation table, the elasticity mapping and the cached models are the
    same after the call as before, whether it returns or raises.  The two
    load methods and [calculate_elasticity] are the methods that write. *)
Theorem simulate_and_optimize_frame
    (np_log : Q -> Q) (fit : list Q -> list Q -> LinearRegression)
    (score : LinearRegression -> list Q -> list Q -> Q)
    (to_datetime : list string -> option (list string)) :
  (forall price_changes s, snd (simulate_scenario price_changes s) = s)
  /\ (forall objective min_margin max_change s,
        snd (optimize_pricing objective min_margin max_change s) = s)
  /\ (exists df s, product_data (snd (load_product_data df s)) <> product_data s)
  /\ (exists df s,
        historical_data (snd (load_historical_data to_datetime df s))
        <> historical_data s)
  /\ (exists s,
        elasticities (snd (calculate_elasticity np_log fit score "log_log" s))
        <> elasticities s).
Proof.
  split; [| split; [| split; [| split]]].
  - intros price_changes s. unfold simulate_scenario, bind, get_self.
    destruct (product_data s) as [table|]; [| reflexivity].
    apply for_each_frame. intros acc row s0. unfold bind.
    rewrite simulate_row_ok. reflexivity.
  - intros objective min_margin max_change s.
    unfold optimize_pricing, bind, get_self.
    destruct (product_data s) as [table|]; [| reflexivity].
    apply for_each_frame. intros acc row s0. reflexivity.
  - exists {| columns := ["product_id"; "product_name"; "category";
                          "base_cost"; "current_price"];
              rows := dummy_products |}, init.
    discriminate.
  - exists {| columns := ["date"; "product_id"; "price"; "volume"];
              rows := [] |}, init.
    unfold load_historical_data, bind, set_historical_data, bind, get_self,
      put_self. simpl.
    destruct (to_datetime []); simpl; discriminate.
  - exists unsold.
    destruct (calculate_elasticity_ok np_log fit score "log_log" _ unsold eq_refl)
      as [results [s' [Heq [Hel [_ [_ [Hin _]]]]]]].
    rewrite Heq. simpl. rewrite Hel. intros Hsame.
    specialize (Hin "P001" (or_introl eq_refl)).
    rewrite Hsame in Hin. discriminate.
Qed.

(** C2.  For every product of the observation table with fewer than 5 rows
    with [price > 0] and [volume > 0], the estimator returns, and stores,
    the record [elasticity = -1.0], [r_squared = 0.0], [is_modeled = false]
    for that product. *)
Theorem few_valid_rows_default
    (np_log : Q -> Q) (fit : list Q -> list Q -> LinearRegression)
    (score : LinearRegression -> list Q -> list Q -> Q)
    (method : string) (s : simulator) (hist : list observation) (pid : string) :
  historical_data s = Some hist ->
  In pid (List.map obs_product_id hist) ->
  (length (valid_rows (rows_of hist pid)) < 5)%nat ->
  exists results s',
    calculate_elasticity np_log fit score method s = (Ok results, s')
    /\ results !! pid
       = Some {| elasticity := -1; r_squared := 0; is_modeled := false |}
    /\ elasticities s' = results.
Proof.
  intros Hhist Hpid Hfew.
  destruct (calculate_elasticity_ok np_log fit score method hist s Hhist)
    as [results [s' [Heq [Hel [_ [_ [Hin _]]]]]]].
  exists results, s'. split; [exact Heq|]. split; [| exact Hel].
  rewrite (Hin pid Hpid). apply Nat.ltb_lt in Hfew. rewrite Hfew. reflexivity.
Qed.

Lemma few_valid_rows_default_witness :
  historical_data with_history = Some few_observations
  /\ In "P001" (List.map obs_product_id few_observations)
  /\ (length (valid_rows (rows_of few_observations "P001")) < 5)%nat
  /\ exists results s',
       calculate_elasticity (fun x => x)
         (fun _ _ => {| coef_ := [0]; intercept_ := 0 |}) (fun _ _ _ => 0)
         "log_log" with_history = (Ok results, s')
       /\ results !! "P001"
          = Some {| elasticity := -1; r_squared := 0; is_modeled := false |}
       /\ elasticities s' = results.
Proof.
  assert (Hin : In "P001" (List.map obs_product_id few_observations))
    by (left; reflexivity).
  assert (Hfew : (length (valid_rows (rows_of few_observations "P001")) < 5)%nat)
    by (vm_compute; lia).
  split; [reflexivity|]. split; [exact Hin|]. split; [exact Hfew|].
  exact (few_valid_rows_default _ _ _ "log_log" with_history few_observations
           "P001" eq_refl Hin Hfew).
Defined.

(** The other branch of the estimator: a product of the table with at least
    5 valid rows gets the slope and the score that the fitted model reports
    for the logarithms of its valid prices and volumes, flagged as modelled,
    and the model is what the cache then holds for it. *)
Lemma enough_valid_rows_fitted
    (np_log : Q -> Q) (fit : list Q -> list Q -> LinearRegression)
    (score : LinearRegression -> list Q -> list Q -> Q)
    (method : string) (s : simulator) (hist : list observation) (pid : string) :
  historical_data s = Some hist ->
  In pid (List.map obs_product_id hist) ->
  (5 <= length (valid_rows (rows_of hist pid)))%nat ->
  exists results s',
    calculate_elasticity np_log fit score method s = (Ok results, s')
    /\ results !! pid = Some (modeled_result np_log fit score hist pid)
    /\ is_modeled (modeled_result np_log fit score hist pid) = true.
Proof.
  intros Hhist Hpid Hmany.
  destruct (calculate_elasticity_ok np_log fit score method hist s Hhist)
    as [results [s' [Heq [_ [_ [_ [Hin _]]]]]]].
  exists results, s'. split; [exact Heq|]. split; [| reflexivity].
  rewrite (Hin pid Hpid).
  destruct (Nat.ltb_spec (length (valid_rows (rows_of hist pid))) 5);
    [lia | reflexivity].
Qed.

(** C3, as the code has it.  For every product of the observation table
    with at least 5 valid rows the estimator returns, and stores, an entry
    with [is_modeled = true] whose elasticity is [coef_[0]] of the model
    fitted on the logarithms of the valid prices and volumes.  When the fit
    is a least-squares fit, as scikit-learn documents it, and the logged
    valid prices are not all equal ([var(ln price)] is not 0), that slope
    equals the closed form [cov(ln price, ln volume) / var(ln price)] over
    the valid rows, in exact arithmetic.  When the logged valid prices are
    all equal the closed form is [0 / 0] and no returned value equals it. *)
Theorem fitted_slope_closed_form
    (np_log : Q -> Q) (fit : list Q -> list Q -> LinearRegression)
    (score : LinearRegression -> list Q -> list Q -> Q)
    (method : string) (s : simulator) (hist : list observation) (pid : string) :
  historical_data s = Some hist ->
  In pid (List.map obs_product_id hist) ->
  (5 <= length (valid_rows (rows_of hist pid)))%nat ->
  let X := logged_prices np_log hist pid in
  let y := logged_volumes np_log hist pid in
  least_squares X y (fit X y) ->
  exists results s' r,
    calculate_elasticity np_log fit score method s = (Ok results, s')
    /\ elasticities s' = results
    /\ results !! pid = Some r
    /\ is_modeled r = true
    /\ elasticity r = nth 0 (coef_ (fit X y)) 0
    /\ (~ variance X == 0 ->
          elasticity r == covariance X y / variance X
          /\ equals_closed_form (elasticity r) X y)
    /\ (variance X == 0 -> forall e, ~ equals_closed_form e X y).
Proof.
  intros Hhist Hpid Hmany X y Hls.
  destruct (calculate_elasticity_ok np_log fit score method hist s Hhist)
    as [results [s' [Heq [Hel [_ [_ [Hin _]]]]]]].
  exists results, s', (modeled_result np_log fit score hist pid).
  split; [exact Heq|]. split; [exact Hel|]. split.
  { rewrite (Hin pid Hpid).
    destruct (Nat.ltb_spec (length (valid_rows (rows_of hist pid))) 5);
      [lia | reflexivity]. }
  split; [reflexivity|]. split; [reflexivity|]. split.
  - intros Hv.
    assert (Hc : ~ centred_xx X == 0) by (rewrite <- variance_zero; exact Hv).
    assert (Hslope : elasticity (modeled_result np_log fit score hist pid)
                     == covariance X y / variance X).
    { rewrite (closed_form_ratio X y Hv).
      exact (least_squares_slope X y (fit X y)
               (logged_lengths np_log hist pid) Hc Hls). }
    split; [exact Hslope|].
    unfold equals_closed_form. rewrite (closed_form_defined X y Hv).
    exact Hslope.
  - intros Hv e. apply closed_form_undefined. exact Hv.
Qed.

Lemma fitted_slope_closed_form_witness :
  historical_data stale_cache = Some five_observations
  /\ In "P001" (List.map obs_product_id five_observations)
  /\ (5 <= length (valid_rows (rows_of five_observations "P001")))%nat
  /\ least_squares (logged_prices (fun x => x) five_observations "P001")
       (logged_volumes (fun x => x) five_observations "P001")
       (ols_fit (logged_prices (fun x => x) five_observations "P001")
          (logged_volumes (fun x => x) five_observations "P001"))
  /\ exists results s' r,
       calculate_elasticity (fun x => x) ols_fit (fun _ _ _ => 0) "log_log"
         stale_cache = (Ok results, s')
       /\ elasticities s' = results
       /\ results !! "P001" = Some r
       /\ is_modeled r = true
       /\ elasticity r
          = nth 0 (coef_ (ols_fit
                            (logged_prices (fun x => x) five_observations "P001")
                            (logged_volumes (fun x => x) five_observations "P001")))
              0
       /\ (~ variance (logged_prices (fun x => x) five_observations "P001") == 0 ->
             elasticity r
             == covariance (logged_prices (fun x => x) five_observations "P001")
                  (logged_volumes (fun x => x) five_observations "P001")
                / variance (logged_prices (fun x => x) five_observations "P001")
             /\ equals_closed_form (elasticity r)
                  (logged_prices (fun x => x) five_observations "P001")
                  (logged_volumes (fun x => x) five_observations "P001"))
       /\ (variance (logged_prices (fun x => x) five_observations "P001") == 0 ->
           forall e,
             ~ equals_closed_form e
                 (logged_prices (fun x => x) five_observations "P001")
                 (logged_volumes (fun x => x) five_observations "P001")).
Proof.
  assert (Hin : In "P001" (List.map obs_product_id five_observations))
    by (left; reflexivity).
  assert (Hmany : (5 <= length (valid_rows (rows_of five_observations "P001")))%nat)
    by (vm_compute; lia).
  assert (Hls : least_squares (logged_prices (fun x => x) five_observations "P001")
                  (logged_volumes (fun x => x) five_observations "P001")
                  (ols_fit (logged_prices (fun x => x) five_observations "P001")
                     (logged_volumes (fun x => x) five_observations "P001"))).
  { apply ols_fit_least_squares; [reflexivity|]. vm_compute. discriminate. }
  split; [reflexivity|]. split; [exact Hin|]. split; [exact Hmany|].
  split; [exact Hls|].
  exact (fitted_slope_closed_form (fun x => x) ols_fit (fun _ _ _ => 0) "log_log"
           stale_cache five_observations "P001" eq_refl Hin Hmany Hls).
Defined.

(** The claim as worded fails on five valid rows at one price: whatever
    the logarithm, the fit and the score, the variance of the logged prices
    is 0, the closed form is not a number, and the entry the run returns is
    flagged as modelled all the same.  With the least-squares fit written
    out, the run returns the slope 0. *)
Lemma constant_price_no_closed_form :
  historical_data constant_price = Some constant_price_observations
  /\ In "P001" (List.map obs_product_id constant_price_observations)
  /\ (5 <= length (valid_rows (rows_of constant_price_observations "P001")))%nat
  /\ (forall (np_log : Q -> Q) (fit : list Q -> list Q -> LinearRegression)
        (score : LinearRegression -> list Q -> list Q -> Q) (method : string),
        variance (logged_prices np_log constant_price_observations "P001") == 0
        /\ ~ estimate_as_specified np_log fit score method constant_price
               constant_price_observations "P001")
  /\ least_squares
       (logged_prices (fun x => x) constant_price_observations "P001")
       (logged_volumes (fun x => x) constant_price_observations "P001")
       (ols_fit (logged_prices (fun x => x) constant_price_observations "P001")
          (logged_volumes (fun x => x) constant_price_observations "P001"))
  /\ exists results s',
       calculate_elasticity (fun x => x) ols_fit (fun _ _ _ => 0) "log_log"
         constant_price = (Ok results, s')
       /\ results !! "P001"
          = Some {| elasticity := 0; r_squared := 0; is_modeled := true |}
       /\ closed_form_slope
            (logged_prices (fun x => x) constant_price_observations "P001")
            (logged_volumes (fun x => x) constant_price_observations "P001")
          = NaN.
Proof.
  split; [reflexivity|]. split; [left; reflexivity|].
  split; [vm_compute; lia|]. split.
  - intros np_log fit score method.
    assert (Hv : variance (logged_prices np_log constant_price_observations "P001")
                 == 0).
    { change (logged_prices np_log constant_price_observations "P001")
        with [np_log 18; np_log 18; np_log 18; np_log 18; np_log 18].
      unfold variance, centred_xx, mean, count, Qsum. simpl.
      change (inject_Z 5) with 5. field. }
    split; [exact Hv|].
    intros [results [s' [r [_ [_ [_ Heq]]]]]].
    exact (closed_form_undefined _ _ _ Hv Heq).
  - split; [apply ols_fit_minimises; reflexivity|].
    eexists _, _. split; [vm_compute; reflexivity|].
    split; vm_compute; reflexivity.
Qed.

(** C4, as the code has it.  For every [max_change] the optimizer runs its
    inner loop, for each product of the catalog, over one and the same list
    of exactly 5 candidate changes, the last of which is [+max_change]
    itself, in binary64 as in exact arithmetic.  In exact arithmetic the
    candidates are [-max_change], [-max_change/2], [0], [max_change/2],
    [max_change]: evenly spaced over the closed interval between the two
    endpoints, both included.  (In binary64 the interior candidates are
    rounded, and the spacing is even only up to that rounding.) *)
Theorem test_points_five_evenly_spaced (max_change : Q)
    (objective : string) (min_margin : Q) (s : simulator)
    (table : list product) :
  product_data s = Some table ->
  let points := test_points max_change in
  length points = 5%nat
  /\ Forall2 Qeq points
       [- max_change; - (max_change / 2); 0; max_change / 2; max_change]
  /\ (forall i, (i < 4)%nat ->
        nth (S i) points 0 - nth i points 0 == (max_change - - max_change) / 4)
  /\ evenly_spaced points
  /\ nth 0 points 0 == - max_change
  /\ nth 4 points 0 = max_change
  /\ Forall
       (fun c => Qmin (- max_change) max_change <= c
                 /\ c <= Qmax (- max_change) max_change)
       points
  /\ (exists recs,
        optimize_pricing objective min_margin max_change s = (Ok recs, s)
        /\ (forall row, In row table -> is_Some (recs !! product_id row))
        /\ forall pid c, recs !! pid = Some c ->
             exists row, In row table /\ product_id row = pid
               /\ c = snd (fold_left
                             (try_candidate objective min_margin
                                (current_price row) (base_cost row)
                                (base_volume_of s pid) (elasticity_of s pid))
                             points (NegInf, 0)))
  /\ (forall m64 : float,
        length (test_points64 m64) = 5%nat
        /\ nth 4 (test_points64 m64) PrimFloat.zero = m64).
Proof.
  intros Htable points. subst points.
  assert (Hloop : exists recs,
            optimize_pricing objective min_margin max_change s = (Ok recs, s)
            /\ (forall row, In row table -> is_Some (recs !! product_id row))
            /\ forall pid c, recs !! pid = Some c ->
                 exists row, In row table /\ product_id row = pid
                   /\ c = snd (fold_left
                                 (try_candidate objective min_margin
                                    (current_price row) (base_cost row)
                                    (base_volume_of s pid) (elasticity_of s pid))
                                 (test_points max_change) (NegInf, 0))).
  { destruct (optimize_pricing_ok objective min_margin max_change s table Htable)
      as [recs [Heq [Hentries Hcover]]].
    exists recs. split; [exact Heq|]. split; [exact Hcover|].
    intros pid c Hc. destruct (Hentries pid c Hc) as [row [Hin [Hid Hval]]].
    exists row. split; [exact Hin|]. split; [exact Hid|]. exact Hval. }
  assert (H64 : forall m64 : float,
            length (test_points64 m64) = 5%nat
            /\ nth 4 (test_points64 m64) PrimFloat.zero = m64).
  { intros m64. unfold test_points64, linspace64.
    cbn [seq List.map Nat.sub Nat.ltb Nat.leb].
    destruct (PrimFloat.eqb _ _);
      cbn [List.map list_insert insert length nth]; auto. }
  destruct (test_points_shape max_change)
    as [a0 [a1 [a2 [a3 [Hpts [H0 [H1 [H2 H3]]]]]]]].
  rewrite Hpts in Hloop |- *.
  assert (Hhalf : max_change / 2 == max_change * (1 # 2)) by field.
  assert (Hquarter : (max_change - - max_change) / 4 == max_change * (1 # 2))
    by field.
  assert (Hspacing : forall i, (i < 4)%nat ->
            nth (S i) [a0; a1; a2; a3; max_change] 0
            - nth i [a0; a1; a2; a3; max_change] 0
            == (max_change - - max_change) / 4).
  { intros i Hi. rewrite Hquarter.
    destruct i as [|[|[|[|i]]]]; simpl; [| | | | lia];
      rewrite ?H0, ?H1, ?H2, ?H3, ?Hhalf; ring. }
  split; [reflexivity|]. split.
  { repeat constructor; assumption. }
  split; [exact Hspacing|]. split.
  { exists ((max_change - - max_change) / 4). intros i Hi. apply Hspacing.
    simpl in Hi. lia. }
  split; [exact H0|]. split; [reflexivity|]. split; [| split; [exact Hloop | exact H64]].
  rewrite Hhalf in H1, H3.
  destruct (Qlt_le_dec max_change 0) as [Hneg | Hpos].
  - assert (Hmin : Qmin (- max_change) max_change == max_change)
      by (apply Q.min_r; lra).
    assert (Hmax : Qmax (- max_change) max_change == - max_change)
      by (apply Q.max_l; lra).
    repeat constructor; rewrite ?Hmin, ?Hmax, ?H0, ?H1, ?H2, ?H3; lra.
  - assert (Hmin : Qmin (- max_change) max_change == - max_change)
      by (apply Q.min_l; lra).
    assert (Hmax : Qmax (- max_change) max_change == max_change)
      by (apply Q.max_r; lra).
    repeat constructor; rewrite ?Hmin, ?Hmax, ?H0, ?H1, ?H2, ?H3; lra.
Qed.

Lemma test_points_five_evenly_spaced_witness :
  product_data catalog_only = Some dummy_products
  /\ evenly_spaced (test_points 0.2)
  /\ exists recs,
       optimize_pricing "profit" 0.1 0.2 catalog_only = (Ok recs, catalog_only)
       /\ forall row, In row dummy_products -> is_Some (recs !! product_id row).
Proof.
  split; [reflexivity|].
  destruct (test_points_five_evenly_spaced 0.2 "profit" 0.1 catalog_only
              dummy_products eq_refl)
    as [_ [_ [_ [Heven [_ [_ [_ [[recs [Heq [Hcover _]]] _]]]]]]]].
  split; [exact Heven|]. exists recs. split; [exact Heq | exact Hcover].
Defined.

(** C4, as the specification words it, fails in binary64: at the default
    [max_change = 0.2] (the double [0x1.999999999999ap-3]) the candidates
    numpy computes are -0.2, -0.1, 0.0, 0.10000000000000003 and 0.2; the
    fourth is not the double 0.1, and the last two steps differ, so the
    five values are not evenly spaced. *)
Lemma binary64_candidates_not_evenly_spaced :
  test_points64 0x1.999999999999ap-3%float
  = [ (-0x1.999999999999ap-3)%float; (-0x1.999999999999ap-4)%float; 0%float;
      0x1.999999999999cp-4%float; 0x1.999999999999ap-3%float ]
  /\ PrimFloat.eqb (nth 3 (test_points64 0x1.999999999999ap-3%float) 0%float)
       0x1.999999999999ap-4%float = false
  /\ ~ evenly_spaced
        (List.map float_value (test_points64 0x1.999999999999ap-3%float)).
Proof.
  split; [vm_compute; reflexivity|]. split; [vm_compute; reflexivity|].
  intros [d Hd].
  set (l := List.map float_value (test_points64 0x1.999999999999ap-3%float))
    in *.
  assert (H2 : nth 3 l 0 - nth 2 l 0 == d) by (apply Hd; vm_compute; lia).
  assert (H3 : nth 4 l 0 - nth 3 l 0 == d) by (apply Hd; vm_compute; lia).
  rewrite <- H3 in H2. vm_compute in H2. discriminate.
Qed.

(** ** The recommendation of one row *)

Lemma recommended_row (objective : string) (min_margin max_change : Q)
    (s : simulator) (row : product) :
  recommended_as_computed objective min_margin max_change s row
    (best_change_of objective min_margin (test_points max_change)
       (current_price row) (base_cost row)
       (base_volume_of s (product_id row)) (elasticity_of s (product_id row))).
Proof.
  unfold recommended_as_computed.
  pose proof (best_change_of_spec objective min_margin
                (current_price row) (base_cost row)
                (base_volume_of s (product_id row))
                (elasticity_of s (product_id row))
                (test_points max_change)) as Hspec.
  simpl in Hspec.
  destruct Hspec as [[Hnone Hzero] | [Hmax Hfirst]].
  - split; [left; split; assumption|].
    intros _ c' [Hin [Halive _]]. rewrite (Hnone c' Hin) in Halive.
    discriminate.
  - split.
    + right. split; [exact Hmax|]. split; [exact Hfirst|].
      destruct Hmax as [_ [Halive _]].
      destruct (survives_margin _ _ _ _ Halive) as [Hkeep | Hnan].
      * left. exact Hkeep.
      * right. apply margin_nan. exact Hnan.
    + intros Hpos. apply first_is_smallest; [| exact Hfirst].
      apply test_points_ascending. exact Hpos.
Qed.

(** C5, as the code has it.  For every product the change that [optimize]
    returns is the 0.0 fallback when no candidate passes the margin test;
    otherwise it is a candidate that passed it, so that its margin
    [(new_price - base_cost) / new_price] is at least [min_margin] unless
    the new price and the cost are both zero (the margin is then [nan]);
    it attains the maximal target among the surviving candidates and is the
    first to do so in evaluation order, since only a strictly greater
    target replaces the incumbent; and it is the smallest such candidate
    when [max_change] is not negative, the candidates then being evaluated
    in ascending order. *)
Theorem optimize_recommends_first_maximiser
    (objective : string) (min_margin max_change : Q)
    (s : simulator) (table : list product) :
  product_data s = Some table ->
  exists recs,
    optimize_pricing objective min_margin max_change s = (Ok recs, s)
    /\ (forall row, In row table -> is_Some (recs !! product_id row))
    /\ forall pid c, recs !! pid = Some c ->
         exists row, In row table /\ product_id row = pid
           /\ recommended_as_computed objective min_margin max_change s row c.
Proof.
  intros Htable.
  destruct (optimize_pricing_ok objective min_margin max_change s table Htable)
    as [recs [Heq [Hentries Hall]]].
  exists recs. split; [exact Heq|]. split; [exact Hall|].
  intros pid c Hc. destruct (Hentries pid c Hc) as [row [Hin [Hid Hval]]].
  exists row. split; [exact Hin|]. split; [exact Hid|].
  subst pid. rewrite Hval. apply recommended_row.
Qed.

Lemma optimize_recommends_first_maximiser_witness :
  product_data with_history = Some dummy_products
  /\ exists recs,
       optimize_pricing "profit" 0.1 0.2 with_history = (Ok recs, with_history)
       /\ forall row, In row dummy_products -> is_Some (recs !! product_id row).
Proof.
  split; [reflexivity|].
  destruct (optimize_recommends_first_maximiser "profit" 0.1 0.2 with_history
              dummy_products eq_refl) as [recs [Heq [Hall _]]].
  exists recs. split; [exact Heq | exact Hall].
Defined.

(** C5, as the specification words it, fails when [max_change] is negative:
    [np.linspace(0.2, -0.2, 5)] runs downwards, so with every target tied
    (the product never sold, its base volume is 0) the first candidate kept
    is [+0.2], although [-0.2] survives and attains the same maximum. *)
Lemma specified_recommendation_fails_descending :
  (exists recs c,
     optimize_pricing "profit" 0.1 (-0.2) unsold = (Ok recs, unsold)
     /\ recs !! "P001" = Some c /\ c == 0.2)
  /\ List.map (survives 0.1 18 10) (test_points (-0.2))
     = [true; true; true; true; true]
  /\ Forall (fun c => target_of "profit" 18 10
                        (base_volume_of unsold "P001")
                        (elasticity_of unsold "P001") c == 0)
       (test_points (-0.2))
  /\ ~ optimize_as_specified "profit" 0.1 (-0.2) unsold.
Proof.
  destruct (optimize_pricing_ok "profit" 0.1 (-0.2) unsold _ eq_refl)
    as [recs [Heq [Hentries Hall]]].
  destruct (Hall _ (or_introl eq_refl)) as [c Hc]. simpl in Hc.
  split.
  { exists recs, c. split; [exact Heq|]. split; [exact Hc|].
    destruct (Hentries "P001" c Hc) as [row [Hin [_ Hval]]].
    destruct Hin as [<- | []]. rewrite Hval. reflexivity. }
  split; [reflexivity|].
  split; [repeat constructor|].
  intros Hspec.
  destruct (Hspec _ recs eq_refl (f_equal fst Heq) "P001" c Hc)
    as [row [Hin [_ [_ Htie]]]].
  destruct (Hentries "P001" c Hc) as [row' [Hin' [_ Hval]]].
  destruct Hin as [<- | []]. destruct Hin' as [<- | []].
  simpl in Htie, Hval.
  assert (Hlast : attains_maximum "profit" 0.1 (test_points (-0.2)) 18 10
                    (base_volume_of unsold "P001") (elasticity_of unsold "P001")
                    (-0.2)).
  { split; [vm_compute; tauto|]. split; [reflexivity|].
    intros c' Hin _. vm_compute in Hin.
    repeat (destruct Hin as [<- | Hin]; [vm_compute; discriminate|]).
    destruct Hin. }
  destruct (Htie (ex_intro _ _ Hlast)) as [_ Hsmall].
  specialize (Hsmall _ Hlast). rewrite Hval in Hsmall.
  vm_compute in Hsmall. apply Hsmall. reflexivity.
Qed.

(** The margin half of C5 fails as well when the candidate [-1] brings the
    price of a product that costs nothing to zero: the margin [0/0] is
    [nan], the test [margin < min_margin] is false, and with the volume
    objective that candidate is returned. *)
Lemma specified_margin_fails_costless :
  (exists recs c,
     optimize_pricing "volume" 0.1 1 costless = (Ok recs, costless)
     /\ recs !! "P007" = Some c /\ c == -1
     /\ margin_of 18 0 c = NaN)
  /\ ~ optimize_as_specified "volume" 0.1 1 costless.
Proof.
  destruct (optimize_pricing_ok "volume" 0.1 1 costless _ eq_refl)
    as [recs [Heq [Hentries Hall]]].
  destruct (Hall _ (or_introl eq_refl)) as [c Hc]. simpl in Hc.
  split.
  { exists recs, c. split; [exact Heq|]. split; [exact Hc|].
    destruct (Hentries "P007" c Hc) as [row [Hin [_ Hval]]].
    destruct Hin as [<- | []]. rewrite Hval. split; reflexivity. }
  intros Hspec.
  destruct (Hspec _ recs eq_refl (f_equal fst Heq) "P007" c Hc)
    as [row [Hin [_ [Hmargin _]]]].
  destruct (Hentries "P007" c Hc) as [row' [Hin' [_ Hval]]].
  destruct Hin as [<- | []]. destruct Hin' as [<- | []].
  simpl in Hmargin, Hval. rewrite Hval in Hmargin.
  destruct Hmargin as [Hkeep | Hzero].
  - vm_compute in Hkeep. discriminate.
  - vm_compute in Hzero. discriminate.
Qed.

(** C6, as the code has it.  For every objective string outside profit,
    revenue and volume the optimizer gives target 0 to every candidate, so
    the recommended change of each product is the first candidate, in
    evaluation order, that passes the margin test, or 0.0 when none does;
    that candidate is the smallest surviving one when [max_change] is not
    negative. *)
Theorem unrecognised_objective_first_survivor
    (objective : string) (min_margin max_change : Q)
    (s : simulator) (table : list product) :
  unrecognised objective ->
  product_data s = Some table ->
  exists recs,
    optimize_pricing objective min_margin max_change s = (Ok recs, s)
    /\ (forall row, In row table -> is_Some (recs !! product_id row))
    /\ forall pid c, recs !! pid = Some c ->
         exists row, In row table /\ product_id row = pid
           /\ (forall change,
                 target_of objective (current_price row) (base_cost row)
                   (base_volume_of s pid) (elasticity_of s pid) change = 0)
           /\ c = default 0
                    (List.find
                       (survives min_margin (current_price row) (base_cost row))
                       (test_points max_change))
           /\ (0 <= max_change ->
               smallest_survivor_or_zero min_margin max_change row c).
Proof.
  intros Hu Htable.
  destruct (optimize_pricing_ok objective min_margin max_change s table Htable)
    as [recs [Heq [Hentries Hcover]]].
  exists recs. split; [exact Heq|]. split; [exact Hcover|].
  intros pid c Hc. destruct (Hentries pid c Hc) as [row [Hin [Hid Hval]]].
  exists row. split; [exact Hin|]. split; [exact Hid|].
  split; [intros change; apply target_unrecognised; exact Hu|].
  rewrite (best_change_unrecognised _ _ _ _ _ _ _ Hu) in Hval.
  split; [exact Hval|].
  intros Hpos. unfold smallest_survivor_or_zero. rewrite Hval.
  pose proof (find_first (survives min_margin (current_price row) (base_cost row))
                (test_points max_change)) as Hfind.
  destruct (List.find _ _) as [x|]; simpl.
  - right. destruct Hfind as [before [after [Hpts [Hx Hbefore]]]].
    split; [rewrite Hpts; apply in_elt|]. split; [exact Hx|].
    intros c' Hin' Hc'. rewrite Hpts in Hin'. apply in_app_or in Hin'.
    destruct Hin' as [Hb | [<- | Ha]].
    + rewrite (Hbefore c' Hb) in Hc'. discriminate.
    + apply Qle_refl.
    + pose proof (test_points_ascending max_change Hpos) as Hsorted.
      rewrite Hpts in Hsorted. apply (ascending_after _ _ _ Hsorted c' Ha).
  - left. split; [exact Hfind | reflexivity].
Qed.

Lemma unrecognised_objective_first_survivor_witness :
  unrecognised "margin"
  /\ product_data catalog_only = Some dummy_products
  /\ exists recs,
       optimize_pricing "margin" 0.1 0.2 catalog_only = (Ok recs, catalog_only)
       /\ forall row, In row dummy_products -> is_Some (recs !! product_id row).
Proof.
  assert (Hu : unrecognised "margin") by (repeat split; discriminate).
  split; [exact Hu|]. split; [reflexivity|].
  destruct (unrecognised_objective_first_survivor "margin" 0.1 0.2 catalog_only
              dummy_products Hu eq_refl) as [recs [Heq [Hcover _]]].
  exists recs. split; [exact Heq | exact Hcover].
Defined.

(** C6, as the specification words it, fails when [max_change] is negative:
    the candidates run downwards from [+0.2], all pass the margin test for
    the first dummy product, and the first of them, [+0.2], is returned
    although [-0.2] passes too. *)
Lemma unrecognised_fails_descending :
  unrecognised "margin"
  /\ (exists recs c,
        optimize_pricing "margin" 0.1 (-0.2) catalog_only
        = (Ok recs, catalog_only)
        /\ recs !! "P001" = Some c /\ c == 0.2)
  /\ List.map (survives 0.1 18 10) (test_points (-0.2))
     = [true; true; true; true; true]
  /\ ~ unrecognised_as_specified "margin" 0.1 (-0.2) catalog_only.
Proof.
  split; [repeat split; discriminate|].
  destruct (optimize_pricing_ok "margin" 0.1 (-0.2) catalog_only _ eq_refl)
    as [recs [Heq [Hentries Hall]]].
  destruct (Hall _ (or_introl eq_refl)) as [c Hc]. simpl in Hc.
  split.
  { exists recs, c. split; [exact Heq|]. split; [exact Hc|].
    destruct (Hentries "P001" c Hc) as [row [Hin [Hid Hval]]].
    simpl in Hin.
    repeat (destruct Hin as [<- | Hin]; [try discriminate Hid|]);
      [| destruct Hin].
    rewrite Hval. reflexivity. }
  split; [reflexivity|].
  intros Hspec.
  destruct (Hspec _ recs eq_refl (f_equal fst Heq) "P001" c Hc)
    as [row [Hin [Hid [_ Hsmall]]]].
  destruct (Hentries "P001" c Hc) as [row' [Hin' [Hid' Hval]]].
  simpl in Hin, Hin'.
  repeat (destruct Hin as [<- | Hin]; [try discriminate Hid|]); [| destruct Hin].
  repeat (destruct Hin' as [<- | Hin']; [try discriminate Hid'|]); [| destruct Hin'].
  simpl in Hsmall, Hval. rewrite Hval in Hsmall.
  destruct Hsmall as [[Hnone _] | [_ [_ Hle]]].
  - specialize (Hnone (-0.2)). vm_compute in Hnone.
    assert (true = false) by (apply Hnone; tauto). discriminate.
  - specialize (Hle (-0.2)). vm_compute in Hle.
    apply Hle; [tauto | reflexivity | reflexivity].
Qed.

(** * Further properties of the code *)

(** ** The load methods *)

Lemma has_columns_spec (required present : list string) :
  has_columns required present = true
  <-> forall col, In col required -> In col present.
Proof.
  unfold has_columns. rewrite forallb_forall. split; intros H col Hin.
  - specialize (H col Hin). apply existsb_exists in H.
    destruct H as [c [Hc Heq]]. apply String.eqb_eq in Heq. subst c. exact Hc.
  - apply existsb_exists. exists col. split; [apply H; exact Hin|].
    apply String.eqb_refl.
Qed.

(** [load_product_data] succeeds exactly when the five required columns are
    all present.  It then replaces the catalog by the rows of the frame and
    keeps the observation table, the elasticities and the models, stale or
    not; otherwise it raises a [ValueError] and leaves the instance as it
    was. *)
Theorem load_product_data_outcome (df : DataFrame product) (s : simulator) :
  (fst (load_product_data df s) = Ok tt
   <-> forall col,
         In col ["product_id"; "product_name"; "category"; "base_cost";
                 "current_price"] ->
         In col (columns df))
  /\ (fst (load_product_data df s) = Ok tt ->
      snd (load_product_data df s)
      = {| product_data := Some (rows df);
           historical_data := historical_data s;
           elasticities := elasticities s;
           models := models s |})
  /\ (forall e, fst (load_product_data df s) = Raise e ->
        (exists msg, e = ValueError msg)
        /\ snd (load_product_data df s) = s).
Proof.
  unfold load_product_data. rewrite <- has_columns_spec.
  destruct (has_columns _ (columns df)); simpl.
  - split; [tauto|]. split; [reflexivity|]. intros e He. discriminate.
  - split; [split; discriminate|]. split; [discriminate|].
    intros e He. injection He as <-. split; [eauto | reflexivity].
Qed.

Section LoadFacts.

Variable to_datetime : list string -> option (list string).

(** Replacing the date column keeps the rows and their other columns. *)
Lemma with_dates_spec (l : list observation) :
  forall converted,
    List.map obs_product_id (with_dates l converted) = List.map obs_product_id l
    /\ List.map price (with_dates l converted) = List.map price l
    /\ List.map volume (with_dates l converted) = List.map volume l.
Proof.
  induction l as [|o l IH]; intros converted; simpl; [auto|].
  destruct converted as [|d rest]; simpl;
    [destruct (IH []) as [H1 [H2 H3]] | destruct (IH rest) as [H1 [H2 H3]]];
    rewrite H1, H2, H3; auto.
Qed.

(** [load_historical_data] with the four required columns present always
    replaces the observation table, also when it then raises: the copy is
    assigned before the date column is converted.  The table it leaves has
    the identifiers, prices and volumes of the frame; the call returns
    exactly when the conversion of the column does, and when it raises the
    stored rows are the unconverted ones.  Catalog, elasticities and models
    are kept. *)
Theorem load_historical_data_stores_first (df : DataFrame observation)
    (s : simulator) :
  (forall col, In col ["date"; "product_id"; "price"; "volume"] ->
     In col (columns df)) ->
  let out := load_historical_data to_datetime df s in
  product_data (snd out) = product_data s
  /\ elasticities (snd out) = elasticities s
  /\ models (snd out) = models s
  /\ (exists stored,
        historical_data (snd out) = Some stored
        /\ List.map obs_product_id stored = List.map obs_product_id (rows df)
        /\ List.map price stored = List.map price (rows df)
        /\ List.map volume stored = List.map volume (rows df)
        /\ (fst out <> Ok tt -> stored = rows df))
  /\ (fst out = Ok tt <-> to_datetime (List.map date (rows df)) <> None)
  /\ (fst out <> Ok tt -> exists msg, fst out = Raise (ValueError msg)).
Proof.
  intros Hcols. apply has_columns_spec in Hcols.
  unfold load_historical_data. rewrite Hcols. simpl.
  unfold bind, set_historical_data, bind, get_self, put_self. simpl.
  destruct (to_datetime (List.map date (rows df))) as [converted|]; simpl.
  - destruct (with_dates_spec (rows df) converted) as [H1 [H2 H3]].
    split; [reflexivity|]. split; [reflexivity|]. split; [reflexivity|]. split.
    + exists (with_dates (rows df) converted). split; [reflexivity|].
      split; [exact H1|]. split; [exact H2|]. split; [exact H3|].
      intros Hne. contradiction.
    + split; [split; [discriminate | reflexivity]|]. intros Hne. contradiction.
  - split; [reflexivity|]. split; [reflexivity|]. split; [reflexivity|]. split.
    + exists (rows df). auto.
    + split; [split; [discriminate | intros H; contradiction]|].
      intros _. eauto.
Qed.

(** Without one of the four columns it raises a [ValueError] before it
    touches the instance. *)
Lemma load_historical_data_missing (df : DataFrame observation) (s : simulator) :
  (exists col, In col ["date"; "product_id"; "price"; "volume"]
               /\ ~ In col (columns df)) ->
  exists msg,
    load_historical_data to_datetime df s = (Raise (ValueError msg), s).
Proof.
  intros [col [Hreq Hmiss]]. unfold load_historical_data.
  destruct (has_columns _ (columns df)) eqn:Hc.
  - exfalso. apply Hmiss. apply (proj1 (has_columns_spec _ _) Hc col Hreq).
  - simpl. eauto.
Qed.

End LoadFacts.

(** ** [calculate_elasticity]: the mapping and the model cache *)

Section CacheFacts.

Variable np_log : Q -> Q.
Variable fit : list Q -> list Q -> LinearRegression.
Variable score : LinearRegression -> list Q -> list Q -> Q.

Lemma estimate_product_models (hist : list observation)
    (results : gmap string elasticity_result) (pid : string) (s : simulator) :
  historical_data s = Some hist ->
  exists results' s',
    estimate_product np_log fit score results pid s = (Ok results', s')
    /\ historical_data s' = Some hist
    /\ models s'
       = if (length (valid_rows (rows_of hist pid)) <? 5)%nat
         then models s
         else <[pid := fitted_model np_log fit hist pid]> (models s).
Proof.
  intros Hhist. unfold estimate_product, bind, get_self. rewrite Hhist.
  destruct (length (valid_rows (rows_of hist pid)) <? 5)%nat.
  - eexists _, s. auto.
  - eexists _, _. split; [reflexivity|]. simpl. auto.
Qed.

Lemma estimate_loop_models (hist : list observation) (ids : list string) :
  forall (acc : gmap string elasticity_result) (s : simulator),
    historical_data s = Some hist ->
    exists results s',
      for_each (estimate_product np_log fit score) acc ids s = (Ok results, s')
      /\ (forall pid, In pid ids ->
            (5 <= length (valid_rows (rows_of hist pid)))%nat ->
            models s' !! pid = Some (fitted_model np_log fit hist pid))
      /\ (forall pid,
            ~ In pid ids
            \/ (length (valid_rows (rows_of hist pid)) < 5)%nat ->
            models s' !! pid = models s !! pid).
Proof.
  induction ids as [|a ids IH]; intros acc s Hhist; simpl.
  - exists acc, s. split; [reflexivity|]. split; [intros pid [] | reflexivity].
  - destruct (estimate_product_models hist acc a s Hhist)
      as [acc1 [s1 [Hstep [Hh1 Hm1]]]].
    destruct (IH acc1 s1 Hh1) as [results [s' [Hloop [Hfit Hkeep]]]].
    exists results, s'. unfold bind. rewrite Hstep.
    split; [exact Hloop|]. split.
    + intros pid Hpid Hmany.
      destruct (in_dec string_dec pid ids) as [Hlater | Hnot].
      * apply Hfit; assumption.
      * destruct Hpid as [-> | Hpid]; [| contradiction].
        rewrite (Hkeep pid (or_introl Hnot)), Hm1.
        destruct (Nat.ltb_spec (length (valid_rows (rows_of hist pid))) 5);
          [lia | apply lookup_insert_eq].
    + intros pid Hpid.
      destruct (decide (a = pid)) as [-> | Hne].
      * destruct Hpid as [Hnot | Hfew]; [exfalso; apply Hnot; left; reflexivity|].
        rewrite (Hkeep pid (or_intror Hfew)), Hm1.
        apply Nat.ltb_lt in Hfew. rewrite Hfew. reflexivity.
      * assert (Hrest : ~ In pid ids
                        \/ (length (valid_rows (rows_of hist pid)) < 5)%nat).
        { destruct Hpid as [Hnot | Hfew]; [left | right; exact Hfew].
          intros Hin. apply Hnot. right. exact Hin. }
        rewrite (Hkeep pid Hrest), Hm1.
        destruct (length (valid_rows (rows_of hist a)) <? 5)%nat;
          [reflexivity | apply lookup_insert_ne; exact Hne].
Qed.

(** Everything [calculate_elasticity] leaves, in one statement. *)
Lemma calculate_elasticity_full (method : string) (hist : list observation)
    (s : simulator) :
  historical_data s = Some hist ->
  exists results s',
    calculate_elasticity np_log fit score method s = (Ok results, s')
    /\ elasticities s' = results
    /\ product_data s' = product_data s
    /\ historical_data s' = Some hist
    /\ (forall pid, In pid (List.map obs_product_id hist) ->
          results !! pid
          = Some (if (length (valid_rows (rows_of hist pid)) <? 5)%nat
                  then default_result
                  else modeled_result np_log fit score hist pid))
    /\ (forall pid, ~ In pid (List.map obs_product_id hist) ->
          results !! pid = None)
    /\ (forall pid, In pid (List.map obs_product_id hist) ->
          (5 <= length (valid_rows (rows_of hist pid)))%nat ->
          models s' !! pid = Some (fitted_model np_log fit hist pid))
    /\ (forall pid,
          ~ In pid (List.map obs_product_id hist)
          \/ (length (valid_rows (rows_of hist pid)) < 5)%nat ->
          models s' !! pid = models s !! pid).
Proof.
  intros Hhist.
  destruct (calculate_elasticity_ok np_log fit score method hist s Hhist)
    as [results [s' [Heq [Hel [Hp [Hh [Hin Hout]]]]]]].
  exists results, s'. split; [exact Heq|]. split; [exact Hel|].
  split; [exact Hp|]. split; [exact Hh|]. split; [exact Hin|].
  split; [exact Hout|].
  destruct (estimate_loop_models hist (unique (List.map obs_product_id hist))
              ∅ s Hhist) as [r1 [s1 [Hloop [Hfit Hkeep]]]].
  unfold calculate_elasticity, bind at 1, get_self in Heq.
  rewrite Hhist in Heq. unfold bind at 1 in Heq. rewrite Hloop in Heq.
  unfold bind, set_elasticities, bind, get_self, put_self, ret in Heq.
  injection Heq as _ Hs'. subst s'. simpl. split.
  - intros pid Hpid Hmany. apply Hfit; [apply unique_In; exact Hpid | exact Hmany].
  - intros pid Hpid. apply Hkeep. rewrite unique_In. exact Hpid.
Qed.

End CacheFacts.

Section EstimatorMore.

Variable np_log : Q -> Q.
Variable fit : list Q -> list Q -> LinearRegression.
Variable score : LinearRegression -> list Q -> list Q -> Q.

(** The mapping [calculate_elasticity] returns and stores has an entry
    exactly for the identifiers that occur in the observation table,
    whatever the mapping held before: it is replaced, not merged, so an
    earlier entry of a product that has left the table is gone, and a
    catalog product without any observation has no entry. *)
Theorem elasticity_mapping_keys (method : string) (hist : list observation)
    (s : simulator) :
  historical_data s = Some hist ->
  exists results s',
    calculate_elasticity np_log fit score method s = (Ok results, s')
    /\ elasticities s' = results
    /\ forall pid,
         is_Some (results !! pid) <-> In pid (List.map obs_product_id hist).
Proof.
  intros Hhist.
  destruct (calculate_elasticity_ok np_log fit score method hist s Hhist)
    as [results [s' [Heq [Hel [_ [_ [Hin Hout]]]]]]].
  exists results, s'. split; [exact Heq|]. split; [exact Hel|].
  intros pid. split.
  - intros [r Hr].
    destruct (in_dec string_dec pid (List.map obs_product_id hist)) as [H | H];
      [exact H|].
    rewrite (Hout pid H) in Hr. discriminate.
  - intros H. rewrite (Hin pid H). eauto.
Qed.

(** In the mapping the flag [is_modeled] is true exactly for the products
    with at least 5 valid rows; an entry flagged false is the default
    [-1.0], [0.0], and an entry flagged true carries the first coefficient
    of the model fitted on the valid rows. *)
Theorem is_modeled_iff_five_valid_rows (method : string)
    (hist : list observation) (s : simulator) :
  historical_data s = Some hist ->
  exists results s',
    calculate_elasticity np_log fit score method s = (Ok results, s')
    /\ forall pid r, results !! pid = Some r ->
         (is_modeled r = true
          <-> (5 <= length (valid_rows (rows_of hist pid)))%nat)
         /\ (is_modeled r = false -> elasticity r = -1 /\ r_squared r = 0)
         /\ (is_modeled r = true ->
             elasticity r
             = nth 0 (coef_ (fitted_model np_log fit hist pid)) 0).
Proof.
  intros Hhist.
  destruct (calculate_elasticity_ok np_log fit score method hist s Hhist)
    as [results [s' [Heq [_ [_ [_ [Hin Hout]]]]]]].
  exists results, s'. split; [exact Heq|]. intros pid r Hr.
  destruct (in_dec string_dec pid (List.map obs_product_id hist)) as [H | H];
    [| rewrite (Hout pid H) in Hr; discriminate].
  rewrite (Hin pid H) in Hr. injection Hr as <-.
  destruct (Nat.ltb_spec (length (valid_rows (rows_of hist pid))) 5) as [Hl | Hl];
    simpl.
  - split; [split; [discriminate | lia]|]. split; [auto | discriminate].
  - split; [split; [intros _; exact Hl | reflexivity]|].
    split; [discriminate | reflexivity].
Qed.

(** The model cache only grows: a run stores the fitted model of every
    product of the table with at least 5 valid rows and leaves every other
    entry of the cache as it was, so the model of a product that has fallen
    below 5 valid rows, or has left the table, stays in the cache while its
    elasticity entry is reset or dropped. *)
Theorem model_cache_only_grows (method : string) (hist : list observation)
    (s : simulator) :
  historical_data s = Some hist ->
  exists results s',
    calculate_elasticity np_log fit score method s = (Ok results, s')
    /\ (forall pid, In pid (List.map obs_product_id hist) ->
          (5 <= length (valid_rows (rows_of hist pid)))%nat ->
          models s' !! pid = Some (fitted_model np_log fit hist pid))
    /\ (forall pid,
          ~ In pid (List.map obs_product_id hist)
          \/ (length (valid_rows (rows_of hist pid)) < 5)%nat ->
          models s' !! pid = models s !! pid)
    /\ (forall pid, is_Some (models s !! pid) -> is_Some (models s' !! pid)).
Proof.
  intros Hhist.
  destruct (calculate_elasticity_full np_log fit score method hist s Hhist)
    as [results [s' [Heq [_ [_ [_ [_ [_ [Hfit Hkeep]]]]]]]]].
  exists results, s'. split; [exact Heq|]. split; [exact Hfit|].
  split; [exact Hkeep|]. intros pid Hsome.
  destruct (in_dec string_dec pid (List.map obs_product_id hist)) as [H | H].
  - destruct (Nat.ltb_spec (length (valid_rows (rows_of hist pid))) 5) as [Hl | Hl].
    + rewrite (Hkeep pid (or_intror Hl)). exact Hsome.
    + rewrite (Hfit pid H Hl). eauto.
  - rewrite (Hkeep pid (or_introl H)). exact Hsome.
Qed.

(** What the call returns is a function of the observation table alone. *)
Lemma calculate_elasticity_of_table (method1 method2 : string)
    (s1 s2 : simulator) :
  historical_data s1 = historical_data s2 ->
  fst (calculate_elasticity np_log fit score method1 s1)
  = fst (calculate_elasticity np_log fit score method2 s2).
Proof.
  intros Hsame. destruct (historical_data s2) as [hist|] eqn:H2.
  - destruct (calculate_elasticity_ok np_log fit score method1 hist s1 Hsame)
      as [r1 [s1' [Heq1 [_ [_ [_ [Hin1 Hout1]]]]]]].
    destruct (calculate_elasticity_ok np_log fit score method2 hist s2 H2)
      as [r2 [s2' [Heq2 [_ [_ [_ [Hin2 Hout2]]]]]]].
    rewrite Heq1, Heq2. simpl. f_equal. apply map_eq. intros pid.
    destruct (in_dec string_dec pid (List.map obs_product_id hist)) as [H | H].
    + rewrite (Hin1 pid H), (Hin2 pid H). reflexivity.
    + rewrite (Hout1 pid H), (Hout2 pid H). reflexivity.
  - rewrite (calculate_elasticity_unloaded _ _ _ _ _ Hsame).
    rewrite (calculate_elasticity_unloaded _ _ _ _ _ H2). reflexivity.
Qed.

(** [calculate_elasticity] is idempotent: a second run on the instance the
    first run left returns the same mapping and leaves the same instance,
    whatever catalog, elasticities and cache the first run started from. *)
Theorem calculate_elasticity_idempotent (method : string) (s : simulator) :
  let first := calculate_elasticity np_log fit score method s in
  let second := calculate_elasticity np_log fit score method (snd first) in
  fst second = fst first /\ snd second = snd first.
Proof.
  intros first second. unfold second, first. clear first second.
  destruct (historical_data s) as [hist|] eqn:Hhist.
  - destruct (calculate_elasticity_full np_log fit score method hist s Hhist)
      as [r1 [s1 [Heq1 [Hel1 [Hp1 [Hh1 [_ [_ [Hfit1 Hkeep1]]]]]]]]].
    rewrite Heq1. simpl.
    destruct (calculate_elasticity_full np_log fit score method hist s1 Hh1)
      as [r2 [s2 [Heq2 [Hel2 [Hp2 [Hh2 [_ [_ [Hfit2 Hkeep2]]]]]]]]].
    assert (Hres : Ok r2 = Ok r1).
    { pose proof (calculate_elasticity_of_table method method s1 s) as Hsame.
      rewrite Heq1, Heq2, Hh1, Hhist in Hsame. apply Hsame. reflexivity. }
    rewrite Heq2. simpl. split; [exact Hres|]. injection Hres as Hres.
    assert (Hmodels : models s2 = models s1).
    { apply map_eq. intros pid.
      destruct (in_dec string_dec pid (List.map obs_product_id hist)) as [H | H].
      - destruct (Nat.ltb_spec (length (valid_rows (rows_of hist pid))) 5)
          as [Hl | Hl].
        + apply Hkeep2. right. exact Hl.
        + rewrite (Hfit2 pid H Hl), (Hfit1 pid H Hl). reflexivity.
      - apply Hkeep2. left. exact H. }
    destruct s1 as [p1 h1 e1 m1], s2 as [p2 h2 e2 m2]. simpl in *.
    congruence.
  - rewrite (calculate_elasticity_unloaded _ _ _ _ _ Hhist). simpl.
    rewrite (calculate_elasticity_unloaded _ _ _ _ _ Hhist). auto.
Qed.

(** A row with a price or a volume that is not positive leaves the valid
    rows of every product as they were. *)
Lemma valid_rows_skip_invalid (before after : list observation)
    (o : observation) (pid : string) :
  invalid o ->
  valid_rows (rows_of (before ++ o :: after) pid)
  = valid_rows (rows_of (before ++ after) pid).
Proof.
  intros Hinv. unfold valid_rows, rows_of.
  rewrite !List.filter_app. simpl.
  destruct (String.eqb (obs_product_id o) pid); [| reflexivity].
  simpl.
  assert (Hfalse : Qltb 0 (price o) && Qltb 0 (volume o) = false).
  { apply andb_false_iff. destruct Hinv as [H | H]; [left | right];
      apply Qltb_ge; exact H. }
  rewrite Hfalse. reflexivity.
Qed.

(** Adding an invalid observation anywhere in the table changes the
    estimate of no product that already had a row; for a product that had
    none it adds the default entry.  (The base volume, in contrast, counts
    such a row.) *)
Theorem invalid_row_changes_no_estimate (method : string)
    (before after : list observation) (o : observation) (s1 s2 : simulator) :
  historical_data s1 = Some (before ++ after)%list ->
  historical_data s2 = Some (before ++ o :: after)%list ->
  invalid o ->
  exists r1 r2,
    fst (calculate_elasticity np_log fit score method s1) = Ok r1
    /\ fst (calculate_elasticity np_log fit score method s2) = Ok r2
    /\ (forall pid, In pid (List.map obs_product_id (before ++ after)%list) ->
          r2 !! pid = r1 !! pid)
    /\ (~ In (obs_product_id o) (List.map obs_product_id (before ++ after)%list) ->
        r2 !! obs_product_id o = Some default_result).
Proof.
  intros H1 H2 Hinv.
  destruct (calculate_elasticity_ok np_log fit score method _ s1 H1)
    as [r1 [s1' [Heq1 [_ [_ [_ [Hin1 _]]]]]]].
  destruct (calculate_elasticity_ok np_log fit score method _ s2 H2)
    as [r2 [s2' [Heq2 [_ [_ [_ [Hin2 _]]]]]]].
  exists r1, r2. rewrite Heq1, Heq2. split; [reflexivity|].
  split; [reflexivity|].
  assert (Hsub : forall pid,
            In pid (List.map obs_product_id (before ++ after)%list) ->
            In pid (List.map obs_product_id (before ++ o :: after)%list)).
  { intros pid. rewrite !List.map_app, !in_app_iff. simpl. tauto. }
  assert (Hentry : forall pid,
            In pid (List.map obs_product_id (before ++ o :: after)%list) ->
            r2 !! pid
            = Some (if (length (valid_rows (rows_of (before ++ after)%list pid)) <? 5)%nat
                    then default_result
                    else modeled_result np_log fit score (before ++ after)%list pid)).
  { intros pid Hpid. rewrite (Hin2 pid Hpid). unfold modeled_result.
    rewrite (valid_rows_skip_invalid _ _ _ _ Hinv). reflexivity. }
  split.
  - intros pid Hpid. rewrite (Hentry pid (Hsub pid Hpid)), (Hin1 pid Hpid).
    reflexivity.
  - intros Hnew. rewrite Hentry.
    + assert (Hnone : rows_of (before ++ after)%list (obs_product_id o) = []).
      { unfold rows_of.
        destruct (List.filter _ (before ++ after)%list) as [|x l] eqn:Hf;
          [reflexivity|].
        exfalso. apply Hnew.
        assert (Hx : In x (List.filter
                     (fun o0 => String.eqb (obs_product_id o0) (obs_product_id o))
                     (before ++ after)%list)) by (rewrite Hf; left; reflexivity).
        apply List.filter_In in Hx. destruct Hx as [Hx Hid].
        apply String.eqb_eq in Hid. rewrite <- Hid. apply in_map. exact Hx. }
      rewrite Hnone. reflexivity.
    + rewrite List.map_app, in_app_iff. right. left. reflexivity.
Qed.

End EstimatorMore.

(** ** [simulate_scenario]: what the records depend on *)

Lemma for_each_ext {A B} (body1 body2 : B -> A -> M B) (xs : list A) :
  (forall acc x s, In x xs -> body1 acc x s = body2 acc x s) ->
  forall acc s, for_each body1 acc xs s = for_each body2 acc xs s.
Proof.
  induction xs as [|x xs IH]; intros Hext acc s; simpl; [reflexivity|].
  unfold bind. rewrite (Hext acc x s (or_introl eq_refl)).
  destruct (body2 acc x s) as [[acc'|e] s']; [| reflexivity].
  apply IH. intros acc0 x0 s0 Hin. apply Hext. right. exact Hin.
Qed.

(** The outcome of [simulate_scenario] depends on the mapping only through
    the change it gives to each catalog product, an absent key counting as
    [0.0]: entries for identifiers outside the catalog are ignored, and an
    explicit [0.0] is the same as no entry. *)
Theorem simulate_reads_catalog_keys_only (pc1 pc2 : gmap string Q)
    (s : simulator) (table : list product) :
  product_data s = Some table ->
  (forall row, In row table ->
     default 0 (pc1 !! product_id row) = default 0 (pc2 !! product_id row)) ->
  simulate_scenario pc1 s = simulate_scenario pc2 s.
Proof.
  intros Htable Hsame. unfold simulate_scenario, bind at 1 3, get_self.
  rewrite Htable. apply for_each_ext. intros acc row s0 Hin.
  unfold bind. rewrite !simulate_row_ok. rewrite (Hsame row Hin). reflexivity.
Qed.

Lemma simulate_reads_catalog_keys_only_witness :
  product_data catalog_only = Some dummy_products
  /\ simulate_scenario {[ "P001" := 0.1; "P999" := 0.5; "P002" := 0 ]}
       catalog_only
     = simulate_scenario {[ "P001" := 0.1 ]} catalog_only.
Proof.
  split; [reflexivity|].
  apply (simulate_reads_catalog_keys_only _ _ catalog_only dummy_products eq_refl).
  intros row Hin. simpl in Hin.
  repeat (destruct Hin as [<- | Hin]; [vm_compute; reflexivity|]).
  destruct Hin.
Defined.

(** The record of a product the mapping does not mention: every projected
    quantity equals its baseline and every percentage is zero. *)
Lemma projected_noop (price_changes : gmap string Q) (s : simulator)
    (row : product) (r : simulation_record) :
  projected price_changes s row r ->
  price_changes !! sim_product_id r = None ->
  price_change_pct r = 0
  /\ new_volume r == old_volume r
  /\ new_revenue r == old_revenue r
  /\ new_profit r == old_profit r
  /\ revenue_change_pct r == 0
  /\ profit_change_pct r == 0.
Proof.
  unfold projected. rewrite simulate_row_ok. intros H. injection H as <-. simpl.
  intros ->. simpl.
  set (p := current_price row). set (k := base_cost row).
  set (v := base_volume_of s (product_id row)).
  set (e := elasticity_of s (product_id row)).
  split; [reflexivity|]. split; [ring|]. split; [ring|]. split; [ring|].
  split.
  - destruct (truthy (p * v)); [| reflexivity].
    assert (Hn : p * (1 + 0) * (v * (1 + e * 0)) - p * v == 0) by ring.
    unfold Qdiv. rewrite Hn. ring.
  - destruct (truthy ((p - k) * v)); [| reflexivity].
    assert (Hn : (p * (1 + 0) - k) * (v * (1 + e * 0)) - (p - k) * v == 0)
      by ring.
    unfold Qdiv. rewrite Hn. ring.
Qed.

(** Simulating the empty scenario projects nothing: in every record the new
    volume, revenue and profit equal the old ones and the three percentage
    changes are zero; the same holds of every product a non-empty mapping
    leaves out. *)
Theorem empty_scenario_projects_nothing (price_changes : gmap string Q)
    (s : simulator) (table : list product) :
  product_data s = Some table ->
  exists recs,
    simulate_scenario price_changes s = (Ok recs, s)
    /\ List.map sim_product_id recs = List.map product_id table
    /\ Forall
         (fun r =>
            price_changes !! sim_product_id r = None ->
            price_change_pct r = 0
            /\ new_volume r == old_volume r
            /\ new_revenue r == old_revenue r
            /\ new_profit r == old_profit r
            /\ revenue_change_pct r == 0
            /\ profit_change_pct r == 0)
         recs.
Proof.
  intros Htable.
  destruct (simulate_scenario_ok price_changes s table Htable)
    as [recs [Heq Hall]].
  exists recs. split; [exact Heq|].
  split; [apply (projected_ids _ _ _ _ Hall)|].
  apply (projected_all _ _ _ _ _ Hall). intros row r _ Hrow.
  apply (projected_noop _ _ _ _ Hrow).
Qed.

Lemma empty_scenario_projects_nothing_witness :
  product_data with_history = Some dummy_products
  /\ exists recs,
       simulate_scenario ∅ with_history = (Ok recs, with_history)
       /\ length recs = 6%nat
       /\ Forall (fun r => new_revenue r == old_revenue r
                           /\ profit_change_pct r == 0) recs.
Proof.
  split; [reflexivity|].
  destruct (empty_scenario_projects_nothing ∅ with_history dummy_products eq_refl)
    as [recs [Heq [Hids Hall]]].
  exists recs. split; [exact Heq|].
  split; [rewrite <- (length_map sim_product_id), Hids; reflexivity|].
  eapply Forall_impl; [exact Hall|]. intros r Hr.
  destruct (Hr (lookup_empty _)) as [_ [_ [H1 [_ [_ H2]]]]]. auto.
Defined.

(** The relative change of revenue and the sign of the projected volume,
    for one record. *)
Lemma projected_revenue (price_changes : gmap string Q) (s : simulator)
    (row : product) (r : simulation_record) :
  projected price_changes s row r ->
  (~ old_revenue r == 0 ->
   revenue_change_pct r
   == (1 + price_change_pct r)
      * (1 + sim_elasticity r * price_change_pct r) - 1)
  /\ new_volume r == old_volume r * (1 + sim_elasticity r * price_change_pct r)
  /\ (0 < old_volume r -> sim_elasticity r * price_change_pct r < -1 ->
      new_volume r < 0).
Proof.
  unfold projected. rewrite simulate_row_ok. intros H. injection H as <-. simpl.
  set (p := current_price row).
  set (v := base_volume_of s (product_id row)).
  set (e := elasticity_of s (product_id row)).
  set (c := default 0 (price_changes !! product_id row)).
  split; [| split].
  - intros Hne. apply truthy_true in Hne as Ht. rewrite Ht.
    assert (Hp : ~ p == 0) by (intros Hz; apply Hne; rewrite Hz; ring).
    assert (Hv : ~ v == 0) by (intros Hz; apply Hne; rewrite Hz; ring).
    field. split; assumption.
  - reflexivity.
  - intros Hv Hec. nra.
Qed.

(** Where the baseline revenue is not zero, the relative change of revenue
    in a record is [(1 + p) * (1 + e * p) - 1] for the price change [p] and
    the elasticity [e] of the record: it depends neither on the price nor
    on the base volume nor on the cost of the product. *)
Theorem revenue_change_formula (price_changes : gmap string Q)
    (s : simulator) (table : list product) :
  product_data s = Some table ->
  exists recs,
    simulate_scenario price_changes s = (Ok recs, s)
    /\ Forall
         (fun r =>
            ~ old_revenue r == 0 ->
            revenue_change_pct r
            == (1 + price_change_pct r)
               * (1 + sim_elasticity r * price_change_pct r) - 1)
         recs.
Proof.
  intros Htable.
  destruct (simulate_scenario_ok price_changes s table Htable)
    as [recs [Heq Hall]].
  exists recs. split; [exact Heq|].
  apply (projected_all _ _ _ _ _ Hall). intros row r _ Hrow.
  apply (projected_revenue _ _ _ _ Hrow).
Qed.

Lemma revenue_change_formula_witness :
  product_data worked_scenario <> None
  /\ exists recs,
       simulate_scenario {[ "P001" := 0.1 ]} worked_scenario
       = (Ok recs, worked_scenario)
       /\ Forall (fun r => revenue_change_pct r == (1 + 0.1) * (1 + -1.2 * 0.1) - 1)
            recs.
Proof.
  split; [discriminate|].
  destruct (revenue_change_formula {[ "P001" := 0.1 ]} worked_scenario _ eq_refl)
    as [recs [Heq Hall]].
  exists recs. split; [exact Heq|].
  assert (Hrecs : fst (simulate_scenario {[ "P001" := 0.1 ]} worked_scenario)
                  = Ok recs) by (rewrite Heq; reflexivity).
  vm_compute in Hrecs. injection Hrecs as <-.
  apply List.Forall_cons; [| apply List.Forall_nil].
  rewrite List.Forall_forall in Hall.
  rewrite (Hall _ (or_introl eq_refl)); [reflexivity | discriminate].
Defined.

(** The projected volume is [base_volume * (1 + e * p)] with no floor at
    zero: whenever the base volume is positive and [e * p < -1], the record
    carries a negative [new_volume]. *)
Theorem projected_volume_not_floored (price_changes : gmap string Q)
    (s : simulator) (table : list product) :
  product_data s = Some table ->
  exists recs,
    simulate_scenario price_changes s = (Ok recs, s)
    /\ Forall
         (fun r =>
            new_volume r
            == old_volume r * (1 + sim_elasticity r * price_change_pct r)
            /\ (0 < old_volume r ->
                sim_elasticity r * price_change_pct r < -1 ->
                new_volume r < 0))
         recs.
Proof.
  intros Htable.
  destruct (simulate_scenario_ok price_changes s table Htable)
    as [recs [Heq Hall]].
  exists recs. split; [exact Heq|].
  apply (projected_all _ _ _ _ _ Hall). intros row r _ Hrow.
  apply (projected_revenue _ _ _ _ Hrow).
Qed.

Lemma projected_volume_not_floored_witness :
  product_data worked_scenario <> None
  /\ exists recs,
       simulate_scenario {[ "P001" := 1 ]} worked_scenario
       = (Ok recs, worked_scenario)
       /\ Forall (fun r => new_volume r < 0) recs.
Proof.
  split; [discriminate|].
  destruct (projected_volume_not_floored {[ "P001" := 1 ]} worked_scenario _
              eq_refl) as [recs [Heq Hall]].
  exists recs. split; [exact Heq|].
  assert (Hrecs : fst (simulate_scenario {[ "P001" := 1 ]} worked_scenario)
                  = Ok recs) by (rewrite Heq; reflexivity).
  vm_compute in Hrecs. injection Hrecs as <-.
  apply List.Forall_cons; [| apply List.Forall_nil].
  rewrite List.Forall_forall in Hall.
  apply (Hall _ (or_introl eq_refl)); reflexivity.
Defined.

Section EstimateThenSimulate.

Variable np_log : Q -> Q.
Variable fit : list Q -> list Q -> LinearRegression.
Variable score : LinearRegression -> list Q -> list Q -> Q.

(** [calculate_elasticity] followed by [simulate_scenario]: every catalog
    product with fewer than 5 valid observations, a product without any
    observation included, is simulated with elasticity [-1.0], and every
    other product with the first coefficient of its fitted model. *)
Theorem simulate_after_estimate (method : string)
    (price_changes : gmap string Q) (s : simulator)
    (hist : list observation) (table : list product) :
  historical_data s = Some hist ->
  product_data s = Some table ->
  exists results s' recs,
    calculate_elasticity np_log fit score method s = (Ok results, s')
    /\ simulate_scenario price_changes s' = (Ok recs, s')
    /\ List.map sim_product_id recs = List.map product_id table
    /\ Forall
         (fun r =>
            let n := length (valid_rows (rows_of hist (sim_product_id r))) in
            ((n < 5)%nat -> sim_elasticity r = -1)
            /\ ((5 <= n)%nat ->
                sim_elasticity r
                = nth 0 (coef_ (fitted_model np_log fit hist (sim_product_id r)))
                    0))
         recs.
Proof.
  intros Hhist Htable.
  destruct (calculate_elasticity_ok np_log fit score method hist s Hhist)
    as [results [s' [Heq [Hel [Hp [Hh [Hin Hout]]]]]]].
  rewrite Htable in Hp.
  destruct (simulate_scenario_ok price_changes s' table Hp) as [recs [Hsim Hall]].
  exists results, s', recs. split; [exact Heq|]. split; [exact Hsim|].
  split; [apply (projected_ids _ _ _ _ Hall)|].
  apply (projected_all _ _ _ _ _ Hall). intros row r _ Hrow.
  unfold projected in Hrow. rewrite simulate_row_ok in Hrow.
  injection Hrow as <-. simpl. unfold elasticity_of. rewrite Hel.
  destruct (in_dec string_dec (product_id row) (List.map obs_product_id hist))
    as [H | H].
  - rewrite (Hin _ H).
    destruct (Nat.ltb_spec (length (valid_rows (rows_of hist (product_id row)))) 5)
      as [Hl | Hl]; simpl; split; intros; (reflexivity || lia).
  - rewrite (Hout _ H). split; [reflexivity|]. intros Hmany. exfalso.
    assert (Hnil : valid_rows (rows_of hist (product_id row)) = []).
    { destruct (valid_rows (rows_of hist (product_id row))) as [|o l] eqn:Hv;
        [reflexivity|].
      exfalso. apply H.
      assert (Ho : In o (valid_rows (rows_of hist (product_id row))))
        by (rewrite Hv; left; reflexivity).
      apply valid_rows_spec in Ho. destruct Ho as [Ho [Hid _]].
      rewrite <- Hid. apply in_map. exact Ho. }
    rewrite Hnil in Hmany. simpl in Hmany. lia.
Qed.

End EstimateThenSimulate.

Lemma simulate_after_estimate_witness :
  historical_data with_history = Some few_observations
  /\ product_data with_history = Some dummy_products
  /\ exists results s' recs,
       calculate_elasticity (fun x => x)
         (fun _ _ => {| coef_ := [0]; intercept_ := 0 |}) (fun _ _ _ => 0)
         "log_log" with_history = (Ok results, s')
       /\ simulate_scenario ∅ s' = (Ok recs, s')
       /\ List.map sim_product_id recs = List.map product_id dummy_products.
Proof.
  split; [reflexivity|]. split; [reflexivity|].
  destruct (simulate_after_estimate (fun x => x)
              (fun _ _ => {| coef_ := [0]; intercept_ := 0 |}) (fun _ _ _ => 0)
              "log_log" ∅ with_history few_observations dummy_products
              eq_refl eq_refl)
    as [results [s' [recs [H1 [H2 [H3 _]]]]]].
  exists results, s', recs. auto.
Defined.

(** ** [optimize_pricing]: keys, bounds and the fallback *)

Lemma Qltb_proper (a a' b b' : Q) :
  a == a' -> b == b' -> Qltb a b = Qltb a' b'.
Proof.
  intros Ha Hb. destruct (Qltb a' b') eqn:H.
  - apply Qltb_lt. rewrite Ha, Hb. apply Qltb_lt. exact H.
  - apply Qltb_ge. rewrite Ha, Hb. apply Qltb_ge. exact H.
Qed.

Lemma Qeq_bool_proper (a a' : Q) : a == a' -> Qeq_bool a 0 = Qeq_bool a' 0.
Proof.
  intros Ha. destruct (Qeq_bool a' 0) eqn:H.
  - apply Qeq_bool_iff. rewrite Ha. apply Qeq_bool_iff. exact H.
  - apply not_true_iff_false. intros Hz. apply Qeq_bool_iff in Hz.
    rewrite Ha in Hz. apply Qeq_bool_iff in Hz. congruence.
Qed.

(** The margin test gives the same verdict on equal changes. *)
Lemma survives_proper (min_margin current_price base_cost c c' : Q) :
  c == c' ->
  survives min_margin current_price base_cost c
  = survives min_margin current_price base_cost c'.
Proof.
  intros Hc. unfold survives, margin_of, np_divide. f_equal.
  assert (Hp : current_price * (1 + c) == current_price * (1 + c'))
    by (rewrite Hc; reflexivity).
  assert (Hn : current_price * (1 + c) - base_cost
               == current_price * (1 + c') - base_cost)
    by (rewrite Hc; reflexivity).
  rewrite (Qeq_bool_proper _ _ Hp).
  destruct (Qeq_bool (current_price * (1 + c')) 0).
  - rewrite (Qltb_proper 0 0 _ _ (Qeq_refl 0) Hn).
    rewrite (Qltb_proper _ _ 0 0 Hn (Qeq_refl 0)). reflexivity.
  - simpl. apply Qltb_proper; [| reflexivity]. rewrite Hn, Hp. reflexivity.
Qed.

(** Every candidate lies within the bound. *)
Lemma test_points_bounded (max_change c : Q) :
  In c (test_points max_change) -> Qabs c <= Qabs max_change.
Proof.
  intros Hin.
  destruct (test_points_shape max_change)
    as [a0 [a1 [a2 [a3 [Hpts [H0 [H1 [H2 H3]]]]]]]].
  rewrite Hpts in Hin.
  assert (Hhalf : max_change / 2 == max_change * (1 # 2)) by field.
  rewrite Hhalf in H1, H3.
  apply Qabs_Qle_condition.
  destruct (Qlt_le_dec max_change 0) as [Hneg | Hpos].
  - rewrite (Qabs_neg max_change) by lra.
    simpl in Hin.
    destruct Hin as [<- | [<- | [<- | [<- | [<- | []]]]]];
      rewrite ?H0, ?H1, ?H2, ?H3; lra.
  - rewrite (Qabs_pos max_change) by lra.
    simpl in Hin.
    destruct Hin as [<- | [<- | [<- | [<- | [<- | []]]]]];
      rewrite ?H0, ?H1, ?H2, ?H3; lra.
Qed.

(** The zero change is one of the candidates, up to equality of numbers. *)
Lemma test_points_zero (max_change : Q) :
  exists c, In c (test_points max_change) /\ c == 0.
Proof.
  destruct (test_points_shape max_change)
    as [a0 [a1 [a2 [a3 [Hpts [_ [_ [H2 _]]]]]]]].
  exists a2. rewrite Hpts. split; [simpl; tauto | exact H2].
Qed.

Lemma best_change_bounded (objective : string) (min_margin max_change : Q)
    (current_price base_cost base_volume elasticity : Q) :
  Qabs (best_change_of objective min_margin (test_points max_change)
          current_price base_cost base_volume elasticity)
  <= Qabs max_change.
Proof.
  pose proof (best_change_of_spec objective min_margin
                current_price base_cost base_volume elasticity
                (test_points max_change)) as Hspec.
  simpl in Hspec. destruct Hspec as [[_ ->] | [[Hin _] _]].
  - apply Qabs_nonneg.
  - apply test_points_bounded. exact Hin.
Qed.

Lemma lookup_fold_insert_last {V} (f : product -> V) (table : list product)
    (acc : gmap string V) (pid : string) :
  fold_left (fun acc row => <[product_id row := f row]> acc) table acc !! pid
  = match last_row table pid with
    | Some row => Some (f row)
    | None => acc !! pid
    end.
Proof.
  induction table as [|x table IH] using rev_ind; [reflexivity|].
  rewrite fold_left_app. simpl. unfold last_row. rewrite rev_app_distr. simpl.
  destruct (String.eqb_spec (product_id x) pid) as [E | E].
  - rewrite E. apply lookup_insert_eq.
  - rewrite lookup_insert_ne by exact E. exact IH.
Qed.

(** With a catalog loaded, the mapping holds under each identifier the grid
    search of the last row carrying it. *)
Lemma optimize_pricing_last (objective : string) (min_margin max_change : Q)
    (s : simulator) (table : list product) :
  product_data s = Some table ->
  exists recs,
    optimize_pricing objective min_margin max_change s = (Ok recs, s)
    /\ forall pid,
         recs !! pid
         = match last_row table pid with
           | Some row =>
               Some (best_change_of objective min_margin
                       (test_points max_change)
                       (current_price row) (base_cost row)
                       (base_volume_of s pid) (elasticity_of s pid))
           | None => None
           end.
Proof.
  intros Htable. unfold optimize_pricing, bind, get_self. rewrite Htable.
  rewrite (for_each_pure _ _ s table
             (optimize_row_ok objective min_margin (test_points max_change) s)).
  eexists. split; [reflexivity|]. intros pid.
  rewrite (lookup_fold_insert_last
             (fun row =>
                best_change_of objective min_margin (test_points max_change)
                  (current_price row) (base_cost row)
                  (base_volume_of s (product_id row))
                  (elasticity_of s (product_id row)))).
  rewrite lookup_empty.
  destruct (last_row table pid) as [row|] eqn:Hlast; [| reflexivity].
  unfold last_row in Hlast. apply find_some in Hlast.
  destruct Hlast as [_ Hid]. apply String.eqb_eq in Hid. rewrite Hid.
  reflexivity.
Qed.

Lemma last_row_some (table : list product) (pid : string) :
  is_Some (last_row table pid) <-> In pid (List.map product_id table).
Proof.
  unfold last_row. split.
  - intros [row Hrow]. apply find_some in Hrow. destruct Hrow as [Hin Hid].
    apply String.eqb_eq in Hid. rewrite <- Hid. apply in_map.
    apply in_rev. exact Hin.
  - intros Hin. apply in_map_iff in Hin. destruct Hin as [row [Hid Hin]].
    destruct (List.find _ (rev table)) as [r|] eqn:Hfind; [eauto|].
    apply in_rev in Hin. pose proof (find_none _ _ Hfind row Hin) as Hf.
    simpl in Hf. rewrite Hid, String.eqb_refl in Hf. discriminate.
Qed.

(** The mapping [optimize_pricing] returns has an entry exactly for the
    identifiers of the catalog, one per identifier: when several rows carry
    the same identifier, the entry is the grid search of the last of them
    (the dictionary assignment overwrites), whereas [simulate_scenario]
    returns a record for each row. *)
Theorem recommendations_keyed_by_last_row (objective : string)
    (min_margin max_change : Q) (s : simulator) (table : list product) :
  product_data s = Some table ->
  exists recs,
    optimize_pricing objective min_margin max_change s = (Ok recs, s)
    /\ (forall pid,
          is_Some (recs !! pid) <-> In pid (List.map product_id table))
    /\ (forall pid row, last_row table pid = Some row ->
          recs !! pid
          = Some (best_change_of objective min_margin (test_points max_change)
                    (current_price row) (base_cost row)
                    (base_volume_of s pid) (elasticity_of s pid)))
    /\ (forall price_changes, exists sims,
          simulate_scenario price_changes s = (Ok sims, s)
          /\ length sims = length table).
Proof.
  intros Htable.
  destruct (optimize_pricing_last objective min_margin max_change s table Htable)
    as [recs [Heq Hlook]].
  exists recs. split; [exact Heq|]. split; [| split].
  - intros pid. rewrite <- last_row_some, Hlook.
    destruct (last_row table pid); split; intros [x Hx]; eauto; discriminate.
  - intros pid row Hlast. rewrite Hlook, Hlast. reflexivity.
  - intros price_changes.
    destruct (simulate_scenario_ok price_changes s table Htable)
      as [sims [Hsim Hall]].
    exists sims. split; [exact Hsim|]. symmetry.
    apply (Forall2_length _ _ _ Hall).
Qed.

Lemma recommendations_keyed_by_last_row_witness :
  product_data duplicated_catalog <> None
  /\ exists recs c sims,
       optimize_pricing "volume" 0.1 0.2 duplicated_catalog
       = (Ok recs, duplicated_catalog)
       /\ recs !! "P001" = Some c /\ c == 0.1
       /\ size recs = 1%nat
       /\ simulate_scenario ∅ duplicated_catalog = (Ok sims, duplicated_catalog)
       /\ length sims = 2%nat.
Proof.
  split; [discriminate|].
  destruct (recommendations_keyed_by_last_row "volume" 0.1 0.2
              duplicated_catalog _ eq_refl)
    as [recs [Heq [Hkeys [Hlast Hsim]]]].
  destruct (Hsim ∅) as [sims [Hs Hlen]].
  eexists recs, _, sims. split; [exact Heq|].
  split; [apply Hlast; reflexivity|]. split; [reflexivity|].
  split; [| split; [exact Hs | exact Hlen]].
  assert (Hrecs : fst (optimize_pricing "volume" 0.1 0.2 duplicated_catalog)
                  = Ok recs)
    by (rewrite Heq; reflexivity).
  vm_compute in Hrecs. injection Hrecs as <-. reflexivity.
Defined.

(** No recommendation exceeds the bound: every entry of the mapping has
    absolute value at most that of [max_change], whatever the objective and
    the margin; with [max_change = 0] every recommendation is zero. *)
Theorem recommendations_within_bound (objective : string)
    (min_margin max_change : Q) (s : simulator) (table : list product) :
  product_data s = Some table ->
  exists recs,
    optimize_pricing objective min_margin max_change s = (Ok recs, s)
    /\ (forall pid c, recs !! pid = Some c -> Qabs c <= Qabs max_change)
    /\ (max_change == 0 -> forall pid c, recs !! pid = Some c -> c == 0).
Proof.
  intros Htable.
  destruct (optimize_pricing_ok objective min_margin max_change s table Htable)
    as [recs [Heq [Hentries _]]].
  exists recs. split; [exact Heq|].
  assert (Hbound : forall pid c, recs !! pid = Some c ->
                     Qabs c <= Qabs max_change).
  { intros pid c Hc. destruct (Hentries pid c Hc) as [row [_ [_ ->]]].
    apply best_change_bounded. }
  split; [exact Hbound|].
  intros Hzero pid c Hc. specialize (Hbound pid c Hc).
  rewrite Hzero in Hbound. apply Qabs_Qle_condition in Hbound.
  change (Qabs 0) with 0 in Hbound. lra.
Qed.

Lemma recommendations_within_bound_witness :
  product_data with_history = Some dummy_products
  /\ exists recs,
       optimize_pricing "profit" 0.1 0 with_history = (Ok recs, with_history)
       /\ forall pid c, recs !! pid = Some c -> c == 0.
Proof.
  split; [reflexivity|].
  destruct (recommendations_within_bound "profit" 0.1 0 with_history
              dummy_products eq_refl) as [recs [Heq [_ Hzero]]].
  exists recs. split; [exact Heq|]. apply Hzero. reflexivity.
Defined.

(** When nothing passes the margin test, the unchanged price fails it too. *)
Lemma fallback_fails_margin (min_margin max_change current_price base_cost : Q) :
  (forall c, In c (test_points max_change) ->
     survives min_margin current_price base_cost c = false) ->
  np_less (margin_of current_price base_cost 0) (Fin min_margin) = true
  /\ ~ keeps_margin min_margin current_price base_cost 0.
Proof.
  intros Hnone. destruct (test_points_zero max_change) as [c [Hin Hc]].
  specialize (Hnone c Hin).
  rewrite (survives_proper _ _ _ _ _ Hc) in Hnone.
  unfold survives in Hnone. apply negb_false_iff in Hnone.
  split; [exact Hnone|]. unfold keeps_margin.
  destruct (margin_of current_price base_cost 0) as [a| | |]; simpl in *;
    try discriminate.
  apply Qltb_lt in Hnone. intros Hge. apply Qle_bool_iff in Hge.
  revert Hnone. apply Qle_not_lt. exact Hge.
Qed.

(** The fallback is not checked against the margin: whenever no candidate
    passes the margin test for a product, the recommendation is [0.0]
    although the unchanged price itself has a margin below [min_margin]. *)
Theorem fallback_violates_margin (objective : string)
    (min_margin max_change : Q) (s : simulator) (table : list product) :
  product_data s = Some table ->
  exists recs,
    optimize_pricing objective min_margin max_change s = (Ok recs, s)
    /\ (forall row, In row table -> is_Some (recs !! product_id row))
    /\ forall pid c, recs !! pid = Some c ->
         exists row, In row table /\ product_id row = pid
           /\ ((forall c', In c' (test_points max_change) ->
                  survives min_margin (current_price row) (base_cost row) c'
                  = false) ->
               c = 0
               /\ np_less (margin_of (current_price row) (base_cost row) 0)
                    (Fin min_margin) = true
               /\ ~ keeps_margin min_margin (current_price row)
                      (base_cost row) c).
Proof.
  intros Htable.
  destruct (optimize_pricing_ok objective min_margin max_change s table Htable)
    as [recs [Heq [Hentries Hcover]]].
  exists recs. split; [exact Heq|]. split; [exact Hcover|]. intros pid c Hc.
  destruct (Hentries pid c Hc) as [row [Hin [Hid Hval]]].
  exists row. split; [exact Hin|]. split; [exact Hid|]. intros Hnone.
  assert (Hzero : c = 0).
  { rewrite Hval.
    pose proof (best_change_of_spec objective min_margin
                  (current_price row) (base_cost row)
                  (base_volume_of s pid) (elasticity_of s pid)
                  (test_points max_change)) as Hspec.
    simpl in Hspec. destruct Hspec as [[_ H0] | [[Hc' [Halive _]] _]];
      [exact H0|].
    rewrite (Hnone _ Hc') in Halive. discriminate. }
  split; [exact Hzero|]. rewrite Hzero.
  apply (fallback_fails_margin _ _ _ _ Hnone).
Qed.

Lemma fallback_violates_margin_witness :
  product_data duplicated_catalog <> None
  /\ exists recs,
       optimize_pricing "profit" 0.5 0.2 duplicated_catalog
       = (Ok recs, duplicated_catalog)
       /\ recs !! "P001" = Some 0
       /\ ~ keeps_margin 0.5 11 10 0.
Proof.
  split; [discriminate|].
  destruct (fallback_violates_margin "profit" 0.5 0.2 duplicated_catalog _ eq_refl)
    as [recs [Heq Hall]].
  exists recs. split; [exact Heq|].
  assert (Hrecs : fst (optimize_pricing "profit" 0.5 0.2 duplicated_catalog)
                  = Ok recs) by (rewrite Heq; reflexivity).
  vm_compute in Hrecs. injection Hrecs as <-.
  split; [reflexivity|]. vm_compute. discriminate.
Defined.

(** ** [optimize_pricing]: the shape of the search *)

(** In an ascending list nothing before an entry is greater than it. *)
Lemma ascending_before (before after : list Q) (c : Q) :
  StronglySorted Qle (before ++ c :: after) ->
  forall c', In c' before -> c' <= c.
Proof.
  induction before as [|b before IH]; simpl; intros Hs c' Hin; [destruct Hin|].
  apply StronglySorted_inv in Hs. destruct Hs as [Hs Hall].
  destruct Hin as [<- | Hin].
  - rewrite List.Forall_forall in Hall. apply Hall. apply in_elt.
  - apply IH; assumption.
Qed.

Lemma find_skips (f : Q -> bool) (before after : list Q) (c : Q) :
  (forall y, In y before -> f y = false) -> f c = true ->
  List.find f (before ++ c :: after) = Some c.
Proof.
  induction before as [|b before IH]; simpl; intros Hb Hc.
  - rewrite Hc. reflexivity.
  - rewrite (Hb b (or_introl eq_refl)). apply IH; [| exact Hc].
    intros y Hy. apply Hb. right. exact Hy.
Qed.

(** The first candidate that passes the margin test is the smallest one
    that does, when the bound is not negative. *)
Lemma first_survivor_smallest (min_margin max_change : Q) (row : product) :
  0 <= max_change ->
  smallest_survivor_or_zero min_margin max_change row
    (default 0
       (List.find (survives min_margin (current_price row) (base_cost row))
          (test_points max_change))).
Proof.
  intros Hpos. unfold smallest_survivor_or_zero.
  pose proof (find_first (survives min_margin (current_price row) (base_cost row))
                (test_points max_change)) as Hfind.
  destruct (List.find _ _) as [x|]; simpl.
  - right. destruct Hfind as [before [after [Hpts [Hx Hbefore]]]].
    split; [rewrite Hpts; apply in_elt|]. split; [exact Hx|].
    intros c' Hin' Hc'. rewrite Hpts in Hin'. apply in_app_or in Hin'.
    destruct Hin' as [Hb | [<- | Ha]].
    + rewrite (Hbefore c' Hb) in Hc'. discriminate.
    + apply Qle_refl.
    + pose proof (test_points_ascending max_change Hpos) as Hsorted.
      rewrite Hpts in Hsorted. apply (ascending_after _ _ _ Hsorted c' Ha).
  - left. split; [exact Hfind | reflexivity].
Qed.

(** With the volume objective, a base volume that is not negative and an
    elasticity that is not positive, the grid search over ascending
    candidates stops at the first survivor. *)
Lemma best_change_volume (min_margin max_change : Q)
    (current_price base_cost base_volume elasticity : Q) :
  0 <= max_change -> 0 <= base_volume -> elasticity <= 0 ->
  best_change_of "volume" min_margin (test_points max_change)
    current_price base_cost base_volume elasticity
  = default 0
      (List.find (survives min_margin current_price base_cost)
         (test_points max_change)).
Proof.
  intros Hpos Hv He.
  pose proof (best_change_of_spec "volume" min_margin
                current_price base_cost base_volume elasticity
                (test_points max_change)) as Hspec.
  simpl in Hspec.
  set (c := best_change_of "volume" min_margin (test_points max_change)
              current_price base_cost base_volume elasticity) in *.
  clearbody c.
  destruct Hspec
    as [[Hnone ->] | [_ [before [after [Hpts [Hc [Hlt _]]]]]]].
  - pose proof (find_first (survives min_margin current_price base_cost)
                  (test_points max_change)) as Hfind.
    destruct (List.find _ _) as [x|]; [| reflexivity].
    destruct Hfind as [b [a [Hp [Hx _]]]].
    rewrite (Hnone x) in Hx; [discriminate|]. rewrite Hp. apply in_elt.
  - pose proof (test_points_ascending max_change Hpos) as Hsorted.
    rewrite Hpts in Hsorted |- *.
    rewrite find_skips; [reflexivity | | exact Hc].
    intros y Hy.
    destruct (survives min_margin current_price base_cost y) eqn:Halive;
      [| reflexivity].
    exfalso. specialize (Hlt y Hy Halive).
    pose proof (ascending_before _ _ _ Hsorted y Hy) as Hle.
    change (base_volume * (1 + elasticity * y)
            < base_volume * (1 + elasticity * c)) in Hlt.
    assert (H1 : elasticity * c <= elasticity * y) by nra.
    revert H1 Hlt. generalize (elasticity * c). generalize (elasticity * y).
    intros u w H1 Hlt. nra.
Qed.

(** Maximising volume for products that respond to a price increase by
    selling no more than before (elasticity not positive, base volume not
    negative) recommends the deepest cut that passes the margin test, or
    [0.0] when none does: the same answer as an unrecognised objective. *)
Theorem volume_objective_cuts_deepest (min_margin max_change : Q)
    (s : simulator) (table : list product) :
  product_data s = Some table ->
  0 <= max_change ->
  exists recs,
    optimize_pricing "volume" min_margin max_change s = (Ok recs, s)
    /\ (forall row, In row table -> is_Some (recs !! product_id row))
    /\ forall pid c, recs !! pid = Some c ->
         0 <= base_volume_of s pid -> elasticity_of s pid <= 0 ->
         exists row, In row table /\ product_id row = pid
           /\ c = default 0
                    (List.find
                       (survives min_margin (current_price row) (base_cost row))
                       (test_points max_change))
           /\ smallest_survivor_or_zero min_margin max_change row c.
Proof.
  intros Htable Hpos.
  destruct (optimize_pricing_ok "volume" min_margin max_change s table Htable)
    as [recs [Heq [Hentries Hcover]]].
  exists recs. split; [exact Heq|]. split; [exact Hcover|].
  intros pid c Hc Hv He.
  destruct (Hentries pid c Hc) as [row [Hin [Hid Hval]]].
  exists row. split; [exact Hin|]. split; [exact Hid|].
  rewrite (best_change_volume _ _ _ _ _ _ Hpos Hv He) in Hval.
  split; [exact Hval|]. rewrite Hval. apply first_survivor_smallest. exact Hpos.
Qed.

Lemma volume_objective_cuts_deepest_witness :
  product_data catalog_only = Some dummy_products
  /\ 0 <= 0.2
  /\ exists recs,
       optimize_pricing "volume" 0.1 0.2 catalog_only = (Ok recs, catalog_only)
       /\ exists c, recs !! "P001" = Some c /\ c == -0.2.
Proof.
  split; [reflexivity|]. split; [discriminate|].
  destruct (volume_objective_cuts_deepest 0.1 0.2 catalog_only dummy_products
              eq_refl) as [recs [Heq Hall]]; [discriminate|].
  exists recs. split; [exact Heq|].
  assert (Hrecs : fst (optimize_pricing "volume" 0.1 0.2 catalog_only) = Ok recs)
    by (rewrite Heq; reflexivity).
  vm_compute in Hrecs. injection Hrecs as <-.
  eexists. split; reflexivity.
Defined.

(** At a positive new price the margin test is the inequality
    [min_margin * new_price <= new_price - base_cost]. *)
Lemma survives_positive_price (min_margin current_price base_cost c : Q) :
  0 < current_price * (1 + c) ->
  (survives min_margin current_price base_cost c = true
   <-> min_margin * (current_price * (1 + c))
       <= current_price * (1 + c) - base_cost).
Proof.
  intros Hpos. unfold survives, margin_of, np_divide.
  set (np := current_price * (1 + c)) in *.
  assert (Hne : ~ np == 0) by lra.
  destruct (Qeq_bool np 0) eqn:Hz; [apply Qeq_bool_iff in Hz; contradiction|].
  simpl. rewrite negb_true_iff, Qltb_ge. split; intros H.
  - apply (Qmult_le_compat_r _ _ np) in H; [| lra].
    assert (Hd : (np - base_cost) / np * np == np - base_cost) by (field; exact Hne).
    rewrite Hd in H. exact H.
  - apply Qle_shift_div_l; assumption.
Qed.

(** For a product with a positive price and a cost that is not negative,
    a higher price passes the margin test whenever a lower positive one
    does. *)
Lemma survives_monotone (min_margin current_price base_cost c c' : Q) :
  0 < current_price -> 0 <= base_cost -> 0 < 1 + c -> c <= c' ->
  survives min_margin current_price base_cost c = true ->
  survives min_margin current_price base_cost c' = true.
Proof.
  intros Hp Hk Hc Hle Hs.
  assert (Hnp : 0 < current_price * (1 + c)) by nra.
  assert (Hnp' : 0 < current_price * (1 + c')) by nra.
  apply (survives_positive_price _ _ _ _ Hnp) in Hs.
  apply (survives_positive_price _ _ _ _ Hnp').
  assert (Hle' : current_price * (1 + c) <= current_price * (1 + c')) by nra.
  revert Hnp Hnp' Hs Hle'.
  generalize (current_price * (1 + c)). generalize (current_price * (1 + c')).
  intros u w Hw Hu Hs Hle'. nra.
Qed.

(** Under those conditions and a bound in [0, 1), no candidate passes the
    margin test exactly when the largest increase fails it. *)
Lemma no_survivor_iff_top_fails (min_margin max_change current_price base_cost : Q) :
  0 <= max_change -> max_change < 1 -> 0 < current_price -> 0 <= base_cost ->
  ((forall c, In c (test_points max_change) ->
      survives min_margin current_price base_cost c = false)
   <-> survives min_margin current_price base_cost max_change = false).
Proof.
  intros Hpos Hlt Hp Hk. split.
  - intros Hnone. apply Hnone.
    destruct (test_points_shape max_change) as [a0 [a1 [a2 [a3 [-> _]]]]].
    simpl. tauto.
  - intros Htop c Hin.
    destruct (survives min_margin current_price base_cost c) eqn:Hc;
      [| reflexivity].
    pose proof (test_points_bounded _ _ Hin) as Hb.
    rewrite (Qabs_pos max_change) in Hb by exact Hpos.
    apply Qabs_Qle_condition in Hb. destruct Hb as [Hlo Hhi].
    rewrite <- Htop. symmetry.
    apply (survives_monotone _ _ _ c max_change Hp Hk); [lra | exact Hhi | exact Hc].
Qed.

(** For a bound in [0, 1) and a product with a positive price and a cost
    that is not negative, the optimizer falls back to [0.0] for want of a
    feasible candidate exactly when the largest increase, [+max_change],
    fails the margin test; when that increase passes, the recommendation
    is a candidate that passes. *)
Theorem fallback_iff_largest_increase_fails (objective : string)
    (min_margin max_change : Q) (s : simulator) (table : list product) :
  product_data s = Some table ->
  0 <= max_change -> max_change < 1 ->
  exists recs,
    optimize_pricing objective min_margin max_change s = (Ok recs, s)
    /\ (forall row, In row table -> is_Some (recs !! product_id row))
    /\ forall pid c, recs !! pid = Some c ->
         exists row, In row table /\ product_id row = pid
           /\ (0 < current_price row -> 0 <= base_cost row ->
               ((forall c', In c' (test_points max_change) ->
                   survives min_margin (current_price row) (base_cost row) c'
                   = false)
                <-> survives min_margin (current_price row) (base_cost row)
                      max_change = false)
               /\ (survives min_margin (current_price row) (base_cost row)
                     max_change = false -> c = 0)
               /\ (survives min_margin (current_price row) (base_cost row)
                     max_change = true ->
                   In c (test_points max_change)
                   /\ survives min_margin (current_price row) (base_cost row) c
                      = true)).
Proof.
  intros Htable Hpos Hlt.
  destruct (optimize_pricing_ok objective min_margin max_change s table Htable)
    as [recs [Heq [Hentries Hcover]]].
  exists recs. split; [exact Heq|]. split; [exact Hcover|]. intros pid c Hc.
  destruct (Hentries pid c Hc) as [row [Hin [Hid Hval]]].
  exists row. split; [exact Hin|]. split; [exact Hid|]. intros Hp Hk.
  pose proof (no_survivor_iff_top_fails min_margin max_change
                (current_price row) (base_cost row) Hpos Hlt Hp Hk) as Hiff.
  pose proof (best_change_of_spec objective min_margin
                (current_price row) (base_cost row)
                (base_volume_of s pid) (elasticity_of s pid)
                (test_points max_change)) as Hspec.
  simpl in Hspec. rewrite <- Hval in Hspec.
  split; [exact Hiff|]. split.
  - intros Htop. pose proof (proj2 Hiff Htop) as Hnone. clear Htop.
    rename Hnone into Htop.
    destruct Hspec as [[_ H0] | [[Hc' [Halive _]] _]]; [exact H0|].
    rewrite (Htop _ Hc') in Halive. discriminate.
  - intros Htop.
    destruct Hspec as [[Hnone _] | [[Hc' [Halive _]] _]]; [| auto].
    rewrite (proj1 Hiff Hnone) in Htop. discriminate.
Qed.

Lemma fallback_iff_largest_increase_fails_witness :
  product_data catalog_only = Some dummy_products
  /\ 0 <= 0.2 /\ 0.2 < 1
  /\ exists recs,
       optimize_pricing "profit" 0.6 0.2 catalog_only = (Ok recs, catalog_only)
       /\ recs !! "P001" = Some 0
       /\ survives 0.6 18 10 0.2 = false.
Proof.
  split; [reflexivity|]. split; [discriminate|]. split; [reflexivity|].
  destruct (fallback_iff_largest_increase_fails "profit" 0.6 0.2 catalog_only
              dummy_products eq_refl) as [recs [Heq Hall]];
    [discriminate | reflexivity |].
  exists recs. split; [exact Heq|].
  assert (Hrecs : fst (optimize_pricing "profit" 0.6 0.2 catalog_only) = Ok recs)
    by (rewrite Heq; reflexivity).
  vm_compute in Hrecs. injection Hrecs as <-.
  split; reflexivity.
Defined.

(** ** The endpoints of [main.py] *)

(** [POST /simulate] answers 400 exactly when no catalog is loaded and
    otherwise returns the records of [simulate_scenario], one per catalog
    row: its handler for exceptions of the core, the 500 answer, is never
    taken.  The instance is left as it was. *)
Theorem simulate_endpoint_never_500 (req : main.SimulationRequest)
    (sim : simulator) :
  snd (main.run_simulation req sim) = sim
  /\ (product_data sim = None ->
      fst (main.run_simulation req sim)
      = main.Failed
          (main.HTTPException 400
             "No data loaded. Call /data/dummy or upload data first."))
  /\ (forall table, product_data sim = Some table ->
        exists recs,
          fst (main.run_simulation req sim) = main.Returned recs
          /\ simulate_scenario (main.price_changes req) sim = (Ok recs, sim)
          /\ length recs = length table)
  /\ (forall status detail,
        fst (main.run_simulation req sim)
        = main.Failed (main.HTTPException status detail) ->
        status = 400%nat /\ product_data sim = None).
Proof.
  unfold main.run_simulation, main.try_500.
  destruct (product_data sim) as [table|] eqn:Htable.
  - destruct (simulate_scenario_ok (main.price_changes req) sim table Htable)
      as [recs [Heq Hall]].
    rewrite Heq. simpl. split; [reflexivity|]. split; [discriminate|]. split.
    + intros t Ht. injection Ht as <-. exists recs.
      split; [reflexivity|]. split; [reflexivity|].
      symmetry. apply (Forall2_length _ _ _ Hall).
    + intros status detail H. discriminate.
  - simpl. split; [reflexivity|]. split; [reflexivity|]. split; [discriminate|].
    intros status detail H. injection H as <- _. auto.
Qed.

(** [POST /optimize] answers 400 exactly when no catalog is loaded and
    otherwise returns the mapping of [optimize_pricing]: the guard of the
    endpoint keeps the [AttributeError] that the core raises on an unloaded
    instance from ever being reached, and the 500 answer is never sent.
    The instance is left as it was. *)
Theorem optimize_endpoint_shields_core (req : main.OptimizationRequest)
    (sim : simulator) :
  snd (main.optimize req sim) = sim
  /\ (product_data sim = None ->
      fst (main.optimize req sim)
      = main.Failed (main.HTTPException 400 "No data loaded.")
      /\ exists msg,
           fst (optimize_pricing (main.objective req) (main.min_margin req)
                  (main.max_change req) sim)
           = Raise (AttributeError msg))
  /\ (forall table, product_data sim = Some table ->
        exists recs,
          fst (main.optimize req sim) = main.Returned recs
          /\ optimize_pricing (main.objective req) (main.min_margin req)
               (main.max_change req) sim = (Ok recs, sim)
          /\ forall pid,
               is_Some (recs !! pid) <-> In pid (List.map product_id table))
  /\ (forall status detail,
        fst (main.optimize req sim)
        = main.Failed (main.HTTPException status detail) ->
        status = 400%nat /\ product_data sim = None).
Proof.
  unfold main.optimize, main.try_500.
  destruct (product_data sim) as [table|] eqn:Htable.
  - destruct (optimize_pricing_last (main.objective req) (main.min_margin req)
                (main.max_change req) sim table Htable) as [recs [Heq Hlook]].
    rewrite Heq. simpl. split; [reflexivity|]. split; [discriminate|]. split.
    + intros t Ht. injection Ht as <-. exists recs.
      split; [reflexivity|]. split; [reflexivity|].
      intros pid. rewrite <- last_row_some, Hlook.
      destruct (last_row table pid); split; intros [x Hx]; eauto; discriminate.
    + intros status detail H. discriminate.
  - simpl. split; [reflexivity|]. split.
    + intros _. split; [reflexivity|].
      rewrite (optimize_pricing_unloaded _ _ _ _ Htable). simpl. eauto.
    + split; [discriminate|].
      intros status detail H. injection H as <- _. auto.
Qed.

Section ListingFacts.

Variable np_log : Q -> Q.
Variable fit : list Q -> list Q -> LinearRegression.
Variable score : LinearRegression -> list Q -> list Q -> Q.

(** [GET /products] after [calculate_elasticity]: the listing has one entry
    per catalog row, in order; the elasticity and the r-squared of an entry
    are [None] exactly when the product has no observation at all, and are
    the defaults [-1.0] and [0.0] when it has some but fewer than 5 valid
    ones, so the listing tells "not computed" from "not modelled" only by
    the absence of the value. *)
Theorem listing_after_estimate (method : string) (s : simulator)
    (hist : list observation) (table : list product) :
  historical_data s = Some hist ->
  product_data s = Some table ->
  exists results s' listing,
    calculate_elasticity np_log fit score method s = (Ok results, s')
    /\ main.get_products s' = (main.Returned listing, s')
    /\ List.map main.listed listing = table
    /\ Forall
         (fun e =>
            let pid := product_id (main.listed e) in
            (main.listed_elasticity e = None
             <-> ~ In pid (List.map obs_product_id hist))
            /\ (main.listed_r_squared e = None
                <-> main.listed_elasticity e = None)
            /\ (In pid (List.map obs_product_id hist) ->
                (length (valid_rows (rows_of hist pid)) < 5)%nat ->
                main.listed_elasticity e = Some (-1)
                /\ main.listed_r_squared e = Some 0))
         listing.
Proof.
  intros Hhist Htable.
  destruct (calculate_elasticity_ok np_log fit score method hist s Hhist)
    as [results [s' [Heq [Hel [Hp [_ [Hin Hout]]]]]]].
  rewrite Htable in Hp.
  eexists results, s', _. split; [exact Heq|].
  unfold main.get_products. rewrite Hp, Hel.
  split; [reflexivity|]. split.
  - rewrite List.map_map. clear. induction table as [|p t IH]; simpl;
      [reflexivity|].
    rewrite IH. destruct (results !! product_id p); reflexivity.
  - apply List.Forall_forall. intros e He. apply in_map_iff in He.
    destruct He as [p [<- _]].
    destruct (in_dec string_dec (product_id p) (List.map obs_product_id hist))
      as [H | H].
    + rewrite (Hin _ H). simpl.
      split; [split; [discriminate | contradiction]|].
      split; [split; discriminate|]. intros _ Hfew.
      apply Nat.ltb_lt in Hfew. rewrite Hfew. auto.
    + rewrite (Hout _ H). simpl.
      split; [tauto|]. split; [tauto|]. contradiction.
Qed.

End ListingFacts.

Lemma listing_after_estimate_witness :
  historical_data with_history = Some few_observations
  /\ product_data with_history = Some dummy_products
  /\ exists results s' listing,
       calculate_elasticity (fun x => x)
         (fun _ _ => {| coef_ := [0]; intercept_ := 0 |}) (fun _ _ _ => 0)
         "log_log" with_history = (Ok results, s')
       /\ main.get_products s' = (main.Returned listing, s')
       /\ List.map main.listed_elasticity listing
          = [Some (-1); None; None; Some (-1); None; None].
Proof.
  split; [reflexivity|]. split; [reflexivity|].
  destruct (listing_after_estimate (fun x => x)
              (fun _ _ => {| coef_ := [0]; intercept_ := 0 |}) (fun _ _ _ => 0)
              "log_log" with_history few_observations dummy_products
              eq_refl eq_refl)
    as [results [s' [listing [H1 [H2 _]]]]].
  exists results, s', listing. split; [exact H1|]. split; [exact H2|].
  assert (Hs : snd (calculate_elasticity (fun x => x)
                 (fun _ _ => {| coef_ := [0]; intercept_ := 0 |})
                 (fun _ _ _ => 0) "log_log" with_history) = s')
    by (rewrite H1; reflexivity).
  assert (Hl : fst (main.get_products s') = main.Returned listing)
    by (rewrite H2; reflexivity).
  rewrite <- Hs in Hl. vm_compute in Hl. injection Hl as <-. reflexivity.
Defined.

(** ** The statements above on the sample instances *)

Lemma load_historical_data_stores_first_witness :
  (forall col, In col ["date"; "product_id"; "price"; "volume"] ->
     In col (columns few_observations_frame))
  /\ fst (load_historical_data (fun _ => None) few_observations_frame init)
     <> Ok tt
  /\ historical_data
       (snd (load_historical_data (fun _ => None) few_observations_frame init))
     = Some few_observations.
Proof.
  assert (Hcols : forall col, In col ["date"; "product_id"; "price"; "volume"] ->
                    In col (columns few_observations_frame))
    by (intros col H; exact H).
  split; [exact Hcols|].
  destruct (load_historical_data_stores_first (fun _ => None)
              few_observations_frame init Hcols)
    as [_ [_ [_ [[stored [Hst [_ [_ [_ Hraw]]]]] [Hok _]]]]].
  assert (Hfail : fst (load_historical_data (fun _ => None)
                         few_observations_frame init) <> Ok tt).
  { intros H. apply (proj1 Hok H). reflexivity. }
  split; [exact Hfail|]. rewrite Hst, (Hraw Hfail). reflexivity.
Defined.

Lemma elasticity_mapping_keys_witness :
  historical_data stale_cache = Some five_observations
  /\ exists results s',
       calculate_elasticity (fun x => x) constant_fit (fun _ _ _ => 0)
         "log_log" stale_cache = (Ok results, s')
       /\ is_Some (results !! "P001") /\ is_Some (results !! "P002")
       /\ elasticities s' !! "P004" = None.
Proof.
  split; [reflexivity|].
  destruct (elasticity_mapping_keys (fun x => x) constant_fit (fun _ _ _ => 0)
              "log_log" five_observations stale_cache eq_refl)
    as [results [s' [Heq [Hel Hkeys]]]].
  exists results, s'. split; [exact Heq|].
  split; [apply Hkeys; vm_compute; tauto|].
  split; [apply Hkeys; vm_compute; tauto|].
  rewrite Hel. destruct (results !! "P004") as [r|] eqn:Hr; [| reflexivity].
  exfalso. assert (Hin : In "P004" (List.map obs_product_id five_observations))
    by (apply Hkeys; eauto).
  vm_compute in Hin. repeat (destruct Hin as [Hin | Hin]; [discriminate|]).
  exact Hin.
Defined.

Lemma is_modeled_iff_five_valid_rows_witness :
  historical_data stale_cache = Some five_observations
  /\ exists results s',
       calculate_elasticity (fun x => x) constant_fit (fun _ _ _ => 0)
         "log_log" stale_cache = (Ok results, s')
       /\ (forall r, results !! "P001" = Some r ->
             is_modeled r = true /\ elasticity r = -1.2)
       /\ (forall r, results !! "P002" = Some r ->
             is_modeled r = false /\ elasticity r = -1).
Proof.
  split; [reflexivity|].
  destruct (is_modeled_iff_five_valid_rows (fun x => x) constant_fit
              (fun _ _ _ => 0) "log_log" five_observations stale_cache eq_refl)
    as [results [s' [Heq Hflag]]].
  exists results, s'. split; [exact Heq|]. split.
  - intros r Hr. destruct (Hflag "P001" r Hr) as [Hiff [_ Hcoef]].
    assert (Hm : is_modeled r = true) by (apply Hiff; vm_compute; lia).
    split; [exact Hm | exact (Hcoef Hm)].
  - intros r Hr. destruct (Hflag "P002" r Hr) as [Hiff [Hdef _]].
    assert (Hm : is_modeled r = false).
    { destruct (is_modeled r); [| reflexivity].
      pose proof (proj1 Hiff eq_refl) as H. vm_compute in H. lia. }
    split; [exact Hm | exact (proj1 (Hdef Hm))].
Defined.

Lemma model_cache_only_grows_witness :
  historical_data stale_cache = Some five_observations
  /\ exists results s',
       calculate_elasticity (fun x => x) constant_fit (fun _ _ _ => 0)
         "log_log" stale_cache = (Ok results, s')
       /\ models s' !! "P001" = Some {| coef_ := [-1.2]; intercept_ := 10 |}
       /\ models s' !! "P004" = Some {| coef_ := [-0.5]; intercept_ := 8 |}
       /\ results !! "P004" = None.
Proof.
  split; [reflexivity|].
  destruct (model_cache_only_grows (fun x => x) constant_fit (fun _ _ _ => 0)
              "log_log" five_observations stale_cache eq_refl)
    as [results [s' [Heq [Hfit [Hkeep _]]]]].
  exists results, s'. split; [exact Heq|]. split.
  - rewrite (Hfit "P001"); [reflexivity | vm_compute; tauto | vm_compute; lia].
  - split.
    + rewrite (Hkeep "P004"); [reflexivity|]. right. vm_compute. lia.
    + assert (Hr : fst (calculate_elasticity (fun x => x) constant_fit
                          (fun _ _ _ => 0) "log_log" stale_cache) = Ok results)
        by (rewrite Heq; reflexivity).
      vm_compute in Hr. injection Hr as <-. reflexivity.
Defined.

Lemma invalid_row_changes_no_estimate_witness :
  historical_data with_history = Some ([] ++ few_observations)%list
  /\ invalid {| date := "2023-02-01"; obs_product_id := "P001";
                price := 0; volume := 300 |}
  /\ exists r1 r2,
       fst (calculate_elasticity (fun x => x) constant_fit (fun _ _ _ => 0)
              "log_log" with_history) = Ok r1
       /\ fst (calculate_elasticity (fun x => x) constant_fit (fun _ _ _ => 0)
                 "log_log"
                 {| product_data := None;
                    historical_data :=
                      Some ({| date := "2023-02-01"; obs_product_id := "P001";
                               price := 0; volume := 300 |}
                            :: few_observations);
                    elasticities := ∅; models := ∅ |}) = Ok r2
       /\ r2 !! "P001" = r1 !! "P001".
Proof.
  assert (Hinv : invalid {| date := "2023-02-01"; obs_product_id := "P001";
                            price := 0; volume := 300 |})
    by (left; simpl; lra).
  split; [reflexivity|]. split; [exact Hinv|].
  destruct (invalid_row_changes_no_estimate (fun x => x) constant_fit
              (fun _ _ _ => 0) "log_log" [] few_observations _
              with_history
              {| product_data := None;
                 historical_data :=
                   Some ({| date := "2023-02-01"; obs_product_id := "P001";
                            price := 0; volume := 300 |} :: few_observations);
                 elasticities := ∅; models := ∅ |}
              eq_refl eq_refl Hinv)
    as [r1 [r2 [H1 [H2 [Hsame _]]]]].
  exists r1, r2. split; [exact H1|]. split; [exact H2|].
  apply Hsame. left. reflexivity.
Defined.
